(** * Voice Webchat: the voice-turn pipeline of [nodejs/server.js] and the
    browser client of [nodejs/public/app.js], embedded in Rocq.

    JavaScript values are modelled by the datatype [value]; strings are
    sequences of UTF-16 code units; a function that may throw returns a
    [result]; the calls to the three external services are recorded in a
    trace so that "service X was not contacted" is a statement about the
    trace. *)

From Stdlib Require Import List NArith ZArith String Ascii Bool Lia DecimalString.
From Stdlib.Strings Require Byte.
Import ListNotations.
Open Scope list_scope.

Set Implicit Arguments.
Set Warnings "-register-all".

(* ================================================================== *)
(** * JavaScript data *)
(* ================================================================== *)

Module JS.

(** A JavaScript string: its UTF-16 code units. *)
Definition jsstring := list N.

(** An ASCII literal of the source as a JavaScript string. *)
Definition str (s : string) : jsstring :=
  map N_of_ascii (list_ascii_of_string s).

Fixpoint jsstring_eqb (a b : jsstring) : bool :=
  match a, b with
  | [], [] => true
  | x :: a', y :: b' => N.eqb x y && jsstring_eqb a' b'
  | _, _ => false
  end.

(** [s.length === 0], i.e. the string is falsy. *)
Definition isEmpty (s : jsstring) : bool :=
  match s with [] => true | _ :: _ => false end.

(** ECMAScript WhiteSpace and LineTerminator code points, the characters
    that [String.prototype.trim] strips. *)
Definition isWhiteSpace (c : N) : bool :=
  (   (c =? 9) || (c =? 10) || (c =? 11) || (c =? 12) || (c =? 13)
   || (c =? 32) || (c =? 160) || (c =? 5760)
   || ((8192 <=? c) && (c <=? 8202))
   || (c =? 8232) || (c =? 8233) || (c =? 8239) || (c =? 8287)
   || (c =? 12288) || (c =? 65279))%N.

Fixpoint trimStart (s : jsstring) : jsstring :=
  match s with
  | [] => []
  | c :: s' => if isWhiteSpace c then trimStart s' else s
  end.

Definition trimEnd (s : jsstring) : jsstring := rev (trimStart (rev s)).

(** [s.trim()] *)
Definition trim (s : jsstring) : jsstring := trimEnd (trimStart s).

(** A string that [trimStart] leaves alone: empty, or starting with a
    character that is not white space. *)
Definition startsClean (s : jsstring) : Prop :=
  match s with [] => True | c :: _ => isWhiteSpace c = false end.

(** [a || b] on strings: [b] when [a] is the empty string. *)
Definition orDefault (a b : jsstring) : jsstring :=
  if isEmpty a then b else a.

Fixpoint isPrefix (p s : jsstring) : bool :=
  match p, s with
  | [], _ => true
  | x :: p', y :: s' => N.eqb x y && isPrefix p' s'
  | _ :: _, [] => false
  end.

(** [s.includes(p)] *)
Fixpoint includes (s p : jsstring) : bool :=
  isPrefix p s || match s with [] => false | _ :: s' => includes s' p end.

(** [s.replace(/\/$/, "")]: one trailing slash removed. *)
Definition stripTrailingSlash (s : jsstring) : jsstring :=
  match rev s with
  | c :: r => if N.eqb c 47 then rev r else s
  | [] => s
  end.

(** The [type] of [new Blob(parts, { type })]: the empty string when the
    given type has a character outside U+0020..U+007E, the given type in
    ASCII lower case otherwise. *)
Definition isTypeChar (c : N) : bool := ((32 <=? c) && (c <=? 126))%N.

Definition asciiLower (c : N) : N :=
  (if (65 <=? c) && (c <=? 90) then c + 32 else c)%N.

Definition blobType (t : jsstring) : jsstring :=
  if forallb isTypeChar t then map asciiLower t else [].

(** Decimal digits of a non-negative integer, as [String(n)] prints it. *)
Definition digits (n : nat) : jsstring :=
  str (NilEmpty.string_of_uint (Nat.to_uint n)).

(** A JavaScript value as far as this program sees one: what [JSON.parse]
    produces, plus [undefined].  A number [VNum m e] stands for
    [m * 10^e]; only its being zero or not is ever observed.  An object
    holds its own properties, at most one per key. *)
Inductive value : Type :=
| VUndefined
| VNull
| VBool (b : bool)
| VNum (m e : Z)
| VStr (s : jsstring)
| VArr (items : list value)
| VObj (props : list (jsstring * value)).

(** [!!v] *)
Definition truthy (v : value) : bool :=
  match v with
  | VUndefined | VNull => false
  | VBool b => b
  | VNum m _ => negb (Z.eqb m 0)
  | VStr s => negb (isEmpty s)
  | VArr _ | VObj _ => true
  end.

(** [v == null], the test made by [?.] and [??]. *)
Definition nullish (v : value) : bool :=
  match v with VUndefined | VNull => true | _ => false end.

(** [typeof v === "object"] *)
Definition typeofObject (v : value) : bool :=
  match v with VNull | VArr _ | VObj _ => true | _ => false end.

(** [v === s] for a string literal [s]. *)
Definition isString (v : value) (s : jsstring) : bool :=
  match v with VStr t => jsstring_eqb t s | _ => false end.

Fixpoint lookup (k : jsstring) (props : list (jsstring * value)) : value :=
  match props with
  | [] => VUndefined
  | (k', v) :: rest => if jsstring_eqb k' k then v else lookup k rest
  end.

(** What the program throws and catches.  Everything thrown by the code
    and by the platform ([new Error], [TypeError], [SyntaxError], a
    rejected [fetch], an SDK error) is an Error object; [Thrown] stands for
    any other thrown value, which the [instanceof Error] tests of the
    handlers tell apart. *)
Inductive exn : Type :=
| ErrorObject (name message : jsstring)
| Thrown (v : value).

Inductive result (A : Type) : Type :=
| Ok (a : A)
| Throw (e : exn).
Arguments Ok {A} a.
Arguments Throw {A} e.

Definition newError (message : jsstring) : exn :=
  ErrorObject (str "Error") message.

(** [v.k] for a property name [k] that no built-in prototype defines (all
    the names this program reads are such): a TypeError on [undefined] and
    [null], the own property of an object, [undefined] otherwise. *)
Definition member (v : value) (k : jsstring) : result value :=
  match v with
  | VUndefined =>
      Throw (ErrorObject (str "TypeError")
        (str "Cannot read properties of undefined (reading '" ++ k ++ str "')"))
  | VNull =>
      Throw (ErrorObject (str "TypeError")
        (str "Cannot read properties of null (reading '" ++ k ++ str "')"))
  | VObj props => Ok (lookup k props)
  | _ => Ok VUndefined
  end.

(** [v[0]] on a value that is not nullish. *)
Definition index0 (v : value) : value :=
  match v with
  | VArr (x :: _) => x
  | VStr (c :: _) => VStr [c]
  | VObj props => lookup (str "0") props
  | _ => VUndefined
  end.

(** [v?.k] inside an optional chain: [None] is the short circuit that makes
    the whole chain [undefined]. *)
Definition optMember (v : value) (k : jsstring) : option value :=
  match v with
  | VUndefined | VNull => None
  | VObj props => Some (lookup k props)
  | _ => Some VUndefined
  end.

Definition optIndex0 (v : value) : option value :=
  if nullish v then None else Some (index0 v).

End JS.
Export JS.

(* ================================================================== *)
(** * The platform around the server *)
(* ================================================================== *)

Module Platform.

(** How a call into the platform ends: a value, or a rejection (a thrown
    Error object with its name and message). *)
Inductive outcome (A : Type) : Type :=
| Fulfilled (a : A)
| Rejected (name message : jsstring).
Arguments Fulfilled {A} a.
Arguments Rejected {A} name message.

Definition settle {A} (o : outcome A) : result A :=
  match o with
  | Fulfilled a => Ok a
  | Rejected name message => Throw (ErrorObject name message)
  end.

(** What [fetch] followed by [response.text()] gives. *)
Record HttpReply : Type := { status : nat; text : jsstring }.

(** [response.ok] *)
Definition ok (r : HttpReply) : bool :=
  ((200 <=? status r) && (status r <=? 299))%nat.

(** The multipart form sent to the transcription server: the bytes, the
    type and the name of the file part, and the two text fields. *)
Record WhisperForm : Type := {
  file : list Byte.byte;
  file_type : jsstring;
  file_name : jsstring;
  response_format : jsstring;
  translate : option jsstring
}.

(** [{ role, content }] *)
Record Message : Type := { role : jsstring; content : jsstring }.

(** The argument of [openai.chat.completions.create]; the temperature
    [0.7] is kept as the decimal [7 * 10^-1]. *)
Record CompletionRequest : Type := {
  model : jsstring;
  messages : list Message;
  temperature : Z * Z
}.

(** The built-ins and the three external services.  [readFileSync] takes
    the arguments of the [path.resolve] call whose result is read. *)
Class Host : Type := {
  JSON_parse : jsstring -> outcome value;
  whisperServer : jsstring -> WhisperForm -> outcome HttpReply;
  completionService : CompletionRequest -> outcome value;
  ttsServer : jsstring -> value -> outcome HttpReply;
  readFileSync : list jsstring -> outcome (list Byte.byte);
  readFileSync_utf8 : list jsstring -> outcome jsstring
}.

(** [buffer.toString("base64")] *)
Definition base64Char (n : N) : N :=
  (if n <? 26 then 65 + n
   else if n <? 52 then 97 + (n - 26)
   else if n <? 62 then 48 + (n - 52)
   else if n =? 62 then 43 else 47)%N.

Fixpoint base64Units (bs : list N) : jsstring :=
  match bs with
  | [] => []
  | [a] =>
      [base64Char (N.shiftr a 2); base64Char (N.shiftl (N.land a 3) 4); 61; 61]%N
  | [a; b] =>
      [base64Char (N.shiftr a 2);
       base64Char (N.lor (N.shiftl (N.land a 3) 4) (N.shiftr b 4));
       base64Char (N.shiftl (N.land b 15) 2); 61]%N
  | a :: b :: c :: rest =>
      base64Char (N.shiftr a 2)
      :: base64Char (N.lor (N.shiftl (N.land a 3) 4) (N.shiftr b 4))
      :: base64Char (N.lor (N.shiftl (N.land b 15) 2) (N.shiftr c 6))
      :: base64Char (N.land c 63)
      :: base64Units rest
  end.

Definition toBase64 (buffer : list Byte.byte) : jsstring :=
  base64Units (map Byte.to_N buffer).

End Platform.
Export Platform.

(* ================================================================== *)
(** * Effects: a trace of what the server did *)
(* ================================================================== *)

Module Effects.

Inductive Event : Type :=
| CalledWhisper (url : jsstring) (form : WhisperForm)
| CalledCompletion (request : CompletionRequest)
| CalledTts (url : jsstring) (payload : value)
| ConsoleError (e : exn).

(** A computation: the events it caused, in order, and how it ended. *)
Definition M (A : Type) : Type := list Event * result A.

Definition ret {A} (a : A) : M A := ([], Ok a).
Definition throw {A} (e : exn) : M A := ([], Throw e).
Definition emit (ev : Event) : M unit := ([ev], Ok tt).
Definition lift {A} (r : result A) : M A := ([], r).

Definition bind {A B} (m : M A) (f : A -> M B) : M B :=
  match m with
  | (t, Ok a) => let (t', r) := f a in (t ++ t', r)
  | (t, Throw e) => (t, Throw e)
  end.

(** [try { m } catch (error) { handler(error) }] *)
Definition tryCatch {A} (m : M A) (handler : exn -> M A) : M A :=
  match m with
  | (t, Throw e) => let (t', r) := handler e in (t ++ t', r)
  | (t, Ok a) => (t, Ok a)
  end.

Definition trace {A} (m : M A) : list Event := fst m.
Definition outcomeOf {A} (m : M A) : result A := snd m.

Definition isServiceCall (ev : Event) : bool :=
  match ev with ConsoleError _ => false | _ => true end.

Definition isCompletionCall (ev : Event) : bool :=
  match ev with CalledCompletion _ => true | _ => false end.

Definition isTtsCall (ev : Event) : bool :=
  match ev with CalledTts _ _ => true | _ => false end.

End Effects.
Export Effects.

Declare Scope js_scope.
Delimit Scope js_scope with js.
Notation "x <- m ;; k" := (bind m (fun x => k))
  (at level 61, m at next level, right associativity) : js_scope.
Notation "m ;;; k" := (bind m (fun _ => k))
  (at level 61, right associativity) : js_scope.

(* ================================================================== *)
(** * nodejs/server.js *)
(* ================================================================== *)

Module Server.

Local Open Scope js_scope.

Record Config : Type := {
  appTitle : jsstring;
  whisperUrl : jsstring;
  whisperTranslate : bool;
  llmBaseUrl : jsstring;
  llmApiKey : jsstring;
  llmModel : jsstring;
  llmSystem : jsstring;
  llmPreprompt : jsstring;
  llmPostprompt : jsstring;
  qwenTtsUrl : jsstring;
  qwenTtsLang : jsstring
}.

(** [process.env.NAME ?? fallback] *)
Definition envOr (env : jsstring -> option jsstring) (name : string)
    (fallback : string) : jsstring :=
  match env (str name) with Some v => v | None => str fallback end.

(** [const config = { ... }], lines 15-30. *)
Definition config_of (env : jsstring -> option jsstring) : Config := {|
  appTitle := envOr env "APP_TITLE" "Voice Webchat";
  whisperUrl := envOr env "WHISPER_SERVER_URL" "http://127.0.0.1:9191/inference";
  whisperTranslate :=
    match env (str "WHISPER_TRANSLATE") with
    | Some v => jsstring_eqb v (str "true") || jsstring_eqb v (str "1")
    | None => false
    end;
  llmBaseUrl := envOr env "LLM_BASE_URL" "http://127.0.0.1:9090/v1";
  llmApiKey := envOr env "LLM_API_KEY" "LAN";
  llmModel := envOr env "LLM_MODEL" "qwen3";
  llmSystem := envOr env "LLM_SYSTEM" "You are a helpful assistant.";
  llmPreprompt :=
    envOr env "LLM_PREPROMPT"
      "Use the following transcription to respond conversationally.";
  llmPostprompt := envOr env "LLM_POSTPROMPT" "";
  qwenTtsUrl := envOr env "QWEN_TTS_URL" "http://127.0.0.1:8000";
  qwenTtsLang := envOr env "QWEN_TTS_LANG" "Auto"
|}.

(** The reference voice held in [referenceAudioBuffer] and
    [referenceText]. *)
Record ReferenceVoice : Type := {
  referenceAudioBuffer : list Byte.byte;
  referenceText : jsstring
}.

(** The file multer stores for the [audio] part. *)
Record UploadedFile : Type := {
  buffer : list Byte.byte;
  originalname : jsstring;
  mimetype : jsstring
}.

(** A request as multer hands it to the route.  For a multipart
    submission [req.file] is the [audio] part when there is one and
    [req.body] holds the text fields; a request that is not multipart is
    passed on untouched, with neither [req.file] nor [req.body]. *)
Inductive Request : Type :=
| NotMultipart
| Multipart (file : option UploadedFile) (fields : list (jsstring * value)).

(** [req.file] *)
Definition req_file (req : Request) : option UploadedFile :=
  match req with
  | Multipart file _ => file
  | NotMultipart => None
  end.

(** [req.body] *)
Definition req_body (req : Request) : value :=
  match req with
  | Multipart _ fields => VObj fields
  | NotMultipart => VUndefined
  end.

(** [res.status(code).json(body)] *)
Record Response : Type := { code : nat; json : value }.

Section WithHost.

Context {host : Host}.

(** Lines 32-42: the two paths, the two reads, the check of the text. *)
Definition referenceAudioPath (env : jsstring -> option jsstring)
    (dirname : jsstring) : list jsstring :=
  match env (str "REF_AUDIO_PATH") with
  | Some p => if isEmpty p then [dirname; str ".."; str "poppy.wav"] else [dirname; p]
  | None => [dirname; str ".."; str "poppy.wav"]
  end.

Definition referenceTextPath (env : jsstring -> option jsstring)
    (dirname : jsstring) : list jsstring :=
  match env (str "REF_TEXT_PATH") with
  | Some p => if isEmpty p then [dirname; str ".."; str "poppy.txt"] else [dirname; p]
  | None => [dirname; str ".."; str "poppy.txt"]
  end.

Definition loadReferenceVoice (env : jsstring -> option jsstring)
    (dirname : jsstring) : result ReferenceVoice :=
  match settle (readFileSync (referenceAudioPath env dirname)) with
  | Throw e => Throw e
  | Ok audio =>
      match settle (readFileSync_utf8 (referenceTextPath env dirname)) with
      | Throw e => Throw e
      | Ok txt =>
          let referenceText := trim txt in
          if isEmpty referenceText
          then Throw (newError (str "Reference text file is empty."))
          else Ok {| referenceAudioBuffer := audio;
                     referenceText := referenceText |}
      end
  end.

Variable config : Config.

(** [await fetch(config.whisperUrl, ...)] then [await response.text()]. *)
Definition fetchWhisper (url : jsstring) (form : WhisperForm) : M HttpReply :=
  emit (CalledWhisper url form) ;;; lift (settle (whisperServer url form)).

Definition fetchTts (url : jsstring) (payload : value) : M HttpReply :=
  emit (CalledTts url payload) ;;; lift (settle (ttsServer url payload)).

Definition createCompletion (request : CompletionRequest) : M value :=
  emit (CalledCompletion request) ;;; lift (settle (completionService request)).

Definition responseFormat : jsstring := str "text".

(** Lines 55-92. *)
Definition transcribeAudio (audioBuffer : list Byte.byte)
    (filename mimeType : jsstring) (translate : bool) : M jsstring :=
  let form := {|
    file := audioBuffer;
    file_type := blobType (orDefault mimeType (str "audio/webm"));
    file_name := orDefault filename (str "recording.webm");
    response_format := responseFormat;
    Platform.translate := if translate then Some (str "true") else None
  |} in
  response <- fetchWhisper (whisperUrl config) form ;;
  let raw := text response in
  if negb (ok response) then
    throw (newError (str "Whisper server error: " ++ digits (status response)
                     ++ str " " ++ raw))
  else if jsstring_eqb responseFormat (str "text") then
    ret (trim raw)
  else
    match settle (JSON_parse raw) with
    | Ok parsed =>
        match member parsed (str "text") with
        | Ok (VStr t) => ret (trim t)
        | _ => ret (trim raw)
        end
    | Throw _ => ret (trim raw)
    end.

(** The callback of the first [.filter], line 110:
    [entry && typeof entry === "object"]. *)
Definition objectLike (entry : value) : bool := truthy entry && typeofObject entry.

(** One entry of the [.map] callback of lines 111-115; [None] is [null]. *)
Definition normalizeEntry (entry : value) : result (option Message) :=
  match member entry (str "role") with
  | Throw e => Throw e
  | Ok r =>
      let role :=
        if isString r (str "assistant") then Some (str "assistant")
        else if isString r (str "user") then Some (str "user")
        else None in
      match member entry (str "content") with
      | Throw e => Throw e
      | Ok c =>
          let content := match c with VStr s => trim s | _ => [] end in
          match role with
          | Some role =>
              if negb (isEmpty content)
              then Ok (Some {| Platform.role := role; Platform.content := content |})
              else Ok None
          | None => Ok None
          end
      end
  end.

(** [array.map(f)] for a callback that may throw. *)
Fixpoint mapResult {A B} (f : A -> result B) (l : list A) : result (list B) :=
  match l with
  | [] => Ok []
  | x :: rest =>
      match f x with
      | Throw e => Throw e
      | Ok y =>
          match mapResult f rest with
          | Throw e => Throw e
          | Ok ys => Ok (y :: ys)
          end
      end
  end.

(** [.filter(Boolean)] on an array of objects and [null]s. *)
Fixpoint filterBoolean {A} (l : list (option A)) : list A :=
  match l with
  | [] => []
  | Some x :: rest => x :: filterBoolean rest
  | None :: rest => filterBoolean rest
  end.

(** Lines 94-117. *)
Definition normalizeChatHistory (raw : value) : result (list Message) :=
  if negb (truthy raw) then Ok []
  else
    let parsed :=
      match raw with
      | VStr s =>
          match settle (JSON_parse s) with
          | Ok v => Some v
          | Throw _ => None
          end
      | _ => Some raw
      end in
    match parsed with
    | None => Ok []
    | Some (VArr items) =>
        match mapResult normalizeEntry
                (filter objectLike items) with
        | Throw e => Throw e
        | Ok mapped => Ok (filterBoolean mapped)
        end
    | Some _ => Ok []
    end.

(** Lines 120-132: the message list. *)
Definition buildMessages (transcript : jsstring) (chatHistory : list Message)
    : list Message :=
  let messages :=
    [ {| role := str "system"; content := llmSystem config |};
      {| role := str "user"; content := llmPreprompt config |} ] in
  let messages :=
    if (0 <? List.length chatHistory)%nat then messages ++ chatHistory else messages in
  let messages := messages ++ [ {| role := str "user"; content := transcript |} ] in
  if negb (isEmpty (llmPostprompt config))
  then messages ++ [ {| role := str "user"; content := llmPostprompt config |} ]
  else messages.

(** [completion.choices?.[0]?.message?.content], line 140 without the
    final call. *)
Definition messageContent (completion : value) : result value :=
  match member completion (str "choices") with
  | Throw e => Throw e
  | Ok choices =>
      match optIndex0 choices with
      | None => Ok VUndefined
      | Some first =>
          match optMember first (str "message") with
          | None => Ok VUndefined
          | Some message =>
              match optMember message (str "content") with
              | None => Ok VUndefined
              | Some c => Ok c
              end
          end
      end
  end.

(** [content?.trim()]: skipped on [undefined] and [null], the trimmed
    string on a string, a TypeError on anything else (no [trim] method). *)
Definition optTrim (c : value) : result value :=
  match c with
  | VUndefined | VNull => Ok VUndefined
  | VStr s => Ok (VStr (trim s))
  | _ =>
      Throw (ErrorObject (str "TypeError")
        (str "completion.choices?.[0]?.message?.content?.trim is not a function"))
  end.

(** Lines 119-145. *)
Definition generateAssistantReply (transcript : jsstring)
    (chatHistory : list Message) : M jsstring :=
  let messages := buildMessages transcript chatHistory in
  completion <- createCompletion {| model := llmModel config;
                                    Platform.messages := messages;
                                    temperature := (7, -1)%Z |} ;;
  c <- lift (messageContent completion) ;;
  reply <- lift (optTrim c) ;;
  match reply with
  | VStr s =>
      if isEmpty s then throw (newError (str "LLM response was empty."))
      else ret s
  | _ => throw (newError (str "LLM response was empty."))
  end.

(** Lines 147-171. *)
Definition synthesizeSpeech (reply : jsstring) (refAudioBuffer : list Byte.byte)
    (refText synLang : jsstring) : M value :=
  let payload := VObj [
    (str "ref_audio_base64", VStr (toBase64 refAudioBuffer));
    (str "ref_text", VStr refText);
    (str "syn_text", VStr reply);
    (str "syn_lang", VStr synLang) ] in
  response <- fetchTts (stripTrailingSlash (qwenTtsUrl config) ++ str "/clone") payload ;;
  let responseBody := text response in
  if negb (ok response) then
    throw (newError (str "TTS server error: " ++ digits (status response)
                     ++ str " " ++ responseBody))
  else
    parsed <- lift (settle (JSON_parse responseBody)) ;;
    audio <- lift (member parsed (str "audio_base64")) ;;
    if negb (truthy audio)
    then throw (newError (str "TTS response missing audio_base64."))
    else ret audio.

(** [error instanceof Error ? error.message : "Unknown error."] *)
Definition errorMessage (e : exn) : jsstring :=
  match e with
  | ErrorObject _ message => message
  | Thrown _ => str "Unknown error."
  end.

Definition errorBody (message : jsstring) : value :=
  VObj [ (str "error", VStr message) ].

(** Lines 173-209: the route [POST /api/chat]. *)
Definition chatHandler (voice : ReferenceVoice) (req : Request) : M Response :=
  tryCatch
    (let audioFile := req_file req in
     let synLang :=
       orDefault (trim (orDefault (qwenTtsLang config) (str "Auto"))) (str "Auto") in
     let translate := whisperTranslate config in
     raw <- lift (member (req_body req) (str "chatHistory")) ;;
     chatHistory <- lift (normalizeChatHistory raw) ;;
     match audioFile with
     | None =>
         ret {| code := 400; json := errorBody (str "Missing recorded audio.") |}
     | Some audioFile =>
         transcript <- transcribeAudio (buffer audioFile) (originalname audioFile)
                         (mimetype audioFile) translate ;;
         assistantReply <- generateAssistantReply transcript chatHistory ;;
         audioBase64 <- synthesizeSpeech assistantReply (referenceAudioBuffer voice)
                          (referenceText voice) synLang ;;
         ret {| code := 200;
                json := VObj [ (str "transcript", VStr transcript);
                               (str "assistantReply", VStr assistantReply);
                               (str "audioBase64", audioBase64) ] |}
     end)
    (fun error =>
       emit (ConsoleError error) ;;;
       ret {| code := 500; json := errorBody (errorMessage error) |}).

End WithHost.

End Server.

(* ================================================================== *)
(** * nodejs/public/app.js and the staged client script *)
(* ================================================================== *)

Module Client.

(** What the page asks of the browser. *)
Class Browser : Type := {
  (** [window.isSecureContext] *)
  isSecureContext : bool;
  (** [window.MediaRecorder] is defined *)
  hasMediaRecorder : bool;
  (** [MediaRecorder.isTypeSupported], when it exists *)
  isTypeSupported : option (jsstring -> bool);
  (** [navigator.mediaDevices] is defined *)
  hasMediaDevices : bool;
  (** the [mimeType] property of a recorder built with these options *)
  recorderMimeType : option jsstring -> jsstring;
  (** [String(v)] for a value that is not a string *)
  toStringOf : value -> jsstring
}.

(** The two client scripts differ only in [sendRecording]: app.js posts to
    [/api/chat]; the staged script posts to [/api/transcribe], [/api/llm]
    and [/api/tts] in turn. *)
Inductive Script : Type := SingleEndpoint | Staged.

Inductive RecorderState : Type := Inactive | Recording.

(** A [MediaRecorder] object. *)
Record Recorder : Type := {
  stream : nat;
  state : RecorderState;
  mimeType : jsstring
}.

(** An element of [chatHistory]. *)
Record ChatEntry : Type := {
  role : jsstring;
  content : value;
  audioBase64 : value
}.

(** The multipart form of [sendRecording]. *)
Record Upload : Type := {
  audio : list Byte.byte;
  audioType : jsstring;            (* the [type] option the Blob is built with *)
  filename : jsstring;
  chatHistoryPayload : list (jsstring * value)
}.

(** A [fetch] of [sendRecording] that has not answered yet, with the
    locals its continuation uses. *)
Inductive Inflight : Type :=
| AwaitChat (form : Upload)
| AwaitTranscribe (form : Upload)
| AwaitLlm (transcript : jsstring) (payload : list (jsstring * value))
| AwaitTts (assistantReply : jsstring).

(** The module-level variables of the script, the two DOM texts it writes,
    and the asynchronous work it is waiting for. *)
Record Page : Type := {
  mediaRecorder : option nat;      (* index into [recorders]; None: undefined *)
  recorders : list Recorder;       (* the MediaRecorder objects created *)
  audioChunks : list (list Byte.byte);
  isRecording : bool;
  chatHistory : list ChatEntry;
  statusText : jsstring;           (* statusEl.textContent *)
  buttonText : jsstring;           (* recordButton.textContent *)
  buttonDisabled : bool;           (* recordButton.disabled *)
  deviceRequests : nat;            (* getUserMedia calls made so far *)
  micPending : nat;                (* getUserMedia calls not answered yet *)
  streamsGranted : nat;            (* streams handed out by the browser *)
  liveStreams : list nat;          (* streams whose tracks are not stopped *)
  stopPending : list nat;          (* recorders whose stop event is awaited *)
  inflight : list Inflight;
  playing : nat;                   (* sendRecording calls awaiting playback *)
  consoleErrors : list exn
}.

Definition preferredMimeTypes : list jsstring :=
  [ str "audio/webm;codecs=opus"; str "audio/webm";
    str "audio/ogg;codecs=opus"; str "audio/ogg" ].

Definition extensionForMimeType (mimeType : jsstring) : jsstring :=
  if isEmpty mimeType then str "webm"
  else if includes mimeType (str "ogg") then str "ogg"
  else if includes mimeType (str "wav") then str "wav"
  else if includes mimeType (str "webm") then str "webm"
  else str "webm".

(** ["name" in error] *)
Definition hasName (error : value) : bool :=
  match error with
  | VObj props => existsb (fun kv => jsstring_eqb (fst kv) (str "name")) props
  | _ => false
  end.

Definition formatMicError (error : value) : jsstring :=
  if truthy error && typeofObject error && hasName error then
    let name := match error with VObj props => lookup (str "name") props
                               | _ => VUndefined end in
    if isString name (str "NotAllowedError") then
      str "Microphone access was blocked. Allow it in the browser permissions."
    else if isString name (str "NotFoundError") then
      str "No microphone was found. Check your audio input."
    else if isString name (str "NotReadableError") then
      str "The microphone is in use by another application."
    else if isString name (str "SecurityError") then
      str "Microphone access requires HTTPS or localhost."
    else str "Failed to access microphone."
  else str "Failed to access microphone.".

(** Field updates. *)
Definition setStatus (message : jsstring) (p : Page) : Page :=
  {| mediaRecorder := mediaRecorder p; recorders := recorders p;
     audioChunks := audioChunks p; isRecording := isRecording p;
     chatHistory := chatHistory p; statusText := message;
     buttonText := buttonText p; buttonDisabled := buttonDisabled p;
     deviceRequests := deviceRequests p; micPending := micPending p;
     streamsGranted := streamsGranted p; liveStreams := liveStreams p;
     stopPending := stopPending p; inflight := inflight p;
     playing := playing p; consoleErrors := consoleErrors p |}.

Definition setChatHistory (h : list ChatEntry) (p : Page) : Page :=
  {| mediaRecorder := mediaRecorder p; recorders := recorders p;
     audioChunks := audioChunks p; isRecording := isRecording p;
     chatHistory := h; statusText := statusText p;
     buttonText := buttonText p; buttonDisabled := buttonDisabled p;
     deviceRequests := deviceRequests p; micPending := micPending p;
     streamsGranted := streamsGranted p; liveStreams := liveStreams p;
     stopPending := stopPending p; inflight := inflight p;
     playing := playing p; consoleErrors := consoleErrors p |}.

Definition setAudioChunks (c : list (list Byte.byte)) (p : Page) : Page :=
  {| mediaRecorder := mediaRecorder p; recorders := recorders p;
     audioChunks := c; isRecording := isRecording p;
     chatHistory := chatHistory p; statusText := statusText p;
     buttonText := buttonText p; buttonDisabled := buttonDisabled p;
     deviceRequests := deviceRequests p; micPending := micPending p;
     streamsGranted := streamsGranted p; liveStreams := liveStreams p;
     stopPending := stopPending p; inflight := inflight p;
     playing := playing p; consoleErrors := consoleErrors p |}.

(** [isRecording = b; updateRecordButton()] *)
Definition setIsRecording (b : bool) (p : Page) : Page :=
  {| mediaRecorder := mediaRecorder p; recorders := recorders p;
     audioChunks := audioChunks p; isRecording := b;
     chatHistory := chatHistory p; statusText := statusText p;
     buttonText := if b then str "Stop chatting" else str "Start chatting";
     buttonDisabled := buttonDisabled p;
     deviceRequests := deviceRequests p; micPending := micPending p;
     streamsGranted := streamsGranted p; liveStreams := liveStreams p;
     stopPending := stopPending p; inflight := inflight p;
     playing := playing p; consoleErrors := consoleErrors p |}.

Definition setRecorders (current : option nat) (rs : list Recorder) (p : Page)
    : Page :=
  {| mediaRecorder := current; recorders := rs;
     audioChunks := audioChunks p; isRecording := isRecording p;
     chatHistory := chatHistory p; statusText := statusText p;
     buttonText := buttonText p; buttonDisabled := buttonDisabled p;
     deviceRequests := deviceRequests p; micPending := micPending p;
     streamsGranted := streamsGranted p; liveStreams := liveStreams p;
     stopPending := stopPending p; inflight := inflight p;
     playing := playing p; consoleErrors := consoleErrors p |}.

Definition setMic (requests pending : nat) (p : Page) : Page :=
  {| mediaRecorder := mediaRecorder p; recorders := recorders p;
     audioChunks := audioChunks p; isRecording := isRecording p;
     chatHistory := chatHistory p; statusText := statusText p;
     buttonText := buttonText p; buttonDisabled := buttonDisabled p;
     deviceRequests := requests; micPending := pending;
     streamsGranted := streamsGranted p; liveStreams := liveStreams p;
     stopPending := stopPending p; inflight := inflight p;
     playing := playing p; consoleErrors := consoleErrors p |}.

Definition setStreams (granted : nat) (live : list nat) (p : Page) : Page :=
  {| mediaRecorder := mediaRecorder p; recorders := recorders p;
     audioChunks := audioChunks p; isRecording := isRecording p;
     chatHistory := chatHistory p; statusText := statusText p;
     buttonText := buttonText p; buttonDisabled := buttonDisabled p;
     deviceRequests := deviceRequests p; micPending := micPending p;
     streamsGranted := granted; liveStreams := live;
     stopPending := stopPending p; inflight := inflight p;
     playing := playing p; consoleErrors := consoleErrors p |}.

Definition setStopPending (l : list nat) (p : Page) : Page :=
  {| mediaRecorder := mediaRecorder p; recorders := recorders p;
     audioChunks := audioChunks p; isRecording := isRecording p;
     chatHistory := chatHistory p; statusText := statusText p;
     buttonText := buttonText p; buttonDisabled := buttonDisabled p;
     deviceRequests := deviceRequests p; micPending := micPending p;
     streamsGranted := streamsGranted p; liveStreams := liveStreams p;
     stopPending := l; inflight := inflight p;
     playing := playing p; consoleErrors := consoleErrors p |}.

Definition setInflight (l : list Inflight) (p : Page) : Page :=
  {| mediaRecorder := mediaRecorder p; recorders := recorders p;
     audioChunks := audioChunks p; isRecording := isRecording p;
     chatHistory := chatHistory p; statusText := statusText p;
     buttonText := buttonText p; buttonDisabled := buttonDisabled p;
     deviceRequests := deviceRequests p; micPending := micPending p;
     streamsGranted := streamsGranted p; liveStreams := liveStreams p;
     stopPending := stopPending p; inflight := l;
     playing := playing p; consoleErrors := consoleErrors p |}.

Definition setPlaying (n : nat) (p : Page) : Page :=
  {| mediaRecorder := mediaRecorder p; recorders := recorders p;
     audioChunks := audioChunks p; isRecording := isRecording p;
     chatHistory := chatHistory p; statusText := statusText p;
     buttonText := buttonText p; buttonDisabled := buttonDisabled p;
     deviceRequests := deviceRequests p; micPending := micPending p;
     streamsGranted := streamsGranted p; liveStreams := liveStreams p;
     stopPending := stopPending p; inflight := inflight p;
     playing := n; consoleErrors := consoleErrors p |}.

(** [console.error(error)] *)
Definition consoleError (e : exn) (p : Page) : Page :=
  {| mediaRecorder := mediaRecorder p; recorders := recorders p;
     audioChunks := audioChunks p; isRecording := isRecording p;
     chatHistory := chatHistory p; statusText := statusText p;
     buttonText := buttonText p; buttonDisabled := buttonDisabled p;
     deviceRequests := deviceRequests p; micPending := micPending p;
     streamsGranted := streamsGranted p; liveStreams := liveStreams p;
     stopPending := stopPending p; inflight := inflight p;
     playing := playing p; consoleErrors := consoleErrors p ++ [e] |}.

(** [appendChatMessage(role, content, audioBase64 = null)] *)
Definition appendChatMessage (role : jsstring) (content : value)
    (audioBase64 : value) (p : Page) : Page :=
  if negb (truthy content) then p
  else
    let audioBase64 :=
      match audioBase64 with VUndefined => VNull | a => a end in
    setChatHistory
      (chatHistory p ++ [ {| role := role; content := content;
                             audioBase64 := audioBase64 |} ]) p.

(** [clearChat()] *)
Definition clearChat (p : Page) : Page := setChatHistory [] p.

Section WithBrowser.

Context {browser : Browser}.
Variable script : Script.

(** The page once the script has been loaded: lines 8-11, 153-159 and
    276-278.  [initialStatus] is the text the markup puts in the status
    line. *)
Definition initial (initialStatus : jsstring) : Page :=
  {| mediaRecorder := None; recorders := []; audioChunks := [];
     isRecording := false; chatHistory := [];
     statusText :=
       if isSecureContext then initialStatus
       else str "Microphone access requires HTTPS or localhost.";
     buttonText := str "Start chatting";
     buttonDisabled := negb isSecureContext;
     deviceRequests := 0; micPending := 0; streamsGranted := 0;
     liveStreams := []; stopPending := []; inflight := [];
     playing := 0; consoleErrors := [] |}.

Definition getSupportedMimeType : jsstring :=
  if negb hasMediaRecorder then []
  else
    match isTypeSupported with
    | None => []
    | Some supported =>
        match find supported preferredMimeTypes with
        | Some t => t
        | None => []
        end
    end.

(** [error instanceof Error ? error.message : fallback] *)
Definition messageOr (fallback : string) (e : exn) : jsstring :=
  match e with
  | ErrorObject _ message => message
  | Thrown _ => str fallback
  end.

(** A step of an [async] function: the page when the step ends, and the
    error if the step threw. *)
Definition Run : Type := Page * option exn.

(** [startRecording], lines 161-171: up to the [await] of
    [getUserMedia]. *)
Definition startRecording (p : Page) : Run :=
  if isRecording p then (p, None)
  else
    let p := setStatus (str "Requesting microphone access...") p in
    if negb hasMediaDevices then
      (p, Some (newError (formatMicError
                  (VObj [ (str "name", VStr (str "TypeError")) ]))))
    else
      (setMic (S (deviceRequests p)) (S (micPending p)) p, None).

(** [startRecording], lines 169-171, when the device request is refused
    with [error]. *)
Definition startRecording_denied (error : value) (p : Page) : Run :=
  (setMic (deviceRequests p) (pred (micPending p)) p,
   Some (newError (formatMicError error))).

(** [startRecording], lines 172-190, when the device request is granted:
    a new stream, a new recorder on it, started. *)
Definition startRecording_granted (p : Page) : Run :=
  let id := streamsGranted p in
  let p := setMic (deviceRequests p) (pred (micPending p)) p in
  let p := setStreams (S id) (liveStreams p ++ [id]) p in
  let preferredMimeType := getSupportedMimeType in
  let options :=
    if isEmpty preferredMimeType then None else Some preferredMimeType in
  if negb hasMediaRecorder then
    (p, Some (ErrorObject (str "ReferenceError")
                (str "MediaRecorder is not defined")))
  else
    let recorder := {| stream := id; state := Recording;
                       mimeType := recorderMimeType options |} in
    let p := setRecorders (Some (List.length (recorders p)))
               (recorders p ++ [recorder]) p in
    let p := setAudioChunks [] p in
    let p := setIsRecording true p in
    (setStatus (str "Listening...") p, None).

Definition currentRecorder (p : Page) : option Recorder :=
  match mediaRecorder p with
  | Some i => nth_error (recorders p) i
  | None => None
  end.

Fixpoint inactivate (i : nat) (rs : list Recorder) : list Recorder :=
  match rs, i with
  | [], _ => []
  | r :: rest, O =>
      {| stream := stream r; state := Inactive; mimeType := mimeType r |} :: rest
  | r :: rest, S j => r :: inactivate j rest
  end.

(** [stopRecording], lines 193-208: up to the [await] of the recorder's
    stop event. *)
Definition stopRecording (p : Page) : Page :=
  match mediaRecorder p, currentRecorder p with
  | Some i, Some r =>
      match state r with
      | Inactive => p
      | Recording =>
          let p := setStatus (str "Finalizing recording...") p in
          let p := setRecorders (Some i) (inactivate i (recorders p)) p in
          setStopPending (stopPending p ++ [i]) p
      end
  | _, _ => p
  end.

(** [sendRecording], lines 219-231: up to the [await] of the first
    [fetch]. *)
Definition sendRecording (audioBlob : list Byte.byte) (blobType fname : jsstring)
    (p : Page) : Page :=
  let resolvedFilename := orDefault fname (str "recording.webm") in
  let payload := map (fun e => (role e, content e)) (chatHistory p) in
  let form := {| audio := audioBlob; audioType := blobType;
                 filename := resolvedFilename;
                 chatHistoryPayload := payload |} in
  match script with
  | SingleEndpoint =>
      setInflight (inflight p ++ [AwaitChat form])
        (setStatus (str "Uploading audio...") p)
  | Staged =>
      setInflight (inflight p ++ [AwaitTranscribe form])
        (setStatus (str "Transcribing audio...") p)
  end.

(** [stopRecording], lines 210-216, once the stop event has come. *)
Definition stopRecording_stopped (p : Page) : Run :=
  let p := setIsRecording false p in
  match currentRecorder p with
  | None =>
      (p, Some (ErrorObject (str "TypeError")
                  (str "Cannot read properties of undefined (reading 'mimeType')")))
  | Some r =>
      let mimeType := orDefault (mimeType r) (str "audio/webm") in
      let extension := extensionForMimeType mimeType in
      let audioBlob := List.concat (audioChunks p) in
      (sendRecording audioBlob mimeType (str "recording." ++ extension) p, None)
  end.

(** The [.catch] of the click listener, lines 262-267. *)
Definition actionCatch (r : Run) : Page :=
  match r with
  | (p, None) => p
  | (p, Some error) =>
      setStatus (messageOr "Failed to start or stop recording." error)
        (consoleError error p)
  end.

(** The [catch] of [sendRecording], lines 254-257. *)
Definition requestFailed (error : exn) (p : Page) : Page :=
  setStatus (messageOr "Request failed." error) (consoleError error p).

(** [new Error(data.error || "Request failed.")] *)
Definition errorOf (data : value) : exn :=
  match member data (str "error") with
  | Throw e => e
  | Ok v =>
      if truthy v
      then newError (match v with VStr s => s | _ => toStringOf v end)
      else newError (str "Request failed.")
  end.

(** [data.k] once [data] is known not to be [undefined] or [null]. *)
Definition prop (data : value) (k : string) : value :=
  match data with VObj props => lookup (str k) props | _ => VUndefined end.

(** app.js, lines 233-253: the answer of [/api/chat]. *)
Definition chatAnswered (ok : bool) (data : value) (p : Page) : Page :=
  let p := setStatus (str "Transcribing audio and generating reply...") p in
  if negb ok then requestFailed (errorOf data) p
  else
    match member data (str "audioBase64") with
    | Throw e => requestFailed e p
    | Ok audioBase64 =>
        let p := if truthy audioBase64
                 then setStatus (str "Synthesizing speech...") p else p in
        let p := if truthy (prop data "transcript")
                 then appendChatMessage (str "user") (prop data "transcript")
                        VUndefined p
                 else p in
        if truthy (prop data "assistantReply") then
          let p := appendChatMessage (str "assistant") (prop data "assistantReply")
                     (if truthy audioBase64 then audioBase64 else VNull) p in
          if truthy audioBase64
          then setPlaying (S (playing p)) p
          else setStatus (str "Ready.") p
        else setStatus (str "Ready.") p
    end.

(** [typeof v === "string" ? v : ""] *)
Definition stringOrEmpty (v : value) : jsstring :=
  match v with VStr s => s | _ => [] end.

(** Staged script: the answer of [/api/transcribe]. *)
Definition transcribeAnswered (ok : bool) (data : value) (form : Upload)
    (p : Page) : Page :=
  if negb ok then requestFailed (errorOf data) p
  else
    match member data (str "transcript") with
    | Throw e => requestFailed e p
    | Ok t =>
        let transcript := stringOrEmpty t in
        if isEmpty transcript
        then requestFailed (newError (str "Transcription was empty.")) p
        else
          let p := appendChatMessage (str "user") (VStr transcript) VUndefined p in
          let p := setStatus (str "Thinking about it...") p in
          setInflight (inflight p ++ [AwaitLlm transcript (chatHistoryPayload form)]) p
    end.

(** Staged script: the answer of [/api/llm]. *)
Definition llmAnswered (ok : bool) (data : value) (p : Page) : Page :=
  if negb ok then requestFailed (errorOf data) p
  else
    match member data (str "assistantReply") with
    | Throw e => requestFailed e p
    | Ok r =>
        let assistantReply := stringOrEmpty r in
        if isEmpty assistantReply
        then requestFailed (newError (str "LLM response was empty.")) p
        else
          let p := setStatus (str "Finding the words...") p in
          setInflight (inflight p ++ [AwaitTts assistantReply]) p
    end.

(** Staged script: the answer of [/api/tts]. *)
Definition ttsAnswered (ok : bool) (data : value) (assistantReply : jsstring)
    (p : Page) : Page :=
  if negb ok then requestFailed (errorOf data) p
  else
    match member data (str "audioBase64") with
    | Throw e => requestFailed e p
    | Ok a =>
        let audioBase64 := match a with VStr s => VStr s | _ => VNull end in
        let p := appendChatMessage (str "assistant") (VStr assistantReply)
                   audioBase64 p in
        if truthy audioBase64
        then setPlaying (S (playing p)) p
        else setStatus (str "Ready.") p
    end.

Fixpoint removeNth {A} (n : nat) (l : list A) : list A :=
  match l, n with
  | [], _ => []
  | _ :: rest, O => rest
  | x :: rest, S m => x :: removeNth m rest
  end.

(** What can happen to the page. *)
Inductive PageEvent : Type :=
| ClickRecord
| ClickClear
| MicGranted
| MicDenied (error : value)
| DataAvailable (data : list Byte.byte)
| RecorderStopped (recorder : nat)
| Answered (n : nat) (ok : bool) (body : outcome value)
| FetchFailed (n : nat) (name message : jsstring)
| PlaybackSettled.

(** The continuation of the [n]-th pending [fetch] on its answer. *)
Definition answered (call : Inflight) (ok : bool) (body : outcome value)
    (p : Page) : Page :=
  match body with
  | Rejected name message => requestFailed (ErrorObject name message) p
  | Fulfilled data =>
      match call with
      | AwaitChat _ => chatAnswered ok data p
      | AwaitTranscribe form => transcribeAnswered ok data form p
      | AwaitLlm _ _ => llmAnswered ok data p
      | AwaitTts assistantReply => ttsAnswered ok data assistantReply p
      end
  end.

(** One turn of the event loop. *)
Definition step (e : PageEvent) (p : Page) : Page :=
  match e with
  | ClickRecord =>
      if buttonDisabled p then p
      else if isRecording p then stopRecording p
      else actionCatch (startRecording p)
  | ClickClear => clearChat p
  | MicGranted =>
      if (micPending p =? 0)%nat then p
      else actionCatch (startRecording_granted p)
  | MicDenied error =>
      if (micPending p =? 0)%nat then p
      else actionCatch (startRecording_denied error p)
  | DataAvailable data =>
      if (0 <? List.length data)%nat
      then setAudioChunks (audioChunks p ++ [data]) p
      else p
  | RecorderStopped i =>
      match nth_error (recorders p) i with
      | None => p
      | Some r =>
          let p := setRecorders (mediaRecorder p) (inactivate i (recorders p)) p in
          let p := setStreams (streamsGranted p)
                     (filter (fun s => negb (s =? stream r)%nat) (liveStreams p)) p in
          if existsb (Nat.eqb i) (stopPending p) then
            actionCatch
              (stopRecording_stopped
                 (setStopPending
                    (filter (fun j => negb (j =? i)%nat) (stopPending p)) p))
          else p
      end
  | Answered n ok body =>
      match nth_error (inflight p) n with
      | None => p
      | Some call => answered call ok body (setInflight (removeNth n (inflight p)) p)
      end
  | FetchFailed n name message =>
      match nth_error (inflight p) n with
      | None => p
      | Some _ =>
          requestFailed (ErrorObject name message)
            (setInflight (removeNth n (inflight p)) p)
      end
  | PlaybackSettled =>
      if (playing p =? 0)%nat then p
      else setStatus (str "Ready.") (setPlaying (pred (playing p)) p)
  end.

Definition run (events : list PageEvent) (p : Page) : Page :=
  fold_left (fun q e => step e q) events p.

End WithBrowser.

(** A stored turn has truthy content. *)
Definition truthyContent (e : ChatEntry) : Prop := truthy (content e) = true.

(** The history of [q] is that of [p] with turns of truthy content added at
    its end (none, possibly). *)
Definition grows (p q : Page) : Prop :=
  exists added, chatHistory q = chatHistory p ++ added /\ Forall truthyContent added.

(** The two turns a successful answer adds. *)
Definition userTurn (transcript : jsstring) : ChatEntry :=
  {| role := str "user"; content := VStr transcript; audioBase64 := VNull |}.

Definition assistantTurn (reply : jsstring) (audio : value) : ChatEntry :=
  {| role := str "assistant"; content := VStr reply; audioBase64 := audio |}.

End Client.

(* ================================================================== *)
(** * The route, stage by stage *)
(* ================================================================== *)

(** Names for what each adapter sends and for the nested [try] of the
    route written out; [PipelineFacts.chatHandler_stages] proves the
    latter equal to [Server.chatHandler]. *)
Module Stages.
Import Server.

Section WithHost.

Context {host : Host}.
Variable config : Config.

(** The form [transcribeAudio] sends. *)
Definition whisperForm (f : UploadedFile) : WhisperForm :=
  {| file := buffer f;
     file_type := blobType (orDefault (mimetype f) (str "audio/webm"));
     file_name := orDefault (originalname f) (str "recording.webm");
     response_format := str "text";
     translate := if whisperTranslate config then Some (str "true") else None |}.

Definition transcribe (f : UploadedFile) : M jsstring :=
  transcribeAudio config (buffer f) (originalname f) (mimetype f)
    (whisperTranslate config).

(** The request [generateAssistantReply] sends. *)
Definition completionRequest (transcript : jsstring) (history : list Message)
    : CompletionRequest :=
  {| model := llmModel config;
     messages := buildMessages config transcript history;
     temperature := (7, -1)%Z |}.

(** How [generateAssistantReply] ends on a completion. *)
Definition replyOf (completion : value) : result jsstring :=
  match messageContent completion with
  | Throw e => Throw e
  | Ok c =>
      match optTrim c with
      | Throw e => Throw e
      | Ok (VStr s) =>
          if isEmpty s then Throw (newError (str "LLM response was empty."))
          else Ok s
      | Ok _ => Throw (newError (str "LLM response was empty."))
      end
  end.

(** The payload [synthesizeSpeech] sends. *)
Definition clonePayload (reply : jsstring) (voice : ReferenceVoice)
    (synLang : jsstring) : value :=
  VObj [ (str "ref_audio_base64", VStr (toBase64 (referenceAudioBuffer voice)));
         (str "ref_text", VStr (referenceText voice));
         (str "syn_text", VStr reply);
         (str "syn_lang", VStr synLang) ].

Definition cloneUrl : jsstring :=
  stripTrailingSlash (qwenTtsUrl config) ++ str "/clone".

Definition synLangOf : jsstring :=
  orDefault (trim (orDefault (qwenTtsLang config) (str "Auto"))) (str "Auto").

Definition synthesize (reply : jsstring) (voice : ReferenceVoice) : M value :=
  synthesizeSpeech config reply (referenceAudioBuffer voice) (referenceText voice)
    synLangOf.

Definition okBody (transcript reply : jsstring) (audio : value) : value :=
  VObj [ (str "transcript", VStr transcript);
         (str "assistantReply", VStr reply);
         (str "audioBase64", audio) ].

Definition failure (e : exn) : Response :=
  {| code := 500; json := errorBody (errorMessage e) |}.

(** The history the route works with. *)
Definition historyOf (req : Request) : list Message :=
  match member (req_body req) (str "chatHistory") with
  | Ok raw =>
      match normalizeChatHistory raw with
      | Ok h => h
      | Throw _ => []
      end
  | Throw _ => []
  end.

(** The route, stage by stage. *)
Definition stages (voice : ReferenceVoice) (req : Request) : M Response :=
  match member (req_body req) (str "chatHistory") with
  | Throw e => ([ConsoleError e], Ok (failure e))
  | Ok _ =>
  match req_file req with
  | None => ([], Ok {| code := 400; json := errorBody (str "Missing recorded audio.") |})
  | Some f =>
      match transcribe f with
      | (t1, Throw e) => (t1 ++ [ConsoleError e], Ok (failure e))
      | (t1, Ok transcript) =>
          match generateAssistantReply config transcript (historyOf req) with
          | (t2, Throw e) => (t1 ++ t2 ++ [ConsoleError e], Ok (failure e))
          | (t2, Ok reply) =>
              match synthesize reply voice with
              | (t3, Throw e) => (t1 ++ t2 ++ t3 ++ [ConsoleError e], Ok (failure e))
              | (t3, Ok audio) =>
                  (t1 ++ t2 ++ t3,
                   Ok {| code := 200; json := okBody transcript reply audio |})
              end
          end
      end
  end
  end.

End WithHost.

End Stages.

(* ================================================================== *)
(** * A JSON reader, to run the model on concrete texts *)
(* ================================================================== *)

(** The theorems below hold for every [Host]; this module gives one
    [JSON_parse] to instantiate them with: the JSON grammar of ECMA-404,
    numbers kept as decimal mantissa and exponent, the last of several
    equal keys winning.  The message of its SyntaxError is a fixed text
    (engines word theirs differently). *)
Module Json.

Definition isJsonSpace (c : N) : bool :=
  ((c =? 32) || (c =? 9) || (c =? 10) || (c =? 13))%N.

Fixpoint skipSpace (s : jsstring) : jsstring :=
  match s with
  | c :: r => if isJsonSpace c then skipSpace r else s
  | [] => []
  end.

Definition isDigit (c : N) : bool := ((48 <=? c) && (c <=? 57))%N.

Definition hexValue (c : N) : option N :=
  (if isDigit c then Some (c - 48)
   else if (97 <=? c) && (c <=? 102) then Some (c - 87)
   else if (65 <=? c) && (c <=? 70) then Some (c - 55)
   else None)%N.

Definition hex4 (a b c d : N) : option N :=
  match hexValue a, hexValue b, hexValue c, hexValue d with
  | Some x, Some y, Some z, Some w => Some (((x * 16 + y) * 16 + z) * 16 + w)%N
  | _, _, _, _ => None
  end.

Definition escaped (c : N) : option N :=
  (if c =? 34 then Some 34 else if c =? 92 then Some 92
   else if c =? 47 then Some 47 else if c =? 98 then Some 8
   else if c =? 102 then Some 12 else if c =? 110 then Some 10
   else if c =? 114 then Some 13 else if c =? 116 then Some 9
   else None)%N.

(** The characters of a string literal after its opening quote. *)
Fixpoint readChars (s acc : jsstring) : option (jsstring * jsstring) :=
  match s with
  | [] => None
  | c :: r =>
      if (c =? 34)%N then Some (rev acc, r)
      else if (c =? 92)%N then
        match r with
        | e :: r' =>
            if (e =? 117)%N then
              match r' with
              | h1 :: h2 :: h3 :: h4 :: r'' =>
                  match hex4 h1 h2 h3 h4 with
                  | Some u => readChars r'' (u :: acc)
                  | None => None
                  end
              | _ => None
              end
            else
              match escaped e with
              | Some u => readChars r' (u :: acc)
              | None => None
              end
        | [] => None
        end
      else if (c <? 32)%N then None
      else readChars r (c :: acc)
  end.

Fixpoint readDigits (s acc : jsstring) : jsstring * jsstring :=
  match s with
  | c :: r => if isDigit c then readDigits r (c :: acc) else (rev acc, s)
  | [] => (rev acc, [])
  end.

Definition numberOf (ds : jsstring) : Z :=
  fold_left (fun n d => (n * 10 + Z.of_N (d - 48))%Z) ds 0%Z.

(** A number literal: [-? int frac? exp?]. *)
Definition readNumber (s : jsstring) : option (value * jsstring) :=
  let (negative, s) :=
    match s with
    | c :: r => if (c =? 45)%N then (true, r) else (false, s)
    | [] => (false, s)
    end in
  let (int, s) := readDigits s [] in
  match int with
  | [] => None
  | d :: more =>
      if (d =? 48)%N && negb (isEmpty more) then None
      else
        let fraction :=
          match s with
          | c :: r =>
              if (c =? 46)%N then
                let (ds, r') := readDigits r [] in
                if isEmpty ds then None else Some (ds, r')
              else Some ([], s)
          | [] => Some ([], s)
          end in
        match fraction with
        | None => None
        | Some (frac, s) =>
            let exponent :=
              match s with
              | c :: r =>
                  if (c =? 101)%N || (c =? 69)%N then
                    let (minus, r) :=
                      match r with
                      | g :: r' =>
                          if (g =? 45)%N then (true, r')
                          else if (g =? 43)%N then (false, r')
                          else (false, r)
                      | [] => (false, r)
                      end in
                    let (ds, r') := readDigits r [] in
                    if isEmpty ds then None
                    else Some (if minus then (- numberOf ds)%Z else numberOf ds, r')
                  else Some (0%Z, s)
              | [] => Some (0%Z, s)
              end in
            match exponent with
            | None => None
            | Some (e, s) =>
                let m := numberOf (int ++ frac) in
                Some (VNum (if negative then - m else m)%Z
                           (e - Z.of_nat (List.length frac))%Z, s)
            end
        end
  end.

(** [props[k] = v] on an object under construction. *)
Fixpoint define (k : jsstring) (v : value) (props : list (jsstring * value))
    : list (jsstring * value) :=
  match props with
  | [] => [(k, v)]
  | (k', v') :: rest =>
      if jsstring_eqb k' k then (k', v) :: rest else (k', v') :: define k v rest
  end.

Fixpoint readValue (fuel : nat) (s : jsstring) : option (value * jsstring) :=
  match fuel with
  | O => None
  | S fuel' =>
      match skipSpace s with
      | [] => None
      | c :: r =>
          if (c =? 34)%N then
            match readChars r [] with
            | Some (t, r') => Some (VStr t, r')
            | None => None
            end
          else if (c =? 91)%N then
            match skipSpace r with
            | c' :: r' =>
                if (c' =? 93)%N then Some (VArr [], r')
                else readElements fuel' r []
            | [] => None
            end
          else if (c =? 123)%N then
            match skipSpace r with
            | c' :: r' =>
                if (c' =? 125)%N then Some (VObj [], r')
                else readMembers fuel' r []
            | [] => None
            end
          else if isPrefix (str "true") (c :: r) then Some (VBool true, skipn 3 r)
          else if isPrefix (str "false") (c :: r) then Some (VBool false, skipn 4 r)
          else if isPrefix (str "null") (c :: r) then Some (VNull, skipn 3 r)
          else readNumber (c :: r)
      end
  end

with readElements (fuel : nat) (s : jsstring) (acc : list value)
    : option (value * jsstring) :=
  match fuel with
  | O => None
  | S fuel' =>
      match readValue fuel' s with
      | None => None
      | Some (v, r) =>
          match skipSpace r with
          | c :: r' =>
              if (c =? 44)%N then readElements fuel' r' (v :: acc)
              else if (c =? 93)%N then Some (VArr (rev (v :: acc)), r')
              else None
          | [] => None
          end
      end
  end

with readMembers (fuel : nat) (s : jsstring) (acc : list (jsstring * value))
    : option (value * jsstring) :=
  match fuel with
  | O => None
  | S fuel' =>
      match skipSpace s with
      | q :: r =>
          if (q =? 34)%N then
            match readChars r [] with
            | None => None
            | Some (k, r1) =>
                match skipSpace r1 with
                | colon :: r2 =>
                    if (colon =? 58)%N then
                      match readValue fuel' r2 with
                      | None => None
                      | Some (v, r3) =>
                          match skipSpace r3 with
                          | c :: r4 =>
                              if (c =? 44)%N then readMembers fuel' r4 (define k v acc)
                              else if (c =? 125)%N then Some (VObj (define k v acc), r4)
                              else None
                          | [] => None
                          end
                      end
                    else None
                | [] => None
                end
            end
          else None
      | [] => None
      end
  end.

Definition syntaxError : outcome value :=
  Rejected (str "SyntaxError") (str "Unexpected token in JSON").

Definition parse (s : jsstring) : outcome value :=
  match readValue (S (List.length s)) s with
  | Some (v, rest) =>
      if isEmpty (skipSpace rest) then Fulfilled v else syntaxError
  | None => syntaxError
  end.

End Json.

(* ================================================================== *)
(** * The words of the specification *)
(* ================================================================== *)

Module Spec.

(** A valid history entry as the specification describes it: an object
    whose role is "user" or "assistant" and whose content is a string that
    is not empty once trimmed. *)
Definition validEntry (entry : value) : bool :=
  match entry with
  | VObj props =>
      (isString (lookup (str "role") props) (str "user")
       || isString (lookup (str "role") props) (str "assistant"))
      && match lookup (str "content") props with
         | VStr c => negb (isEmpty (trim c))
         | _ => false
         end
  | _ => false
  end.

(** The turn a valid entry stands for: its role, its content trimmed. *)
Definition turnOf (entry : value) : Message :=
  match entry with
  | VObj props =>
      {| role := match lookup (str "role") props with VStr r => r | _ => [] end;
         content := match lookup (str "content") props with
                    | VStr c => trim c
                    | _ => []
                    end |}
  | _ => {| role := []; content := [] |}
  end.

(** The invariant of a stored turn. *)
Definition wellFormedTurn (m : Message) : Prop :=
  (role m = str "user" \/ role m = str "assistant")
  /\ trim (content m) = content m
  /\ content m <> [].

(** The normalized history the specification asks for. *)
Definition normalizedHistory (items : list value) : list Message :=
  map turnOf (filter validEntry items).

Section WithHost.

Context {host : Host}.

(** The payload is an array of entries: given as an array, or as a text
    that [JSON.parse] reads as one. *)
Definition arrayPayload (raw : value) (items : list value) : Prop :=
  raw = VArr items
  \/ exists s, s <> [] /\ raw = VStr s /\ JSON_parse s = Fulfilled (VArr items).

(** A payload that is no array of entries at all: absent, [null], a text
    that [JSON.parse] rejects, or a value (given or parsed) that is not an
    array. *)
Definition malformedPayload (raw : value) : Prop :=
  match raw with
  | VStr s =>
      match JSON_parse s with
      | Fulfilled (VArr _) => False
      | _ => True
      end
  | VArr _ => False
  | _ => True
  end.

End WithHost.

(** A completion whose message content is missing, null, or blank after
    trimming. *)
Definition blankContent (c : value) : Prop :=
  match c with
  | VUndefined | VNull => True
  | VStr s => trim s = []
  | _ => False
  end.

(** The final user message of a message list. *)
Definition finalUserMessage (messages : list Message) : option Message :=
  find (fun m => jsstring_eqb (role m) (str "user")) (rev messages).

End Spec.

(* ================================================================== *)
(** * Server and client together *)
(* ================================================================== *)

Module Wire.

(** What the page receives for a response of the route: [res.json]
    serializes the body and [response.json()] reads it back, which returns
    a JSON value unchanged. *)
Definition answerOf (n : nat) (r : Server.Response) : Client.PageEvent :=
  Client.Answered n
    ((200 <=? Server.code r) && (Server.code r <=? 299))%nat
    (Fulfilled (Server.json r)).

End Wire.

(* ================================================================== *)
(** * Concrete hosts, to run the model *)
(* ================================================================== *)

Module Samples.

(** A JSON text written with ['] for the double quote. *)
Definition jsonText (s : string) : jsstring :=
  map (fun c => if (c =? 39)%N then 34%N else c) (str s).

(** A host whose services give fixed answers. *)
Definition fixedHost (whisper : outcome HttpReply) (completion : outcome value)
    (tts : outcome HttpReply) (audioFile : outcome (list Byte.byte))
    (textFile : outcome jsstring) : Host :=
  {| JSON_parse := Json.parse;
     whisperServer := fun _ _ => whisper;
     completionService := fun _ => completion;
     ttsServer := fun _ _ => tts;
     readFileSync := fun _ => audioFile;
     readFileSync_utf8 := fun _ => textFile |}.

Definition noEnv : jsstring -> option jsstring := fun _ => None.

Definition defaults : Server.Config := Server.config_of noEnv.

(** The defaults with [LLM_POSTPROMPT] set. *)
Definition withPostscript : Server.Config :=
  Server.config_of
    (fun name => if jsstring_eqb name (str "LLM_POSTPROMPT")
                 then Some (str "Be brief.") else None).

Definition voice : Server.ReferenceVoice :=
  {| Server.referenceAudioBuffer := [Byte.x52; Byte.x49; Byte.x46; Byte.x46];
     Server.referenceText := str "Hello there." |}.

Definition completionOf (contentField : value) : value :=
  VObj [ (str "choices",
          VArr [ VObj [ (str "message",
                         VObj [ (str "role", VStr (str "assistant"));
                                (str "content", contentField) ]) ] ]) ].

(** Transcription gives "hello", completion "hi there", synthesis the
    audio "QUJD". *)
Definition stubbed : Host :=
  fixedHost
    (Fulfilled {| status := 200; text := str " hello " |})
    (Fulfilled (completionOf (VStr (str "hi there"))))
    (Fulfilled {| status := 200; text := jsonText "{'audio_base64':'QUJD'}" |})
    (Fulfilled [Byte.x52; Byte.x49; Byte.x46; Byte.x46])
    (Fulfilled (str "Hello there.")).

(** The same, the transcription server answering with blank text. *)
Definition silent : Host :=
  fixedHost
    (Fulfilled {| status := 200; text := str "  " |})
    (Fulfilled (completionOf (VStr (str "hi there"))))
    (Fulfilled {| status := 200; text := jsonText "{'audio_base64':'QUJD'}" |})
    (Fulfilled [Byte.x52; Byte.x49; Byte.x46; Byte.x46])
    (Fulfilled (str "Hello there.")).

(** The transcription server answering 503. *)
Definition whisperDown : Host :=
  fixedHost
    (Fulfilled {| status := 503; text := str "busy" |})
    (Fulfilled (completionOf (VStr (str "hi there"))))
    (Fulfilled {| status := 200; text := jsonText "{'audio_base64':'QUJD'}" |})
    (Fulfilled [Byte.x52; Byte.x49; Byte.x46; Byte.x46])
    (Fulfilled (str "Hello there.")).

(** The completion service answering with a blank message. *)
Definition blankReply : Host :=
  fixedHost
    (Fulfilled {| status := 200; text := str "hello" |})
    (Fulfilled (completionOf (VStr (str "   "))))
    (Fulfilled {| status := 200; text := jsonText "{'audio_base64':'QUJD'}" |})
    (Fulfilled [Byte.x52; Byte.x49; Byte.x46; Byte.x46])
    (Fulfilled (str "Hello there.")).

(** An empty reference audio file next to a good transcript. *)
Definition emptyAudioFile : Host :=
  fixedHost
    (Fulfilled {| status := 200; text := str "hello" |})
    (Fulfilled (completionOf (VStr (str "hi there"))))
    (Fulfilled {| status := 200; text := jsonText "{'audio_base64':'QUJD'}" |})
    (Fulfilled [])
    (Fulfilled (str "Hello there.")).

(** A good reference audio file next to an empty transcript. *)
Definition emptyTextFile : Host :=
  fixedHost
    (Fulfilled {| status := 200; text := str "hello" |})
    (Fulfilled (completionOf (VStr (str "hi there"))))
    (Fulfilled {| status := 200; text := jsonText "{'audio_base64':'QUJD'}" |})
    (Fulfilled [Byte.x52; Byte.x49; Byte.x46; Byte.x46])
    (Fulfilled []).

Definition recording : Server.UploadedFile :=
  {| Server.buffer := [Byte.x1a; Byte.x45; Byte.xdf; Byte.xa3];
     Server.originalname := str "recording.webm";
     Server.mimetype := str "audio/webm" |}.

(** A submission with audio and an empty history. *)
Definition submission : Server.Request :=
  Server.Multipart (Some recording) [ (str "chatHistory", VStr (str "[]")) ].

(** A submission without audio. *)
Definition noAudio : Server.Request :=
  Server.Multipart None [ (str "chatHistory", VStr (str "[]")) ].

(** A history text with valid and invalid entries. *)
Definition mixedHistory : jsstring :=
  jsonText "[{'role':'user','content':' hi '}, 5, null, {'role':'bot','content':'x'}, {'role':'assistant','content':'   '}, {'role':'assistant','content':'yes\n','audioBase64':'QQ=='}, 'user', [1]]".

Definition chrome : Client.Browser :=
  {| Client.isSecureContext := true;
     Client.hasMediaRecorder := true;
     Client.isTypeSupported :=
       Some (fun t => isPrefix (str "audio/webm") t);
     Client.hasMediaDevices := true;
     Client.recorderMimeType :=
       fun o => match o with Some t => t | None => str "audio/webm" end;
     Client.toStringOf := fun _ => str "[object Object]" |}.

Definition loaded : Client.Page :=
  Client.initial (browser := chrome) (str "Ready.").

(** The page while the device request of a first click is pending. *)
Definition requesting : Client.Page :=
  Client.run (browser := chrome) Client.SingleEndpoint [Client.ClickRecord] loaded.

(** The page once that request is granted: recording. *)
Definition listening : Client.Page :=
  Client.run (browser := chrome) Client.SingleEndpoint
    [Client.ClickRecord; Client.MicGranted] loaded.

(** The page after the click that stops the recorder, its stop event
    still to come. *)
Definition finalizing : Client.Page :=
  Client.run (browser := chrome) Client.SingleEndpoint
    [Client.ClickRecord; Client.MicGranted;
     Client.DataAvailable [Byte.x1a; Byte.x45; Byte.xdf; Byte.xa3];
     Client.ClickRecord] loaded.

(** The page once the recording has been posted to [/api/chat]. *)
Definition awaiting : Client.Page :=
  Client.step (browser := chrome) Client.SingleEndpoint
    (Client.RecorderStopped 0) finalizing.

End Samples.

(* ================================================================== *)
(** * The rest of the two files *)
(* ================================================================== *)

Module ServerMore.
Import Server Stages.

(** Lines 49-51: the route [GET /api/config]. *)
Definition configHandler (config : Config) : Response :=
  {| code := 200; json := VObj [ (str "appTitle", VStr (appTitle config)) ] |}.

(** A host with another [JSON.parse]. *)
Definition withParser (parse : jsstring -> outcome value) (host : Host) : Host :=
  {| JSON_parse := parse;
     whisperServer := @whisperServer host;
     completionService := @completionService host;
     ttsServer := @ttsServer host;
     readFileSync := @readFileSync host;
     readFileSync_utf8 := @readFileSync_utf8 host |}.

(** A configuration with another [QWEN_TTS_URL]. *)
Definition withTtsUrl (url : jsstring) (config : Config) : Config :=
  {| appTitle := appTitle config; whisperUrl := whisperUrl config;
     whisperTranslate := whisperTranslate config;
     llmBaseUrl := llmBaseUrl config; llmApiKey := llmApiKey config;
     llmModel := llmModel config; llmSystem := llmSystem config;
     llmPreprompt := llmPreprompt config; llmPostprompt := llmPostprompt config;
     qwenTtsUrl := url; qwenTtsLang := qwenTtsLang config |}.

Definition endsWithSlash (s : jsstring) : bool :=
  match rev s with c :: _ => N.eqb c 47 | [] => false end.

(** The three external services. *)
Inductive Service : Type := Whisper | Completion | Tts.

Definition serviceOf (ev : Event) : option Service :=
  match ev with
  | CalledWhisper _ _ => Some Whisper
  | CalledCompletion _ => Some Completion
  | CalledTts _ _ => Some Tts
  | ConsoleError _ => None
  end.

(** The services a trace contacts, in order. *)
Fixpoint servicesCalled (t : list Event) : list Service :=
  match t with
  | [] => []
  | ev :: rest =>
      match serviceOf ev with
      | Some s => s :: servicesCalled rest
      | None => servicesCalled rest
      end
  end.


(** The object [{ role, content }] of a turn, as a history payload
    carries it. *)
Definition entryOf (m : Message) : value :=
  VObj [ (str "role", VStr (role m)); (str "content", VStr (content m)) ].

Section WithHost.

Context {host : Host}.
Variable config : Config.

(** The six ways the route ends. *)
Inductive Ending (voice : ReferenceVoice) (req : Request)
    : list Event -> Response -> Prop :=
| BodyMissing e :
    member (req_body req) (str "chatHistory") = Throw e ->
    Ending voice req [ConsoleError e] (failure e)
| NoAudio fields :
    req = Multipart None fields ->
    Ending voice req []
      {| code := 400; json := errorBody (str "Missing recorded audio.") |}
| TranscriptionFailed f e :
    req_file req = Some f ->
    outcomeOf (transcribe config f) = Throw e ->
    Ending voice req
      [CalledWhisper (whisperUrl config) (whisperForm config f); ConsoleError e]
      (failure e)
| CompletionFailed f transcript e :
    req_file req = Some f ->
    outcomeOf (transcribe config f) = Ok transcript ->
    outcomeOf (generateAssistantReply config transcript (historyOf req)) = Throw e ->
    Ending voice req
      [CalledWhisper (whisperUrl config) (whisperForm config f);
       CalledCompletion (completionRequest config transcript (historyOf req));
       ConsoleError e]
      (failure e)
| SynthesisFailed f transcript reply e :
    req_file req = Some f ->
    outcomeOf (transcribe config f) = Ok transcript ->
    outcomeOf (generateAssistantReply config transcript (historyOf req)) = Ok reply ->
    outcomeOf (synthesize config reply voice) = Throw e ->
    Ending voice req
      [CalledWhisper (whisperUrl config) (whisperForm config f);
       CalledCompletion (completionRequest config transcript (historyOf req));
       CalledTts (cloneUrl config) (clonePayload reply voice (synLangOf config));
       ConsoleError e]
      (failure e)
| Succeeded f transcript reply audio :
    req_file req = Some f ->
    outcomeOf (transcribe config f) = Ok transcript ->
    outcomeOf (generateAssistantReply config transcript (historyOf req)) = Ok reply ->
    outcomeOf (synthesize config reply voice) = Ok audio ->
    Ending voice req
      [CalledWhisper (whisperUrl config) (whisperForm config f);
       CalledCompletion (completionRequest config transcript (historyOf req));
       CalledTts (cloneUrl config) (clonePayload reply voice (synLangOf config))]
      {| code := 200; json := okBody transcript reply audio |}.

End WithHost.

End ServerMore.

Module ClientMore.
Import Client.

(** The elements [renderChat] puts in the chat log: the note of an empty
    chat, or one message with its class, role label, text and, when it has
    one, the source of its audio element. *)
Inductive LogNode : Type :=
| EmptyNote (text : jsstring)
| MessageNode (className roleLabel text : jsstring) (audioSrc : option jsstring).

Section WithBrowser.

Context {browser : Browser}.

(** A value written into a text position ([textContent], a template). *)
Definition textOf (v : value) : jsstring :=
  match v with VStr s => s | _ => toStringOf v end.

(** [renderChat], lines 70-103, for a page that has the chat log. *)
Definition renderEntry (entry : ChatEntry) : LogNode :=
  MessageNode
    (str "chat-message " ++ role entry)
    (if jsstring_eqb (role entry) (str "user") then str "You" else str "Assistant")
    (textOf (content entry))
    (if jsstring_eqb (role entry) (str "assistant") && truthy (audioBase64 entry)
     then Some (str "data:audio/wav;base64," ++ textOf (audioBase64 entry))
     else None).

Definition renderChat (history : list ChatEntry) : list LogNode :=
  match history with
  | [] => [EmptyNote (str "No messages yet.")]
  | _ :: _ => map renderEntry history
  end.

(** [chatLog.querySelectorAll("audio")]: the sources of the audio
    elements, in document order. *)
Fixpoint audioElements (nodes : list LogNode) : list jsstring :=
  match nodes with
  | [] => []
  | MessageNode _ _ _ (Some src) :: rest => src :: audioElements rest
  | _ :: rest => audioElements rest
  end.

(** [playLatestAssistantAudio], lines 118-128: the source that is played,
    if any. *)
Definition playLatestAssistantAudio (nodes : list LogNode) : option jsstring :=
  last (map Some (audioElements nodes)) None.

(** [loadAppConfig], lines 20-37, on the outcome of [fetch("/api/config")]
    ([response.ok] and the outcome of [response.json()]): the title it
    puts in [document.title] and in the heading, if any, and what it logs
    with [console.error]. *)
Definition loadAppConfig (answer : outcome (bool * outcome value))
    : option jsstring * list exn :=
  match answer with
  | Rejected name message => (None, [ErrorObject name message])
  | Fulfilled (ok, body) =>
      if negb ok then (None, [])
      else
        match body with
        | Rejected name message => (None, [ErrorObject name message])
        | Fulfilled data =>
            if truthy data then
              match prop data "appTitle" with
              | VStr t =>
                  if negb (isEmpty (trim t)) then (Some (trim t), [])
                  else (None, [])
              | _ => (None, [])
              end
            else (None, [])
        end
  end.

End WithBrowser.

(** What the page receives from [GET /api/config]. *)
Definition configAnswer (r : Server.Response) : outcome (bool * outcome value) :=
  Fulfilled (((200 <=? Server.code r) && (Server.code r <=? 299))%nat,
             Fulfilled (Server.json r)).

(** The label [updateRecordButton] writes. *)
Definition labelFor (recording : bool) : jsstring :=
  if recording then str "Stop chatting" else str "Start chatting".

(** [q] differs from [p] at most in the status line, the console, the
    chat history, the pending fetches and the pending playbacks: the
    recorder and everything about the microphone are as in [p]. *)
Definition sameRecorder (p q : Page) : Prop :=
  mediaRecorder q = mediaRecorder p
  /\ recorders q = recorders p
  /\ audioChunks q = audioChunks p
  /\ isRecording q = isRecording p
  /\ buttonText q = buttonText p
  /\ buttonDisabled q = buttonDisabled p
  /\ deviceRequests q = deviceRequests p
  /\ micPending q = micPending p
  /\ streamsGranted q = streamsGranted p
  /\ liveStreams q = liveStreams p
  /\ stopPending q = stopPending p.

(** The recorder created first is still recording, on the stream the
    browser handed out first; that stream is live; and the recorder the
    script holds in [mediaRecorder] is a later one. *)
Definition firstSessionOpen (p : Page) : Prop :=
  (exists r rest,
     recorders p = r :: rest
     /\ stream r = 0 /\ state r = Recording
     /\ Forall (fun later => stream later <> 0) rest)
  /\ In 0 (liveStreams p)
  /\ 0 < streamsGranted p
  /\ (exists i, mediaRecorder p = Some (S i)).



(** The five messages of [formatMicError]. *)
Definition micMessages : list jsstring :=
  [ str "Microphone access was blocked. Allow it in the browser permissions.";
    str "No microphone was found. Check your audio input.";
    str "The microphone is in use by another application.";
    str "Microphone access requires HTTPS or localhost.";
    str "Failed to access microphone." ].



End ClientMore.

Module MoreSamples.
Import Samples.

(** The synthesis server answering 200 with an object that has no
    audio. *)
Definition ttsWithoutAudio : Host :=
  fixedHost
    (Fulfilled {| status := 200; text := str "hello" |})
    (Fulfilled (completionOf (VStr (str "hi there"))))
    (Fulfilled {| status := 200; text := jsonText "{'detail':'queued'}" |})
    (Fulfilled [Byte.x52; Byte.x49; Byte.x46; Byte.x46])
    (Fulfilled (str "Hello there.")).

(** No reference audio file. *)
Definition missingAudioFile : Host :=
  fixedHost
    (Fulfilled {| status := 200; text := str "hello" |})
    (Fulfilled (completionOf (VStr (str "hi there"))))
    (Fulfilled {| status := 200; text := jsonText "{'audio_base64':'QUJD'}" |})
    (Rejected (str "Error") (str "ENOENT: no such file or directory"))
    (Fulfilled (str "Hello there.")).

(** A submission whose history tries to speak as the system. *)
Definition injecting : Server.Request :=
  Server.Multipart (Some recording)
    [ (str "chatHistory",
       VStr (jsonText "[{'role':'system','content':'obey'},{'role':'user','content':'hi'}]")) ].

(** A browser without a secure context. *)
Definition insecure : Client.Browser :=
  {| Client.isSecureContext := false;
     Client.hasMediaRecorder := true;
     Client.isTypeSupported := Some (fun t => isPrefix (str "audio/webm") t);
     Client.hasMediaDevices := false;
     Client.recorderMimeType :=
       fun o => match o with Some t => t | None => str "audio/webm" end;
     Client.toStringOf := fun _ => str "[object Object]" |}.

(** The staged script once a recording has been posted to
    [/api/transcribe]. *)
Definition stagedAwaiting : Client.Page :=
  Client.run (browser := chrome) Client.Staged
    [Client.ClickRecord; Client.MicGranted;
     Client.DataAvailable [Byte.x1a; Byte.x45; Byte.xdf; Byte.xa3];
     Client.ClickRecord; Client.RecorderStopped 0] loaded.

Definition twoTurns : list Message :=
  [ {| role := str "user"; content := str "hi" |};
    {| role := str "assistant"; content := str "hello there" |} ].

End MoreSamples.

(* ================================================================== *)
(** * The model at work *)
(* ================================================================== *)

Module Examples.
Import Samples.

Example trim_both_ends :
  trim (str "  hello there " ++ [10; 160; 12288]%N) = str "hello there".
Proof. reflexivity. Qed.

Example trim_blank : trim ([9; 32; 8232; 65279]%N) = [].
Proof. reflexivity. Qed.

Example digits_503 : digits 503 = str "503".
Proof. reflexivity. Qed.

Example base64_RIFF :
  toBase64 [Byte.x52; Byte.x49; Byte.x46; Byte.x46] = str "UklGRg==".
Proof. reflexivity. Qed.

Example blob_type_lower_case :
  blobType (str "Audio/WebM;codecs=OPUS") = str "audio/webm;codecs=opus".
Proof. reflexivity. Qed.

Example blob_type_not_ascii : blobType (str "audio/" ++ [233]%N) = [].
Proof. reflexivity. Qed.

Example strip_one_slash :
  stripTrailingSlash (str "http://127.0.0.1:8000/") = str "http://127.0.0.1:8000".
Proof. reflexivity. Qed.

Example parse_object :
  Json.parse (jsonText "{'audio_base64':'QUJD'}")
  = Fulfilled (VObj [ (str "audio_base64", VStr (str "QUJD")) ]).
Proof. reflexivity. Qed.

Example parse_number : Json.parse (str " -1.50e3 ") = Fulfilled (VNum (-150) 1).
Proof. reflexivity. Qed.

Example parse_trailing_comma :
  Json.parse (str "[1,]") = Json.syntaxError.
Proof. reflexivity. Qed.

Example null_completion_is_a_TypeError :
  Server.messageContent VNull
  = Throw (ErrorObject (str "TypeError")
             (str "Cannot read properties of null (reading 'choices')")).
Proof. reflexivity. Qed.

Example no_choices_is_undefined :
  Server.messageContent (VObj [ (str "id", VStr (str "x")) ]) = Ok VUndefined.
Proof. reflexivity. Qed.

Example content_of_first_choice :
  Server.messageContent (completionOf (VStr (str " hi there ")))
  = Ok (VStr (str " hi there ")).
Proof. reflexivity. Qed.

Example extension_of_ogg :
  Client.extensionForMimeType (str "audio/ogg;codecs=opus") = str "ogg".
Proof. reflexivity. Qed.

Example mic_blocked :
  Client.formatMicError (VObj [ (str "name", VStr (str "NotAllowedError")) ])
  = str "Microphone access was blocked. Allow it in the browser permissions.".
Proof. reflexivity. Qed.

Example chrome_records_webm_opus :
  Client.getSupportedMimeType (browser := chrome) = str "audio/webm;codecs=opus".
Proof. reflexivity. Qed.

Example status_while_listening :
  Client.statusText listening = str "Listening..."
  /\ Client.buttonText listening = str "Stop chatting".
Proof. split; reflexivity. Qed.

Example upload_after_stop :
  Client.inflight awaiting
  = [ Client.AwaitChat
        {| Client.audio := [Byte.x1a; Byte.x45; Byte.xdf; Byte.xa3];
           Client.audioType := str "audio/webm;codecs=opus";
           Client.filename := str "recording.webm";
           Client.chatHistoryPayload := [] |} ]
  /\ Client.isRecording awaiting = false
  /\ Client.liveStreams awaiting = [].
Proof. repeat split; reflexivity. Qed.

End Examples.

(* ================================================================== *)
(** * Facts about strings and values *)
(* ================================================================== *)

Module JSFacts.

Lemma jsstring_eqb_eq (a b : jsstring) : jsstring_eqb a b = true <-> a = b.
Proof.
  revert b; induction a as [|x a IH]; intros [|y b]; simpl; split;
    try congruence; try reflexivity.
  - intros H. apply andb_true_iff in H as [Hx Hr].
    apply N.eqb_eq in Hx. apply IH in Hr. congruence.
  - intros H. injection H as -> ->. rewrite N.eqb_refl. simpl. now apply IH.
Qed.

Lemma jsstring_eqb_refl (a : jsstring) : jsstring_eqb a a = true.
Proof. now apply jsstring_eqb_eq. Qed.

Lemma isEmpty_false (s : jsstring) : isEmpty s = false <-> s <> [].
Proof. destruct s; simpl; split; congruence. Qed.

Lemma isString_eq (v : value) (s : jsstring) :
  isString v s = true <-> v = VStr s.
Proof.
  destruct v; simpl; split; try congruence.
  - intros H. apply jsstring_eqb_eq in H. congruence.
  - intros H. injection H as ->. apply jsstring_eqb_refl.
Qed.

Lemma trimStart_clean (s : jsstring) : startsClean (trimStart s).
Proof.
  induction s as [|c s IH]; simpl; [exact I|].
  destruct (isWhiteSpace c) eqn:E; [exact IH | exact E].
Qed.

Lemma trimStart_fixed (s : jsstring) : startsClean s -> trimStart s = s.
Proof. destruct s as [|c s]; simpl; [reflexivity|]. now intros ->. Qed.

Lemma trimStart_suffix (s : jsstring) : exists w, s = w ++ trimStart s.
Proof.
  induction s as [|c s [w IH]]; simpl.
  - now exists [].
  - destruct (isWhiteSpace c).
    + exists (c :: w). simpl. now f_equal.
    + now exists [].
Qed.

Lemma trimEnd_prefix (s : jsstring) : exists w, s = trimEnd s ++ w.
Proof.
  unfold trimEnd. destruct (trimStart_suffix (rev s)) as [w Hw].
  exists (rev w). rewrite <- rev_app_distr, <- Hw. symmetry. apply rev_involutive.
Qed.

Lemma trimEnd_clean (s : jsstring) : startsClean s -> startsClean (trimEnd s).
Proof.
  intros H. destruct (trimEnd_prefix s) as [w Hw].
  destruct (trimEnd s) as [|c r]; [exact I|].
  rewrite Hw in H. exact H.
Qed.

Lemma trimEnd_idempotent (s : jsstring) : trimEnd (trimEnd s) = trimEnd s.
Proof.
  unfold trimEnd. rewrite rev_involutive.
  now rewrite (trimStart_fixed _ (trimStart_clean (rev s))).
Qed.

Lemma trim_idempotent (s : jsstring) : trim (trim s) = trim s.
Proof.
  unfold trim at 1.
  rewrite (trimStart_fixed (trim s)).
  - unfold trim. apply trimEnd_idempotent.
  - unfold trim. apply trimEnd_clean, trimStart_clean.
Qed.

Lemma truthy_VStr (s : jsstring) : truthy (VStr s) = negb (isEmpty s).
Proof. reflexivity. Qed.

End JSFacts.
Import JSFacts.

(* ================================================================== *)
(** * History normalization *)
(* ================================================================== *)

Module HistoryFacts.
Import Server Spec.

Section WithHost.

Context {host : Host}.

Lemma validEntry_objectLike (entry : value) :
  validEntry entry = true -> objectLike entry = true.
Proof. unfold objectLike. destruct entry; simpl; intros; try discriminate; reflexivity. Qed.

Lemma normalizeEntry_objectLike (entry : value) :
  objectLike entry = true ->
  normalizeEntry entry =
    Ok (if validEntry entry then Some (turnOf entry) else None).
Proof.
  unfold objectLike.
  destruct entry as [ | | b | m e | s | items | props ]; simpl;
    try discriminate; try (rewrite andb_false_r; discriminate); intros _.
  - reflexivity.
  - unfold normalizeEntry; simpl.
    destruct (isString (lookup (str "role") props) (str "assistant")) eqn:Ha.
    + apply isString_eq in Ha. rewrite Ha. simpl.
      destruct (lookup (str "content") props) as [ | | b | m e | c | l | o ];
        simpl; try reflexivity.
      destruct (isEmpty (trim c)); reflexivity.
    + destruct (isString (lookup (str "role") props) (str "user")) eqn:Hu.
      * apply isString_eq in Hu. rewrite Hu. simpl.
        destruct (lookup (str "content") props) as [ | | b | m e | c | l | o ];
          simpl; try reflexivity.
        destruct (isEmpty (trim c)); reflexivity.
      * simpl.
        destruct (lookup (str "content") props) as [ | | b | m e | c | l | o ];
          reflexivity.
Qed.

Lemma mapResult_normalizeEntry (items : list value) :
  Forall (fun e => objectLike e = true) items ->
  mapResult normalizeEntry items =
    Ok (map (fun e => if validEntry e then Some (turnOf e) else None) items).
Proof.
  induction 1 as [|e items He _ IH]; simpl; [reflexivity|].
  rewrite (normalizeEntry_objectLike _ He), IH. reflexivity.
Qed.

Lemma filterBoolean_map (items : list value) :
  filterBoolean
    (map (fun e => if validEntry e then Some (turnOf e) else None) items)
  = map turnOf (filter validEntry items).
Proof.
  induction items as [|e items IH]; simpl; [reflexivity|].
  destruct (validEntry e); simpl; now rewrite IH.
Qed.

Lemma filter_valid_objectLike (items : list value) :
  filter validEntry (filter objectLike items) = filter validEntry items.
Proof.
  induction items as [|e items IH]; simpl; [reflexivity|].
  destruct (objectLike e) eqn:Ho; simpl.
  - now rewrite IH.
  - destruct (validEntry e) eqn:Hv; [|exact IH].
    apply validEntry_objectLike in Hv. congruence.
Qed.

(** The array branch of [normalizeChatHistory], lines 109-116. *)
Lemma normalize_items (items : list value) :
  match mapResult normalizeEntry (filter objectLike items) with
  | Throw e => Throw e
  | Ok mapped => Ok (filterBoolean mapped)
  end = Ok (normalizedHistory items).
Proof.
  rewrite mapResult_normalizeEntry.
  - rewrite filterBoolean_map, filter_valid_objectLike. reflexivity.
  - apply Forall_forall. intros e He. now apply filter_In in He.
Qed.

Lemma turnOf_wellFormed (entry : value) :
  validEntry entry = true -> wellFormedTurn (turnOf entry).
Proof.
  destruct entry as [ | | b | m e | s | items | props ]; simpl; try discriminate.
  intros H. apply andb_true_iff in H as [Hr Hc].
  destruct (lookup (str "content") props) as [ | | b | m e | c | l | o ];
    try discriminate.
  unfold wellFormedTurn; simpl. repeat split.
  - apply orb_true_iff in Hr as [Hr|Hr]; apply isString_eq in Hr; rewrite Hr; auto.
  - apply trim_idempotent.
  - apply isEmpty_false. now apply negb_true_iff.
Qed.

Lemma normalizedHistory_wellFormed (items : list value) :
  Forall wellFormedTurn (normalizedHistory items).
Proof.
  unfold normalizedHistory. apply Forall_forall. intros m Hm.
  apply in_map_iff in Hm as [e [<- He]]. apply filter_In in He as [_ He].
  now apply turnOf_wellFormed.
Qed.

Lemma normalize_arrayPayload (raw : value) (items : list value) :
  arrayPayload raw items ->
  normalizeChatHistory raw = Ok (normalizedHistory items).
Proof.
  intros [-> | [s [Hs [-> Hp]]]]; unfold normalizeChatHistory; simpl.
  - apply normalize_items.
  - destruct s as [|c s]; [congruence|]. simpl. rewrite Hp. simpl.
    apply normalize_items.
Qed.

Lemma normalize_malformed (raw : value) :
  malformedPayload raw -> normalizeChatHistory raw = Ok [].
Proof.
  unfold malformedPayload, normalizeChatHistory.
  destruct raw as [ | | b | m e | s | items | props ]; simpl; try reflexivity.
  - destruct b; reflexivity.
  - destruct (Z.eqb m 0); reflexivity.
  - destruct s as [|c s]; simpl; [reflexivity|].
    destruct (JSON_parse (c :: s)) as [v|n msg]; simpl; [|reflexivity].
    destruct v; simpl; try reflexivity. intros [].
  - intros [].
Qed.

Lemma normalize_total (raw : value) :
  exists history, normalizeChatHistory raw = Ok history
                  /\ Forall wellFormedTurn history.
Proof.
  destruct raw as [ | | b | m e | s | items | props ] eqn:E;
    try (exists []; split; [apply normalize_malformed; exact I | constructor]).
  - destruct s as [|c s']; [exists []; split; [reflexivity|constructor]|].
    destruct (JSON_parse (c :: s')) as [v|n msg] eqn:Hp.
    + destruct v as [ | | b | m e | t | items | props ];
        try (exists []; split; [apply normalize_malformed; simpl; now rewrite Hp
                              | constructor]).
      exists (normalizedHistory items). split.
      * apply normalize_arrayPayload. right. exists (c :: s'). repeat split; congruence.
      * apply normalizedHistory_wellFormed.
    + exists []. split; [apply normalize_malformed; simpl; now rewrite Hp | constructor].
  - exists (normalizedHistory items). split.
    + apply normalize_arrayPayload. now left.
    + apply normalizedHistory_wellFormed.
Qed.

End WithHost.

(** ** C2 *)

(** C2. For every array of entries, valid and invalid mixed (given as an
    array or as the JSON text of one), history normalization returns
    exactly the valid entries, in their original order, each as a turn
    whose role is "user" or "assistant" and whose content is trimmed and
    not empty; every turn of the result comes from a valid entry, so an
    entry that is not valid (not an object, role wrong or missing, content
    missing, empty or blank) contributes nothing. *)
Theorem normalizeChatHistory_keeps_valid_entries
    (host : Host) (raw : value) (items : list value) :
  arrayPayload raw items ->
  normalizeChatHistory raw = Ok (map turnOf (filter validEntry items))
  /\ Forall wellFormedTurn (map turnOf (filter validEntry items))
  /\ (forall turn, In turn (map turnOf (filter validEntry items)) ->
        exists entry, In entry items /\ validEntry entry = true
                      /\ turn = turnOf entry).
Proof.
  intros H. split; [|split].
  - exact (normalize_arrayPayload H).
  - exact (normalizedHistory_wellFormed items).
  - intros turn Hin. apply in_map_iff in Hin as [entry [<- Hin]].
    apply filter_In in Hin as [Hin Hv]. now exists entry.
Qed.

Lemma normalizeChatHistory_keeps_valid_entries_witness :
  arrayPayload (host := Samples.stubbed) (VStr Samples.mixedHistory)
    [ VObj [ (str "role", VStr (str "user")); (str "content", VStr (str " hi ")) ];
      VNum 5 0; VNull;
      VObj [ (str "role", VStr (str "bot")); (str "content", VStr (str "x")) ];
      VObj [ (str "role", VStr (str "assistant")); (str "content", VStr (str "   ")) ];
      VObj [ (str "role", VStr (str "assistant"));
             (str "content", VStr (str "yes" ++ [10%N]));
             (str "audioBase64", VStr (str "QQ==")) ];
      VStr (str "user"); VArr [ VNum 1 0 ] ]
  /\ normalizeChatHistory (host := Samples.stubbed) (VStr Samples.mixedHistory)
     = Ok [ {| role := str "user"; content := str "hi" |};
            {| role := str "assistant"; content := str "yes" |} ].
Proof.
  assert (H : arrayPayload (host := Samples.stubbed) (VStr Samples.mixedHistory)
    [ VObj [ (str "role", VStr (str "user")); (str "content", VStr (str " hi ")) ];
      VNum 5 0; VNull;
      VObj [ (str "role", VStr (str "bot")); (str "content", VStr (str "x")) ];
      VObj [ (str "role", VStr (str "assistant")); (str "content", VStr (str "   ")) ];
      VObj [ (str "role", VStr (str "assistant"));
             (str "content", VStr (str "yes" ++ [10%N]));
             (str "audioBase64", VStr (str "QQ==")) ];
      VStr (str "user"); VArr [ VNum 1 0 ] ]).
  { right. exists Samples.mixedHistory. split; [discriminate|].
    split; [reflexivity|]. vm_compute. reflexivity. }
  split; [exact H|].
  exact (proj1 (normalizeChatHistory_keeps_valid_entries H)).
Defined.

(** ** C9 *)



End HistoryFacts.

(* ================================================================== *)
(** * The three adapters and the route *)
(* ================================================================== *)

Module PipelineFacts.
Import Server Spec Stages.

Section WithHost.

Context {host : Host}.
Variable config : Config.

Lemma bind_lift_Ok {A B} (a : A) (f : A -> M B) : bind (lift (Ok a)) f = f a.
Proof. unfold bind, lift. destruct (f a) as [t r]. reflexivity. Qed.

Lemma bind_emit {A} (ev : Event) (r : result A) :
  bind (emit ev) (fun _ => lift r) = ([ev], r).
Proof. reflexivity. Qed.

(** [transcribeAudio] contacts the transcription server once and nothing
    else. *)
Lemma transcribe_trace (f : UploadedFile) :
  trace (transcribe config f) = [CalledWhisper (whisperUrl config) (whisperForm config f)].
Proof.
  unfold transcribe, transcribeAudio, fetchWhisper, whisperForm.
  rewrite bind_emit.
  destruct (whisperServer _ _) as [resp|n m]; simpl; [|reflexivity].
  destruct (ok resp); reflexivity.
Qed.

Lemma transcribe_throws_Error (f : UploadedFile) (e : exn) :
  outcomeOf (transcribe config f) = Throw e -> exists name message, e = ErrorObject name message.
Proof.
  unfold transcribe, transcribeAudio, fetchWhisper.
  rewrite bind_emit.
  destruct (whisperServer _ _) as [resp|n m]; simpl.
  - destruct (ok resp); simpl; intros H; [discriminate|].
    injection H as <-. unfold newError. eauto.
  - intros H. injection H as <-. eauto.
Qed.

Lemma generateAssistantReply_eq (transcript : jsstring) (history : list Message) :
  generateAssistantReply config transcript history
  = ([CalledCompletion (completionRequest config transcript history)],
     match settle (completionService (completionRequest config transcript history)) with
     | Throw e => Throw e
     | Ok completion => replyOf completion
     end).
Proof.
  unfold generateAssistantReply, createCompletion, replyOf.
  fold (completionRequest config transcript history).
  destruct (completionService _) as [completion|n m]; [|reflexivity].
  cbn [settle]. unfold bind at 2. cbn [emit lift].
  unfold bind at 1. cbn [app].
  destruct (messageContent completion) as [c|e]; [|reflexivity].
  rewrite bind_lift_Ok.
  destruct (optTrim c) as [v|e]; [|reflexivity].
  rewrite bind_lift_Ok.
  destruct v; try reflexivity. destruct (isEmpty s); reflexivity.
Qed.

Lemma replyOf_nonempty (completion : value) (reply : jsstring) :
  replyOf completion = Ok reply -> reply <> [] /\ trim reply = reply.
Proof.
  unfold replyOf.
  destruct (messageContent completion) as [c|e]; [|discriminate].
  destruct c; simpl; try discriminate.
  destruct (isEmpty (trim s)) eqn:E; [discriminate|].
  intros H. injection H as <-. split.
  - now apply isEmpty_false.
  - apply trim_idempotent.
Qed.

Lemma replyOf_blank (completion c : value) :
  messageContent completion = Ok c -> blankContent c ->
  replyOf completion = Throw (newError (str "LLM response was empty.")).
Proof.
  unfold replyOf. intros -> Hb.
  destruct c; simpl in *; try reflexivity; try contradiction.
  now rewrite Hb.
Qed.

Lemma synthesize_trace (reply : jsstring) (voice : ReferenceVoice) :
  trace (synthesize config reply voice)
  = [CalledTts (cloneUrl config) (clonePayload reply voice (synLangOf config))].
Proof.
  unfold synthesize, synthesizeSpeech, fetchTts, clonePayload, cloneUrl.
  rewrite bind_emit.
  destruct (ttsServer _ _) as [resp|n m]; [|reflexivity].
  cbn [settle]. unfold bind at 1.
  destruct (ok resp); cbn [negb]; [|reflexivity].
  destruct (JSON_parse (text resp)) as [v|n m]; [|reflexivity].
  cbn [settle]. rewrite bind_lift_Ok.
  destruct (member v (str "audio_base64")) as [a|e]; [|reflexivity].
  rewrite bind_lift_Ok. destruct (truthy a); reflexivity.
Qed.

Lemma synthesize_truthy (reply : jsstring) (voice : ReferenceVoice) (a : value) :
  outcomeOf (synthesize config reply voice) = Ok a -> truthy a = true.
Proof.
  unfold synthesize, synthesizeSpeech, fetchTts.
  rewrite bind_emit.
  destruct (ttsServer _ _) as [resp|n m]; [|discriminate].
  cbn [settle]. unfold bind at 1.
  destruct (ok resp); cbn [negb]; [|discriminate].
  destruct (JSON_parse (text resp)) as [v|n m]; [|discriminate].
  cbn [settle]. rewrite bind_lift_Ok.
  destruct (member v (str "audio_base64")) as [a'|e]; [|discriminate].
  rewrite bind_lift_Ok. destruct (truthy a') eqn:E; simpl; [|discriminate].
  intros H. injection H as <-. exact E.
Qed.

(** A request with a file is a multipart one. *)
Lemma req_file_some (req : Request) (f : UploadedFile) :
  req_file req = Some f -> exists fields, req = Multipart (Some f) fields.
Proof.
  destruct req as [|file fields]; simpl; [discriminate|].
  intros ->. now exists fields.
Qed.

Lemma chatHandler_stages (voice : ReferenceVoice) (req : Request) :
  chatHandler config voice req = stages config voice req.
Proof.
  unfold chatHandler, stages, historyOf.
  destruct req as [|file fields]; [reflexivity|].
  cbn [req_body req_file member]. rewrite bind_lift_Ok.
  destruct (HistoryFacts.normalize_total (lookup (str "chatHistory") fields))
    as [h [Hh _]].
  rewrite Hh, bind_lift_Ok.
  destruct file as [f|]; [|reflexivity].
  fold (transcribe config f). fold (synLangOf config).
  destruct (transcribe config f) as [t1 [transcript|e]]; [|reflexivity].
  cbn [bind].
  destruct (generateAssistantReply config transcript h) as [t2 [reply|e]];
    [|simpl; now rewrite <- app_assoc].
  cbn [bind]. fold (synthesize config reply voice).
  destruct (synthesize config reply voice) as [t3 [audio|e]]; simpl.
  - now rewrite app_nil_r.
  - now rewrite <- !app_assoc.
Qed.

Lemma generateAssistantReply_trace (transcript : jsstring) (history : list Message) :
  trace (generateAssistantReply config transcript history)
  = [CalledCompletion (completionRequest config transcript history)].
Proof. now rewrite generateAssistantReply_eq. Qed.

Lemma member_throws_Error (v : value) (k : jsstring) (e : exn) :
  member v k = Throw e -> exists name message, e = ErrorObject name message.
Proof. destruct v; simpl; intros H; try discriminate; injection H as <-; eauto. Qed.

Lemma messageContent_throws_Error (completion : value) (e : exn) :
  messageContent completion = Throw e ->
  exists name message, e = ErrorObject name message.
Proof.
  unfold messageContent.
  destruct (member completion (str "choices")) as [choices|e'] eqn:Hm.
  - destruct (optIndex0 choices) as [first|]; [|discriminate].
    destruct (optMember first (str "message")) as [message|]; [|discriminate].
    destruct (optMember message (str "content")); discriminate.
  - intros H. injection H as <-. exact (member_throws_Error _ _ Hm).
Qed.

Lemma optTrim_throws_Error (c : value) (e : exn) :
  optTrim c = Throw e -> exists name message, e = ErrorObject name message.
Proof. destruct c; simpl; intros H; try discriminate; injection H as <-; eauto. Qed.

Lemma replyOf_throws_Error (completion : value) (e : exn) :
  replyOf completion = Throw e -> exists name message, e = ErrorObject name message.
Proof.
  unfold replyOf.
  destruct (messageContent completion) as [c|e'] eqn:Hc.
  - destruct (optTrim c) as [v|e''] eqn:Ht.
    + unfold newError.
      destruct v; try (intros H; injection H as <-; eauto).
      destruct (isEmpty s); intros H; [injection H as <-; eauto | discriminate].
    + intros H. injection H as <-. exact (optTrim_throws_Error _ Ht).
  - intros H. injection H as <-. exact (messageContent_throws_Error _ Hc).
Qed.

Lemma generateAssistantReply_throws_Error (transcript : jsstring)
    (history : list Message) (e : exn) :
  outcomeOf (generateAssistantReply config transcript history) = Throw e ->
  exists name message, e = ErrorObject name message.
Proof.
  rewrite generateAssistantReply_eq. unfold outcomeOf, snd.
  destruct (completionService _) as [completion|n m]; simpl.
  - apply replyOf_throws_Error.
  - intros H. injection H as <-. eauto.
Qed.

Lemma generateAssistantReply_nonempty (transcript : jsstring)
    (history : list Message) (reply : jsstring) :
  outcomeOf (generateAssistantReply config transcript history) = Ok reply ->
  reply <> [] /\ trim reply = reply.
Proof.
  rewrite generateAssistantReply_eq. unfold outcomeOf, snd.
  destruct (completionService _) as [completion|n m]; simpl; [|discriminate].
  apply replyOf_nonempty.
Qed.

(** Every synthesis request of the route carries a reply that
    [generateAssistantReply] returned. *)
Lemma stages_tts_payload (voice : ReferenceVoice) (req : Request)
    (url : jsstring) (payload : value) :
  In (CalledTts url payload) (trace (stages config voice req)) ->
  exists transcript reply,
    outcomeOf (generateAssistantReply config transcript (historyOf req)) = Ok reply
    /\ payload = clonePayload reply voice (synLangOf config).
Proof.
  unfold stages. remember (historyOf req) as h eqn:Eh. clear Eh.
  destruct req as [|[f|] fields]; cbn [req_body req_file member];
    [simpl; intros [H|[]]; discriminate | | intros []].
  pose proof (transcribe_trace f) as H1.
  destruct (transcribe config f) as [t1 [transcript|e]]; simpl in H1; subst t1.
  - pose proof (generateAssistantReply_trace transcript h) as H2.
    destruct (generateAssistantReply config transcript h)
      as [t2 [reply|e]] eqn:Hg; simpl in H2; subst t2.
    + pose proof (synthesize_trace reply voice) as H3.
      destruct (synthesize config reply voice) as [t3 [audio|e]];
        simpl in H3; subst t3; simpl;
        intros [H|[H|[H|H]]]; try discriminate;
        try (destruct H as [H|[]]; discriminate); try contradiction;
        injection H as _ <-; exists transcript, reply; now rewrite Hg.
    + simpl. intros [H|[H|[H|[]]]]; discriminate.
  - simpl. intros [H|[H|[]]]; discriminate.
Qed.

End WithHost.

(** ** C5 *)

(** C5 at a submission that is not multipart, hence without audio: the
    route reads [req.body.chatHistory] before it looks at [req.file]; the
    read throws, and the answer is 500 with the text of that TypeError,
    not the missing-audio error.  A multipart submission without the audio
    part is answered 400 with [{error: "Missing recorded audio."}].  In
    both cases no service is contacted. *)
Theorem missing_audio_not_multipart (host : Host) (config : Config)
    (voice : ReferenceVoice) :
  chatHandler config voice NotMultipart
  = ([ConsoleError
        (ErrorObject (str "TypeError")
           (str "Cannot read properties of undefined (reading 'chatHistory')"))],
     Ok {| code := 500;
           json := VObj [ (str "error",
                           VStr (str "Cannot read properties of undefined (reading 'chatHistory')")) ] |})
  /\ (forall fields,
        chatHandler config voice (Multipart None fields)
        = ([], Ok {| code := 400;
                     json := VObj [ (str "error",
                                     VStr (str "Missing recorded audio.")) ] |})).
Proof.
  split.
  - reflexivity.
  - intros fields. rewrite chatHandler_stages. reflexivity.
Qed.

(** ** C4 *)

(** C4. When the transcription stage fails, the route contacts the
    transcription server only (no completion request, no synthesis
    request), logs the error, and answers 500 with the message of that
    failure as its single error.  When transcription succeeds and the
    completion stage fails, the route contacts those two services only (no
    synthesis request) and answers 500 with the message of the completion
    failure. *)
Theorem first_failure_aborts (host : Host) (config : Config)
    (voice : ReferenceVoice) (req : Request) (f : UploadedFile) :
  req_file req = Some f ->
  (forall e, outcomeOf (transcribe config f) = Throw e ->
     exists name message,
       e = ErrorObject name message
       /\ chatHandler config voice req
          = ([CalledWhisper (whisperUrl config) (whisperForm config f);
              ConsoleError e],
             Ok {| code := 500; json := VObj [ (str "error", VStr message) ] |})
       /\ filter isCompletionCall (trace (chatHandler config voice req)) = []
       /\ filter isTtsCall (trace (chatHandler config voice req)) = [])
  /\ (forall transcript e,
        outcomeOf (transcribe config f) = Ok transcript ->
        outcomeOf (generateAssistantReply config transcript (historyOf req)) = Throw e ->
        exists name message,
          e = ErrorObject name message
          /\ chatHandler config voice req
             = ([CalledWhisper (whisperUrl config) (whisperForm config f);
                 CalledCompletion (completionRequest config transcript (historyOf req));
                 ConsoleError e],
                Ok {| code := 500; json := VObj [ (str "error", VStr message) ] |})
          /\ filter isTtsCall (trace (chatHandler config voice req)) = []).
Proof.
  intros Hf. split.
  - intros e He.
    destruct (transcribe_throws_Error config f He) as [name [message ->]].
    exists name, message. split; [reflexivity|].
    destruct (req_file_some _ Hf) as [fields ->].
    rewrite chatHandler_stages. unfold stages. cbn [req_body req_file member].
    pose proof (transcribe_trace config f) as Ht.
    destruct (transcribe config f) as [t1 r1]. simpl in He, Ht. subst t1 r1.
    repeat split.
  - intros transcript e Ht He.
    destruct (generateAssistantReply_throws_Error config _ _ He) as [name [message ->]].
    exists name, message. split; [reflexivity|].
    destruct (req_file_some _ Hf) as [fields ->].
    rewrite chatHandler_stages. unfold stages. cbn [req_body req_file member].
    pose proof (transcribe_trace config f) as Ht1.
    destruct (transcribe config f) as [t1 r1]. simpl in Ht, Ht1. subst t1 r1.
    pose proof (generateAssistantReply_trace config transcript
                  (historyOf (Multipart (Some f) fields))) as Ht2.
    destruct (generateAssistantReply config transcript
                (historyOf (Multipart (Some f) fields))) as [t2 r2].
    simpl in He, Ht2. subst t2 r2. repeat split.
Qed.

(** The transcription server answering 503, then the completion service
    answering with a blank message. *)
Lemma first_failure_aborts_witness :
  (req_file Samples.submission = Some Samples.recording
   /\ outcomeOf (transcribe (host := Samples.whisperDown) Samples.defaults
                   Samples.recording)
      = Throw (newError (str "Whisper server error: 503 busy"))
   /\ exists name message,
        newError (str "Whisper server error: 503 busy") = ErrorObject name message
        /\ chatHandler (host := Samples.whisperDown) Samples.defaults Samples.voice
             Samples.submission
           = ([CalledWhisper (whisperUrl Samples.defaults)
                 (whisperForm Samples.defaults Samples.recording);
               ConsoleError (newError (str "Whisper server error: 503 busy"))],
              Ok {| code := 500; json := VObj [ (str "error", VStr message) ] |})
        /\ filter isCompletionCall
             (trace (chatHandler (host := Samples.whisperDown) Samples.defaults
                       Samples.voice Samples.submission)) = []
        /\ filter isTtsCall
             (trace (chatHandler (host := Samples.whisperDown) Samples.defaults
                       Samples.voice Samples.submission)) = [])
  /\ (outcomeOf (transcribe (host := Samples.blankReply) Samples.defaults
                   Samples.recording)
      = Ok (str "hello")
      /\ outcomeOf (generateAssistantReply (host := Samples.blankReply)
                      Samples.defaults (str "hello")
                      (historyOf (host := Samples.blankReply) Samples.submission))
         = Throw (newError (str "LLM response was empty."))
      /\ exists name message,
           newError (str "LLM response was empty.") = ErrorObject name message
           /\ chatHandler (host := Samples.blankReply) Samples.defaults Samples.voice
                Samples.submission
              = ([CalledWhisper (whisperUrl Samples.defaults)
                    (whisperForm Samples.defaults Samples.recording);
                  CalledCompletion
                    (completionRequest Samples.defaults (str "hello")
                       (historyOf (host := Samples.blankReply) Samples.submission));
                  ConsoleError (newError (str "LLM response was empty."))],
                 Ok {| code := 500; json := VObj [ (str "error", VStr message) ] |})
           /\ filter isTtsCall
                (trace (chatHandler (host := Samples.blankReply) Samples.defaults
                          Samples.voice Samples.submission)) = []).
Proof.
  split.
  - split; [reflexivity|]. split; [reflexivity|].
    exact (proj1 (@first_failure_aborts Samples.whisperDown Samples.defaults
                    Samples.voice Samples.submission Samples.recording eq_refl)
                 (newError (str "Whisper server error: 503 busy")) eq_refl).
  - split; [reflexivity|]. split; [reflexivity|].
    exact (proj2 (@first_failure_aborts Samples.blankReply Samples.defaults
                    Samples.voice Samples.submission Samples.recording eq_refl)
                 (str "hello") (newError (str "LLM response was empty."))
                 eq_refl eq_refl).
Defined.

(** ** C3 *)

(** C3. When the completion service answers and the message content
    extracted from its answer is missing, [null], or blank after trimming,
    [generateAssistantReply] fails with the error "LLM response was
    empty." after that one request.  Whatever the service answers, the
    stage never returns an empty string, and every synthesis request the
    route makes carries a text that is not empty. *)
Theorem empty_reply_rejected (host : Host) (config : Config)
    (transcript : jsstring) (history : list Message) (completion c : value) :
  completionService (completionRequest config transcript history)
    = Fulfilled completion ->
  messageContent completion = Ok c ->
  blankContent c ->
  generateAssistantReply config transcript history
  = ([CalledCompletion (completionRequest config transcript history)],
     Throw (newError (str "LLM response was empty.")))
  /\ (forall t h reply,
        outcomeOf (generateAssistantReply config t h) = Ok reply -> reply <> [])
  /\ (forall voice req url payload,
        In (CalledTts url payload) (trace (chatHandler config voice req)) ->
        exists reply,
          lookup (str "syn_text")
            (match payload with VObj props => props | _ => [] end) = VStr reply
          /\ reply <> []).
Proof.
  intros Hs Hc Hb. split; [|split].
  - rewrite generateAssistantReply_eq, Hs. simpl.
    now rewrite (replyOf_blank _ Hc Hb).
  - intros t h reply H. exact (proj1 (generateAssistantReply_nonempty config t h H)).
  - intros voice req url payload H. rewrite chatHandler_stages in H.
    destruct (stages_tts_payload config voice req url payload H) as [t [reply [Hr ->]]].
    exists reply. split; [reflexivity|].
    exact (proj1 (generateAssistantReply_nonempty config t _ Hr)).
Qed.

Lemma empty_reply_rejected_witness :
  blankContent (VStr (str "   "))
  /\ generateAssistantReply (host := Samples.blankReply) Samples.defaults
       (str "hello") []
     = ([CalledCompletion (completionRequest Samples.defaults (str "hello") [])],
        Throw (newError (str "LLM response was empty."))).
Proof.
  split; [reflexivity|].
  exact (proj1 (@empty_reply_rejected Samples.blankReply Samples.defaults
                  (str "hello") [] (Samples.completionOf (VStr (str "   ")))
                  (VStr (str "   ")) eq_refl eq_refl eq_refl)).
Defined.

Lemma finalUserMessage_last (before : list Message) (m : Message) :
  role m = str "user" -> finalUserMessage (before ++ [m]) = Some m.
Proof.
  intros H. unfold finalUserMessage. rewrite rev_app_distr. simpl.
  now rewrite H.
Qed.

(** ** C6 *)

(** C6, as the code has it.  The message list is, in this order: the
    system instruction, the preamble instruction, the prior history in its
    original order, the new transcript as a user message, and, only when a
    postscript is configured, the postscript as a further user message; it
    is the list sent to the completion service.  Without a postscript the
    transcript is the final user message of the list.  With one, the
    postscript is the final user message and the transcript is the message
    just before it. *)
Theorem buildMessages_order (host : Host) (config : Config)
    (transcript : jsstring) (history : list Message) :
  buildMessages config transcript history
  = [ {| role := str "system"; content := llmSystem config |};
      {| role := str "user"; content := llmPreprompt config |} ]
    ++ history
    ++ [ {| role := str "user"; content := transcript |} ]
    ++ (if isEmpty (llmPostprompt config) then []
        else [ {| role := str "user"; content := llmPostprompt config |} ])
  /\ trace (generateAssistantReply config transcript history)
     = [CalledCompletion {| model := llmModel config;
                            messages := buildMessages config transcript history;
                            temperature := (7, -1)%Z |}]
  /\ (llmPostprompt config = [] ->
      finalUserMessage (buildMessages config transcript history)
      = Some {| role := str "user"; content := transcript |})
  /\ (llmPostprompt config <> [] ->
      finalUserMessage (buildMessages config transcript history)
      = Some {| role := str "user"; content := llmPostprompt config |}
      /\ exists before,
           buildMessages config transcript history
           = before ++ [ {| role := str "user"; content := transcript |};
                         {| role := str "user"; content := llmPostprompt config |} ]).
Proof.
  assert (E : buildMessages config transcript history
    = [ {| role := str "system"; content := llmSystem config |};
        {| role := str "user"; content := llmPreprompt config |} ]
      ++ history
      ++ [ {| role := str "user"; content := transcript |} ]
      ++ (if isEmpty (llmPostprompt config) then []
          else [ {| role := str "user"; content := llmPostprompt config |} ])).
  { unfold buildMessages.
    destruct history as [|m history]; simpl;
      destruct (isEmpty (llmPostprompt config)); simpl;
      rewrite <- ?app_assoc; reflexivity. }
  split; [exact E|]. split; [apply generateAssistantReply_trace|]. split.
  - intros Hp. rewrite E, Hp. cbn [isEmpty]. rewrite app_nil_r, app_assoc.
    now apply finalUserMessage_last.
  - intros Hp. apply isEmpty_false in Hp. rewrite E, Hp. split.
    + rewrite !app_assoc. now apply finalUserMessage_last.
    + exists ([ {| role := str "system"; content := llmSystem config |};
                {| role := str "user"; content := llmPreprompt config |} ] ++ history).
      now rewrite <- app_assoc.
Qed.

Lemma buildMessages_order_witness :
  (llmPostprompt Samples.defaults = []
   /\ finalUserMessage (buildMessages Samples.defaults (str "hello") [])
      = Some {| role := str "user"; content := str "hello" |})
  /\ (llmPostprompt Samples.withPostscript <> []
      /\ finalUserMessage (buildMessages Samples.withPostscript (str "hello") [])
         = Some {| role := str "user";
                   content := llmPostprompt Samples.withPostscript |}).
Proof.
  split; split.
  - reflexivity.
  - exact (proj1 (proj2 (proj2 (@buildMessages_order Samples.stubbed Samples.defaults
                                  (str "hello") []))) eq_refl).
  - discriminate.
  - refine (proj1 (proj2 (proj2 (proj2 (@buildMessages_order Samples.stubbed
                                          Samples.withPostscript (str "hello") [])))
                     _)).
    discriminate.
Defined.

(** C6 as stated fails: with the postscript "Be brief." configured, the
    final user message of the list built for the transcript "hello" is the
    postscript. *)
Lemma transcript_not_final_with_postscript :
  finalUserMessage (buildMessages Samples.withPostscript (str "hello") [])
  = Some {| role := str "user"; content := str "Be brief." |}
  /\ ~ (forall config transcript history,
          finalUserMessage (buildMessages config transcript history)
          = Some {| role := str "user"; content := transcript |}).
Proof.
  split; [reflexivity|].
  intros H. specialize (H Samples.withPostscript (str "hello") []).
  vm_compute in H. discriminate H.
Qed.

(** ** C8 *)

(** C8 at an empty reference audio file: the load succeeds with an empty
    audio buffer, whereas an empty reference transcript makes it throw
    "Reference text file is empty.". *)
Theorem empty_reference_audio_accepted :
  loadReferenceVoice (host := Samples.emptyAudioFile) Samples.noEnv (str "/srv/nodejs")
  = Ok {| referenceAudioBuffer := []; referenceText := str "Hello there." |}
  /\ loadReferenceVoice (host := Samples.emptyTextFile) Samples.noEnv (str "/srv/nodejs")
     = Throw (newError (str "Reference text file is empty.")).
Proof. split; reflexivity. Qed.

End PipelineFacts.

(* ================================================================== *)
(** * The page *)
(* ================================================================== *)

Module ClientFacts.
Import Client.

Lemma grows_same (p q : Page) : chatHistory q = chatHistory p -> grows p q.
Proof. intros H. exists []. rewrite app_nil_r. split; [exact H | constructor]. Qed.

Lemma grows_refl (p : Page) : grows p p.
Proof. now apply grows_same. Qed.

Lemma grows_trans (p q r : Page) : grows p q -> grows q r -> grows p r.
Proof.
  intros [a [Ha Fa]] [b [Hb Fb]]. exists (a ++ b). split.
  - now rewrite Hb, Ha, app_assoc.
  - apply Forall_app. now split.
Qed.

Lemma appendChatMessage_history (r : jsstring) (c a : value) (p : Page) :
  chatHistory (appendChatMessage r c a p)
  = chatHistory p
    ++ (if truthy c
        then [ {| role := r; content := c;
                  audioBase64 := match a with VUndefined => VNull | x => x end |} ]
        else []).
Proof.
  unfold appendChatMessage. destruct (truthy c); simpl.
  - reflexivity.
  - now rewrite app_nil_r.
Qed.

Lemma appendChatMessage_falsy (r : jsstring) (c a : value) (p : Page) :
  truthy c = false -> appendChatMessage r c a p = p.
Proof. unfold appendChatMessage. now intros ->. Qed.

Lemma grows_append (r : jsstring) (c a : value) (p : Page) :
  grows p (appendChatMessage r c a p).
Proof.
  eexists. split; [apply appendChatMessage_history|].
  destruct (truthy c) eqn:E; constructor; [exact E | constructor].
Qed.

Lemma grows_invariant (p q : Page) :
  grows p q -> Forall truthyContent (chatHistory p) ->
  Forall truthyContent (chatHistory q).
Proof. intros [a [-> Fa]] Fp. apply Forall_app. now split. Qed.

Section WithBrowser.

Context {browser : Browser}.
Variable script : Script.

Lemma grows_actionCatch (p : Page) (r : Run) :
  grows p (fst r) -> grows p (actionCatch r).
Proof. destruct r as [q [e|]]; simpl; auto. Qed.

Lemma grows_requestFailed (e : exn) (p : Page) : grows p (requestFailed e p).
Proof. now apply grows_same. Qed.

Lemma grows_startRecording (p : Page) : grows p (fst (startRecording p)).
Proof.
  unfold startRecording. destruct (isRecording p); [apply grows_refl|].
  destruct hasMediaDevices; now apply grows_same.
Qed.

Lemma grows_startRecording_granted (p : Page) :
  grows p (fst (startRecording_granted p)).
Proof.
  unfold startRecording_granted. destruct hasMediaRecorder; now apply grows_same.
Qed.

Lemma grows_stopRecording (p : Page) : grows p (stopRecording p).
Proof.
  unfold stopRecording.
  destruct (mediaRecorder p); [|apply grows_refl].
  destruct (currentRecorder p) as [r|]; [|apply grows_refl].
  destruct (state r); [apply grows_refl | now apply grows_same].
Qed.

Lemma grows_sendRecording (b : list Byte.byte) (t f : jsstring) (p : Page) :
  grows p (sendRecording script b t f p).
Proof. unfold sendRecording. destruct script; now apply grows_same. Qed.

Lemma grows_stopRecording_stopped (p : Page) :
  grows p (fst (stopRecording_stopped script p)).
Proof.
  unfold stopRecording_stopped.
  destruct (currentRecorder (setIsRecording false p)) as [r|]; simpl.
  - eapply grows_trans; [|apply grows_sendRecording]. now apply grows_same.
  - now apply grows_same.
Qed.

(** The history after the answer of [/api/chat], app.js lines 243-247. *)
Lemma chatAnswered_history (props : list (jsstring * value)) (p : Page) :
  chatHistory (chatAnswered true (VObj props) p)
  = chatHistory p
    ++ (if truthy (lookup (str "transcript") props)
        then [ {| role := str "user";
                  content := lookup (str "transcript") props;
                  audioBase64 := VNull |} ]
        else [])
    ++ (if truthy (lookup (str "assistantReply") props)
        then [ {| role := str "assistant";
                  content := lookup (str "assistantReply") props;
                  audioBase64 :=
                    if truthy (lookup (str "audioBase64") props)
                    then lookup (str "audioBase64") props else VNull |} ]
        else []).
Proof.
  unfold chatAnswered, prop. cbn [negb member].
  set (T := lookup (str "transcript") props).
  set (R := lookup (str "assistantReply") props).
  set (A := lookup (str "audioBase64") props).
  destruct (truthy A) eqn:EA; destruct (truthy T) eqn:ET;
    destruct (truthy R) eqn:ER;
    cbn [chatHistory setPlaying setStatus];
    rewrite ?appendChatMessage_history, ?ET, ?ER;
    cbn [chatHistory setPlaying setStatus];
    rewrite ?appendChatMessage_history, ?ET, ?ER;
    cbn [chatHistory setPlaying setStatus];
    rewrite ?app_nil_r, <- ?app_assoc; try reflexivity;
    destruct A; try discriminate; reflexivity.
Qed.

Lemma grows_chatAnswered (ok : bool) (data : value) (p : Page) :
  grows p (chatAnswered ok data p).
Proof.
  destruct ok.
  - destruct data as [ | | b | m e | s | items | props ];
      try (apply grows_same; reflexivity).
    eexists. split; [apply chatAnswered_history|].
    apply Forall_app. split.
    + destruct (truthy (lookup (str "transcript") props)) eqn:E;
        constructor; [exact E | constructor].
    + destruct (truthy (lookup (str "assistantReply") props)) eqn:E;
        constructor; [exact E | constructor].
  - unfold chatAnswered. cbn [negb]. now apply grows_same.
Qed.

Lemma grows_transcribeAnswered (ok : bool) (data : value) (form : Upload)
    (p : Page) : grows p (transcribeAnswered ok data form p).
Proof.
  unfold transcribeAnswered.
  destruct ok; cbn [negb]; [|now apply grows_same].
  destruct (member data (str "transcript")) as [t|e]; [|now apply grows_same].
  destruct (isEmpty (stringOrEmpty t)); [now apply grows_same|].
  eapply grows_trans; [apply grows_append|]. now apply grows_same.
Qed.

Lemma grows_llmAnswered (ok : bool) (data : value) (p : Page) :
  grows p (llmAnswered ok data p).
Proof.
  unfold llmAnswered.
  destruct ok; cbn [negb]; [|now apply grows_same].
  destruct (member data (str "assistantReply")) as [t|e]; [|now apply grows_same].
  destruct (isEmpty (stringOrEmpty t)); now apply grows_same.
Qed.

Lemma grows_ttsAnswered (ok : bool) (data : value) (reply : jsstring) (p : Page) :
  grows p (ttsAnswered ok data reply p).
Proof.
  unfold ttsAnswered.
  destruct ok; cbn [negb]; [|now apply grows_same].
  destruct (member data (str "audioBase64")) as [a|e]; [|now apply grows_same].
  eapply grows_trans; [apply grows_append|].
  match goal with |- context [if ?b then _ else _] => destruct b end;
    now apply grows_same.
Qed.

Lemma grows_answered (call : Inflight) (ok : bool) (body : outcome value)
    (p : Page) : grows p (answered call ok body p).
Proof.
  unfold answered. destruct body as [data|n m]; [|apply grows_requestFailed].
  destruct call.
  - apply grows_chatAnswered.
  - apply grows_transcribeAnswered.
  - apply grows_llmAnswered.
  - apply grows_ttsAnswered.
Qed.

(** Every event but the click on "Clear chat" leaves the stored turns in
    place and adds only turns of truthy content. *)
Lemma grows_step (e : PageEvent) (p : Page) :
  e <> ClickClear -> grows p (step script e p).
Proof.
  intros He. destruct e; cbn [step]; try congruence.
  - destruct (buttonDisabled p); [apply grows_refl|].
    destruct (isRecording p); [apply grows_stopRecording|].
    apply grows_actionCatch, grows_startRecording.
  - destruct (micPending p =? 0)%nat; [apply grows_refl|].
    apply grows_actionCatch, grows_startRecording_granted.
  - destruct (micPending p =? 0)%nat; [apply grows_refl|].
    apply grows_actionCatch. now apply grows_same.
  - destruct (0 <? List.length data)%nat; [now apply grows_same | apply grows_refl].
  - destruct (nth_error (recorders p) recorder) as [r|]; [|apply grows_refl].
    match goal with |- context [if ?b then _ else _] => destruct b end;
      [|now apply grows_same].
    apply grows_actionCatch.
    eapply grows_trans; [|apply grows_stopRecording_stopped].
    now apply grows_same.
  - destruct (nth_error (inflight p) n) as [call|]; [|apply grows_refl].
    eapply grows_trans; [|apply grows_answered]. now apply grows_same.
  - destruct (nth_error (inflight p) n) as [call|]; [|apply grows_refl].
    now apply grows_same.
  - destruct (playing p =? 0)%nat; [apply grows_refl | now apply grows_same].
Qed.

Lemma step_invariant (e : PageEvent) (p : Page) :
  Forall truthyContent (chatHistory p) ->
  Forall truthyContent (chatHistory (step script e p)).
Proof.
  intros H. destruct e; try (eapply grows_invariant; [apply grows_step; congruence | exact H]).
  constructor.
Qed.

Lemma run_invariant (events : list PageEvent) (p : Page) :
  Forall truthyContent (chatHistory p) ->
  Forall truthyContent (chatHistory (run script events p)).
Proof.
  revert p. induction events as [|e events IH]; intros p H; simpl; [exact H|].
  apply IH, step_invariant, H.
Qed.

End WithBrowser.

(** ** C10 *)

(** C10. After any sequence of events, from the page as loaded, every turn
    of the client-side chat history has truthy content.  Appending a
    message whose content is falsy (empty or missing) changes nothing;
    clearing leaves no turn; and every event either is the click on "Clear
    chat" or keeps the stored turns and adds only turns of truthy
    content.  This holds for app.js and for the staged script. *)
Theorem chatHistory_content_truthy (browser : Browser) (script : Script)
    (initialStatus : jsstring) (events : list PageEvent) :
  Forall truthyContent (chatHistory (run script events (initial initialStatus)))
  /\ (forall role content audio p,
        truthy content = false -> appendChatMessage role content audio p = p)
  /\ (forall p, chatHistory (clearChat p) = [])
  /\ (forall e p, e = ClickClear \/ grows p (step script e p)).
Proof.
  split; [|split; [|split]].
  - apply run_invariant. constructor.
  - intros. now apply appendChatMessage_falsy.
  - reflexivity.
  - intros e p. destruct e; try (right; apply grows_step; congruence). now left.
Qed.

Lemma chatHistory_content_truthy_witness :
  truthy (VStr []) = false
  /\ appendChatMessage (str "user") (VStr []) VUndefined Samples.loaded = Samples.loaded.
Proof.
  split; [reflexivity|].
  exact (proj1 (proj2 (@chatHistory_content_truthy Samples.chrome SingleEndpoint
                         (str "Ready.") []))
               (str "user") (VStr []) VUndefined Samples.loaded eq_refl).
Defined.

End ClientFacts.

(* ================================================================== *)
(** * One turn, end to end *)
(* ================================================================== *)

Module TurnFacts.
Import Server Stages Client Wire PipelineFacts ClientFacts.

(** The history after the page has received the success body of the
    route. *)
Lemma success_answer_history (browser : Browser) (transcript reply : jsstring)
    (audio : value) (n : nat) (form : Upload) (p : Page) :
  nth_error (inflight p) n = Some (AwaitChat form) ->
  reply <> [] -> truthy audio = true ->
  chatHistory
    (step SingleEndpoint
       (answerOf n {| code := 200; json := okBody transcript reply audio |}) p)
  = chatHistory p
    ++ (if isEmpty transcript then [] else [userTurn transcript])
    ++ [assistantTurn reply audio].
Proof.
  intros Hn Hr Ha. unfold answerOf. cbn [step code json]. rewrite Hn.
  cbn [answered Nat.leb andb]. unfold okBody.
  rewrite chatAnswered_history.
  change (lookup (str "transcript") _) with (VStr transcript).
  change (lookup (str "assistantReply") _) with (VStr reply).
  change (lookup (str "audioBase64") _) with audio.
  rewrite Ha, !truthy_VStr.
  apply isEmpty_false in Hr. rewrite Hr.
  cbn [negb chatHistory setInflight].
  destruct (isEmpty transcript); reflexivity.
Qed.

(** ** C1 *)

(** C1, as the code has it.  When a submission carries audio and the three
    stages succeed, with transcript [transcript], reply [reply] and audio
    [audio], the route contacts the three services once each, in order,
    and answers 200 with exactly
    [{transcript, assistantReply, audioBase64}] made of those outputs.  On
    that answer the page appends, when the transcript is not empty,
    exactly two turns: the user turn with the transcript, then the
    assistant turn with the reply (and its audio); when the transcript is
    empty it appends the assistant turn alone. *)
Theorem successful_turn (host : Host) (browser : Browser) (config : Config)
    (voice : ReferenceVoice) (req : Request) (f : UploadedFile)
    (transcript reply : jsstring) (audio : value)
    (p : Page) (n : nat) (form : Upload) :
  req_file req = Some f ->
  outcomeOf (transcribe config f) = Ok transcript ->
  outcomeOf (generateAssistantReply config transcript (historyOf req)) = Ok reply ->
  outcomeOf (synthesize config reply voice) = Ok audio ->
  nth_error (inflight p) n = Some (AwaitChat form) ->
  chatHandler config voice req
  = ([CalledWhisper (whisperUrl config) (whisperForm config f);
      CalledCompletion (completionRequest config transcript (historyOf req));
      CalledTts (cloneUrl config) (clonePayload reply voice (synLangOf config))],
     Ok {| code := 200;
           json := VObj [ (str "transcript", VStr transcript);
                          (str "assistantReply", VStr reply);
                          (str "audioBase64", audio) ] |})
  /\ (transcript <> [] ->
      chatHistory
        (step SingleEndpoint
           (answerOf n {| code := 200; json := okBody transcript reply audio |}) p)
      = chatHistory p ++ [userTurn transcript; assistantTurn reply audio])
  /\ (transcript = [] ->
      chatHistory
        (step SingleEndpoint
           (answerOf n {| code := 200; json := okBody transcript reply audio |}) p)
      = chatHistory p ++ [assistantTurn reply audio]).
Proof.
  intros Hf Ht Hg Hs Hn.
  pose proof (proj1 (generateAssistantReply_nonempty config _ _ Hg)) as Hr.
  pose proof (synthesize_truthy config _ _ Hs) as Ha.
  split; [|split].
  - destruct (req_file_some _ Hf) as [fields ->].
    rewrite chatHandler_stages. unfold stages. cbn [req_body req_file member].
    pose proof (transcribe_trace config f) as T1.
    destruct (transcribe config f) as [t1 r1]. simpl in Ht, T1. subst t1 r1.
    pose proof (generateAssistantReply_trace config transcript
                  (historyOf (Multipart (Some f) fields))) as T2.
    destruct (generateAssistantReply config transcript
                (historyOf (Multipart (Some f) fields))) as [t2 r2].
    simpl in Hg, T2. subst t2 r2.
    pose proof (synthesize_trace config reply voice) as T3.
    destruct (synthesize config reply voice) as [t3 r3].
    simpl in Hs, T3. subst t3 r3. reflexivity.
  - intros Hne. rewrite (@success_answer_history browser transcript reply audio n form p Hn Hr Ha).
    apply isEmpty_false in Hne. now rewrite Hne.
  - intros Hnil. rewrite (@success_answer_history browser transcript reply audio n form p Hn Hr Ha).
    now rewrite Hnil.
Qed.

(** The round trip of the stubbed pipeline: "hello", "hi there", "QUJD". *)
Lemma successful_turn_witness :
  chatHistory Samples.awaiting = []
  /\ chatHandler (host := Samples.stubbed) Samples.defaults Samples.voice
       Samples.submission
     = ([CalledWhisper (whisperUrl Samples.defaults)
           (whisperForm Samples.defaults Samples.recording);
         CalledCompletion
           (completionRequest Samples.defaults (str "hello")
              (historyOf (host := Samples.stubbed) Samples.submission));
         CalledTts (cloneUrl Samples.defaults)
           (clonePayload (str "hi there") Samples.voice (synLangOf Samples.defaults))],
        Ok {| code := 200;
              json := VObj [ (str "transcript", VStr (str "hello"));
                             (str "assistantReply", VStr (str "hi there"));
                             (str "audioBase64", VStr (str "QUJD")) ] |})
  /\ chatHistory
       (step (browser := Samples.chrome) SingleEndpoint
          (answerOf 0 {| code := 200;
                         json := okBody (str "hello") (str "hi there")
                                   (VStr (str "QUJD")) |})
          Samples.awaiting)
     = [userTurn (str "hello"); assistantTurn (str "hi there") (VStr (str "QUJD"))].
Proof.
  pose proof (@successful_turn Samples.stubbed Samples.chrome Samples.defaults
                Samples.voice Samples.submission Samples.recording
                (str "hello") (str "hi there") (VStr (str "QUJD"))
                Samples.awaiting 0
                {| audio := [Byte.x1a; Byte.x45; Byte.xdf; Byte.xa3];
                   audioType := str "audio/webm;codecs=opus";
                   filename := str "recording.webm";
                   chatHistoryPayload := [] |}
                eq_refl eq_refl eq_refl eq_refl eq_refl) as [H1 [H2 _]].
  split; [reflexivity|]. split; [exact H1|].
  apply H2. discriminate.
Defined.

(** C1 as stated fails for a blank transcription: the three stages
    succeed, the route answers 200 with the transcript [""], and the page
    appends one turn only, the assistant's. *)
Lemma blank_transcript_appends_one_turn :
  outcomeOf (transcribe (host := Samples.silent) Samples.defaults Samples.recording)
  = Ok []
  /\ outcomeOf (generateAssistantReply (host := Samples.silent) Samples.defaults []
                 (historyOf (host := Samples.silent) Samples.submission))
     = Ok (str "hi there")
  /\ outcomeOf (synthesize (host := Samples.silent) Samples.defaults (str "hi there")
                 Samples.voice)
     = Ok (VStr (str "QUJD"))
  /\ outcomeOf (chatHandler (host := Samples.silent) Samples.defaults Samples.voice
                 Samples.submission)
     = Ok {| code := 200;
             json := VObj [ (str "transcript", VStr []);
                            (str "assistantReply", VStr (str "hi there"));
                            (str "audioBase64", VStr (str "QUJD")) ] |}
  /\ chatHistory Samples.awaiting = []
  /\ chatHistory
       (step (browser := Samples.chrome) SingleEndpoint
          (answerOf 0 {| code := 200;
                         json := VObj [ (str "transcript", VStr []);
                                        (str "assistantReply", VStr (str "hi there"));
                                        (str "audioBase64", VStr (str "QUJD")) ] |})
          Samples.awaiting)
     = [assistantTurn (str "hi there") (VStr (str "QUJD"))].
Proof. repeat split; vm_compute; reflexivity. Qed.

End TurnFacts.

(* ================================================================== *)
(** * More about the server *)
(* ================================================================== *)

Module ServerMoreFacts.
Import Server Spec Stages ServerMore PipelineFacts.

Section WithHost.

Context {host : Host}.
Variable config : Config.

Lemma transcribe_outcome (f : UploadedFile) :
  outcomeOf (transcribe config f)
  = match whisperServer (whisperUrl config) (whisperForm config f) with
    | Rejected name message => Throw (ErrorObject name message)
    | Fulfilled reply =>
        if ok reply then Ok (trim (text reply))
        else Throw (newError (str "Whisper server error: "
                              ++ digits (status reply) ++ str " " ++ text reply))
    end.
Proof.
  unfold transcribe, transcribeAudio, fetchWhisper, whisperForm, responseFormat.
  rewrite bind_emit.
  destruct (whisperServer _ _) as [reply|n m]; [|reflexivity].
  cbn [settle]. unfold bind. destruct (ok reply); reflexivity.
Qed.

Lemma synthesize_outcome (reply : jsstring) (voice : ReferenceVoice) :
  outcomeOf (synthesize config reply voice)
  = match ttsServer (cloneUrl config) (clonePayload reply voice (synLangOf config)) with
    | Rejected name message => Throw (ErrorObject name message)
    | Fulfilled r =>
        if ok r then
          match JSON_parse (text r) with
          | Rejected name message => Throw (ErrorObject name message)
          | Fulfilled parsed =>
              match member parsed (str "audio_base64") with
              | Throw e => Throw e
              | Ok a =>
                  if truthy a then Ok a
                  else Throw (newError (str "TTS response missing audio_base64."))
              end
          end
        else Throw (newError (str "TTS server error: "
                              ++ digits (status r) ++ str " " ++ text r))
    end.
Proof.
  unfold synthesize, synthesizeSpeech, fetchTts, clonePayload, cloneUrl.
  rewrite bind_emit.
  destruct (ttsServer _ _) as [r|n m]; [|reflexivity].
  cbn [settle]. unfold bind at 1.
  destruct (ok r); cbn [negb]; [|reflexivity].
  destruct (JSON_parse (text r)) as [v|n m]; [|reflexivity].
  cbn [settle]. rewrite bind_lift_Ok.
  destruct (member v (str "audio_base64")) as [a|e]; [|reflexivity].
  rewrite bind_lift_Ok. destruct (truthy a); reflexivity.
Qed.

Lemma synthesize_throws_Error (reply : jsstring) (voice : ReferenceVoice) (e : exn) :
  outcomeOf (synthesize config reply voice) = Throw e ->
  exists name message, e = ErrorObject name message.
Proof.
  rewrite synthesize_outcome.
  destruct (ttsServer _ _) as [r|n m].
  - destruct (ok r).
    + destruct (JSON_parse (text r)) as [v|n m].
      * destruct (member v (str "audio_base64")) as [a|e'] eqn:Hm.
        -- destruct (truthy a); intros H; [discriminate|].
           injection H as <-. unfold newError. eauto.
        -- intros H. injection H as <-. exact (member_throws_Error _ _ Hm).
      * intros H. injection H as <-. eauto.
    + intros H. injection H as <-. unfold newError. eauto.
  - intros H. injection H as <-. eauto.
Qed.

Lemma historyOf_wellFormed (req : Request) : Forall wellFormedTurn (historyOf req).
Proof.
  unfold historyOf. destruct req as [|file fields]; cbn [req_body member];
    [constructor|].
  destruct (HistoryFacts.normalize_total (lookup (str "chatHistory") fields))
    as [h [Hh Hw]].
  now rewrite Hh.
Qed.

Lemma chatHandler_ending (voice : ReferenceVoice) (req : Request) :
  exists t r, chatHandler config voice req = (t, Ok r) /\ Ending config voice req t r.
Proof.
  rewrite chatHandler_stages. unfold stages.
  destruct req as [|[f|] fields]; cbn [req_body req_file member].
  - do 2 eexists. split; [reflexivity|]. now apply BodyMissing.
  - set (req := Multipart (Some f) fields).
    pose proof (transcribe_trace config f) as T1.
    destruct (transcribe config f) as [t1 [transcript|e]] eqn:E1; simpl in T1; subst t1.
    + pose proof (generateAssistantReply_trace config transcript (historyOf req)) as T2.
      destruct (generateAssistantReply config transcript (historyOf req))
        as [t2 [reply|e]] eqn:E2; simpl in T2; subst t2.
      * pose proof (synthesize_trace config reply voice) as T3.
        destruct (synthesize config reply voice) as [t3 [audio|e]] eqn:E3;
          simpl in T3; subst t3; do 2 eexists; (split; [reflexivity|]).
        -- eapply Succeeded;
             [reflexivity | now rewrite E1 | now rewrite E2 | now rewrite E3].
        -- eapply SynthesisFailed;
             [reflexivity | now rewrite E1 | now rewrite E2 | now rewrite E3].
      * do 2 eexists. split; [reflexivity|].
        eapply CompletionFailed; [reflexivity | now rewrite E1 | now rewrite E2].
    + do 2 eexists. split; [reflexivity|].
      eapply TranscriptionFailed; [reflexivity | now rewrite E1].
  - do 2 eexists. split; [reflexivity|]. now eapply NoAudio.
Qed.

End WithHost.

(** ** Transcription *)

(** A transcript is the trimmed body of a 2xx answer of the transcription
    server; it has no white space at either end; and the result of
    [transcribeAudio] does not depend on [JSON.parse]. *)
Theorem transcript_is_trimmed_body (host : Host) (config : Config)
    (f : UploadedFile) (transcript : jsstring) :
  outcomeOf (transcribe config f) = Ok transcript ->
  (exists reply,
     whisperServer (whisperUrl config) (whisperForm config f) = Fulfilled reply
     /\ ok reply = true /\ transcript = trim (text reply))
  /\ trim transcript = transcript
  /\ (forall parse,
        transcribe (host := withParser parse host) config f = transcribe config f).
Proof.
  intros H. rewrite transcribe_outcome in H.
  assert (P : forall parse,
             transcribe (host := withParser parse host) config f = transcribe config f).
  { intros parse. unfold transcribe, transcribeAudio, fetchWhisper. cbn [whisperServer withParser].
    rewrite !bind_emit.
    destruct (Platform.whisperServer _ _) as [reply|n m]; [|reflexivity].
    cbn [settle]. unfold bind. destruct (ok reply); reflexivity. }
  destruct (whisperServer _ _) as [reply|n m]; [|discriminate].
  destruct (ok reply) eqn:Hok; [|discriminate].
  injection H as <-. split; [|split].
  - now exists reply.
  - apply trim_idempotent.
  - exact P.
Qed.

Lemma transcript_is_trimmed_body_witness :
  outcomeOf (transcribe (host := Samples.stubbed) Samples.defaults Samples.recording)
  = Ok (str "hello")
  /\ trim (str "hello") = str "hello".
Proof.
  split; [reflexivity|].
  exact (proj1 (proj2 (@transcript_is_trimmed_body Samples.stubbed Samples.defaults
                         Samples.recording (str "hello") eq_refl))).
Defined.

(** A failed transcription is either the rejection of the request itself,
    passed on unchanged, or a non-2xx answer, reported as
    "Whisper server error: <status> <body>". *)
Theorem transcription_failure_cases (host : Host) (config : Config)
    (f : UploadedFile) (e : exn) :
  outcomeOf (transcribe config f) = Throw e ->
  (exists name message,
     whisperServer (whisperUrl config) (whisperForm config f) = Rejected name message
     /\ e = ErrorObject name message)
  \/ (exists reply,
        whisperServer (whisperUrl config) (whisperForm config f) = Fulfilled reply
        /\ ok reply = false
        /\ e = newError (str "Whisper server error: " ++ digits (status reply)
                         ++ str " " ++ text reply)).
Proof.
  intros H. rewrite transcribe_outcome in H.
  destruct (whisperServer _ _) as [reply|n m].
  - destruct (ok reply) eqn:Hok; [discriminate|]. injection H as <-.
    right. now exists reply.
  - injection H as <-. left. now exists n, m.
Qed.

Lemma transcription_failure_cases_witness :
  outcomeOf (transcribe (host := Samples.whisperDown) Samples.defaults Samples.recording)
  = Throw (newError (str "Whisper server error: 503 busy"))
  /\ ((exists name message,
         whisperServer (Host := Samples.whisperDown) (whisperUrl Samples.defaults)
           (whisperForm Samples.defaults Samples.recording) = Rejected name message
         /\ newError (str "Whisper server error: 503 busy") = ErrorObject name message)
      \/ (exists reply,
            whisperServer (Host := Samples.whisperDown) (whisperUrl Samples.defaults)
              (whisperForm Samples.defaults Samples.recording) = Fulfilled reply
            /\ ok reply = false
            /\ newError (str "Whisper server error: 503 busy")
               = newError (str "Whisper server error: " ++ digits (status reply)
                           ++ str " " ++ text reply))).
Proof.
  split; [reflexivity|].
  exact (@transcription_failure_cases Samples.whisperDown Samples.defaults
           Samples.recording _ eq_refl).
Defined.



(** ** Synthesis *)

(** A synthesized audio is the [audio_base64] member of the JSON body of a
    2xx answer of the synthesis server, and it is truthy. *)
Theorem synthesis_result (host : Host) (config : Config) (reply : jsstring)
    (voice : ReferenceVoice) (audio : value) :
  outcomeOf (synthesize config reply voice) = Ok audio ->
  exists answer parsed,
    ttsServer (cloneUrl config) (clonePayload reply voice (synLangOf config))
      = Fulfilled answer
    /\ ok answer = true
    /\ JSON_parse (text answer) = Fulfilled parsed
    /\ member parsed (str "audio_base64") = Ok audio
    /\ truthy audio = true.
Proof.
  intros H. rewrite synthesize_outcome in H.
  destruct (ttsServer _ _) as [r|n m]; [|discriminate].
  destruct (ok r) eqn:Hok; [|discriminate].
  destruct (JSON_parse (text r)) as [v|n m] eqn:Hp; [|discriminate].
  destruct (member v (str "audio_base64")) as [a|e] eqn:Hm; [|discriminate].
  destruct (truthy a) eqn:Ht; [|discriminate].
  injection H as <-. exists r, v. auto.
Qed.

Lemma synthesis_result_witness :
  outcomeOf (synthesize (host := Samples.stubbed) Samples.defaults (str "hi there")
               Samples.voice) = Ok (VStr (str "QUJD"))
  /\ exists answer parsed,
       ttsServer (Host := Samples.stubbed) (cloneUrl Samples.defaults)
         (clonePayload (str "hi there") Samples.voice (synLangOf Samples.defaults))
         = Fulfilled answer
       /\ ok answer = true
       /\ JSON_parse (Host := Samples.stubbed) (text answer) = Fulfilled parsed
       /\ member parsed (str "audio_base64") = Ok (VStr (str "QUJD"))
       /\ truthy (VStr (str "QUJD")) = true.
Proof.
  split; [reflexivity|].
  exact (@synthesis_result Samples.stubbed Samples.defaults (str "hi there")
           Samples.voice (VStr (str "QUJD")) eq_refl).
Defined.

(** A 2xx answer of the synthesis server whose JSON body is an object
    without a truthy [audio_base64] makes [synthesizeSpeech] throw
    "TTS response missing audio_base64."; a non-2xx answer makes it throw
    "TTS server error: <status> <body>"; a body that is not JSON makes it
    throw the SyntaxError of [JSON.parse]. *)
Theorem synthesis_failure_cases (host : Host) (config : Config)
    (reply : jsstring) (voice : ReferenceVoice) (answer : HttpReply) :
  ttsServer (cloneUrl config) (clonePayload reply voice (synLangOf config))
    = Fulfilled answer ->
  (ok answer = false ->
   outcomeOf (synthesize config reply voice)
   = Throw (newError (str "TTS server error: " ++ digits (status answer)
                      ++ str " " ++ text answer)))
  /\ (forall name message,
        ok answer = true -> JSON_parse (text answer) = Rejected name message ->
        outcomeOf (synthesize config reply voice) = Throw (ErrorObject name message))
  /\ (forall props,
        ok answer = true -> JSON_parse (text answer) = Fulfilled (VObj props) ->
        truthy (lookup (str "audio_base64") props) = false ->
        outcomeOf (synthesize config reply voice)
        = Throw (newError (str "TTS response missing audio_base64."))).
Proof.
  intros Hs. rewrite synthesize_outcome, Hs. split; [|split].
  - now intros ->.
  - intros name message -> ->. reflexivity.
  - intros props -> -> Ht. cbn [member]. now rewrite Ht.
Qed.

Lemma synthesis_failure_cases_witness :
  outcomeOf (synthesize (host := MoreSamples.ttsWithoutAudio) Samples.defaults
               (str "hi there") Samples.voice)
  = Throw (newError (str "TTS response missing audio_base64.")).
Proof.
  exact (proj2 (proj2 (@synthesis_failure_cases MoreSamples.ttsWithoutAudio
                         Samples.defaults (str "hi there") Samples.voice
                         {| status := 200;
                            text := Samples.jsonText "{'detail':'queued'}" |}
                         eq_refl))
               [ (str "detail", VStr (str "queued")) ] eq_refl eq_refl eq_refl).
Defined.

Lemma stripTrailingSlash_slash (base : jsstring) :
  stripTrailingSlash (base ++ str "/") = base.
Proof.
  unfold stripTrailingSlash. rewrite rev_app_distr. simpl. apply rev_involutive.
Qed.

Lemma stripTrailingSlash_none (base : jsstring) :
  endsWithSlash base = false -> stripTrailingSlash base = base.
Proof.
  unfold endsWithSlash, stripTrailingSlash.
  destruct (rev base) as [|c r]; [reflexivity|]. now intros ->.
Qed.

(** The synthesis URL is the configured base followed by "/clone", whether
    or not the base is written with one trailing slash. *)
Theorem clone_url_trailing_slash (config : Config) (base : jsstring) :
  endsWithSlash base = false ->
  cloneUrl (withTtsUrl base config) = base ++ str "/clone"
  /\ cloneUrl (withTtsUrl (base ++ str "/") config) = base ++ str "/clone".
Proof.
  intros H. unfold cloneUrl, withTtsUrl. cbn [qwenTtsUrl].
  now rewrite stripTrailingSlash_slash, (stripTrailingSlash_none _ H).
Qed.

Lemma clone_url_trailing_slash_witness :
  endsWithSlash (str "http://tts.lan:8000") = false
  /\ cloneUrl (withTtsUrl (str "http://tts.lan:8000/") Samples.defaults)
     = str "http://tts.lan:8000/clone".
Proof.
  split; [reflexivity|].
  exact (proj2 (@clone_url_trailing_slash Samples.defaults
                  (str "http://tts.lan:8000") eq_refl)).
Defined.

Lemma synLangOf_cases (config : Config) :
  synLangOf config <> []
  /\ trim (synLangOf config) = synLangOf config
  /\ (trim (qwenTtsLang config) = [] -> synLangOf config = str "Auto")
  /\ (trim (qwenTtsLang config) <> [] -> synLangOf config = trim (qwenTtsLang config)).
Proof.
  assert (A : trim (str "Auto") = str "Auto") by reflexivity.
  unfold synLangOf, orDefault.
  destruct (qwenTtsLang config) as [|c l] eqn:El; cbn [isEmpty].
  - rewrite A. cbn [isEmpty str]. simpl.
    repeat split; try discriminate; try reflexivity. intros H. now elim H.
  - destruct (trim (c :: l)) as [|d t] eqn:Et; cbn [isEmpty].
    + repeat split; try discriminate; try reflexivity. intros H. now elim H.
    + repeat split; try discriminate.
      rewrite <- Et. apply trim_idempotent.
Qed.

(** Every synthesis request of the route goes to the clone URL and
    carries the reference voice as loaded (its audio in base64, its
    transcript), the reply to speak, and a language tag that is trimmed
    and never empty: "Auto" when none is configured. *)
Theorem synthesis_request_fields (host : Host) (config : Config)
    (voice : ReferenceVoice) (req : Request) (url : jsstring) (payload : value) :
  In (CalledTts url payload) (trace (chatHandler config voice req)) ->
  url = cloneUrl config
  /\ exists reply lang,
       payload = VObj [ (str "ref_audio_base64",
                         VStr (toBase64 (referenceAudioBuffer voice)));
                        (str "ref_text", VStr (referenceText voice));
                        (str "syn_text", VStr reply);
                        (str "syn_lang", VStr lang) ]
       /\ lang <> [] /\ trim lang = lang
       /\ (trim (qwenTtsLang config) = [] -> lang = str "Auto").
Proof.
  destruct (chatHandler_ending config voice req) as [t [r [-> E]]].
  cbn [trace fst]. intros Hin.
  destruct (synLangOf_cases config) as [L1 [L2 [L3 _]]].
  inversion E; subst; simpl in Hin;
    repeat (destruct Hin as [Hin|Hin]; try discriminate Hin); try contradiction;
    injection Hin as <- <-; (split; [reflexivity|]);
    eexists; exists (synLangOf config); (split; [reflexivity|]); auto.
Qed.

Lemma synthesis_request_fields_witness :
  exists reply lang,
    clonePayload (str "hi there") Samples.voice (synLangOf Samples.defaults)
    = VObj [ (str "ref_audio_base64",
              VStr (toBase64 (referenceAudioBuffer Samples.voice)));
             (str "ref_text", VStr (referenceText Samples.voice));
             (str "syn_text", VStr reply);
             (str "syn_lang", VStr lang) ]
    /\ lang <> [] /\ trim lang = lang
    /\ (trim (qwenTtsLang Samples.defaults) = [] -> lang = str "Auto").
Proof.
  refine (proj2 (@synthesis_request_fields Samples.stubbed Samples.defaults
                   Samples.voice Samples.submission (cloneUrl Samples.defaults)
                   (clonePayload (str "hi there") Samples.voice
                      (synLangOf Samples.defaults)) _)).
  vm_compute. right. right. left. reflexivity.
Defined.

(** ** The route *)

(** When transcription and completion succeed and the synthesis stage
    fails, the three services have been contacted once each, the error is
    logged, and the answer is 500 with the message of that failure as its
    only content: neither the transcript nor the reply is returned. *)
Theorem synthesis_failure_aborts (host : Host) (config : Config)
    (voice : ReferenceVoice) (req : Request) (f : UploadedFile)
    (transcript reply : jsstring) (e : exn) :
  req_file req = Some f ->
  outcomeOf (transcribe config f) = Ok transcript ->
  outcomeOf (generateAssistantReply config transcript (historyOf req)) = Ok reply ->
  outcomeOf (synthesize config reply voice) = Throw e ->
  exists name message,
    e = ErrorObject name message
    /\ chatHandler config voice req
       = ([CalledWhisper (whisperUrl config) (whisperForm config f);
           CalledCompletion (completionRequest config transcript (historyOf req));
           CalledTts (cloneUrl config) (clonePayload reply voice (synLangOf config));
           ConsoleError e],
          Ok {| code := 500; json := VObj [ (str "error", VStr message) ] |}).
Proof.
  intros Hf Ht Hg Hs.
  destruct (synthesize_throws_Error config _ _ Hs) as [name [message ->]].
  exists name, message. split; [reflexivity|].
  destruct (req_file_some _ Hf) as [fields ->].
  set (req := Multipart (Some f) fields) in *.
  rewrite chatHandler_stages. unfold stages.
  change (member (req_body req) (str "chatHistory"))
    with (Ok (A := value) (lookup (str "chatHistory") fields)).
  change (req_file req) with (Some f). cbv iota beta.
  pose proof (transcribe_trace config f) as T1.
  destruct (transcribe config f) as [t1 r1]. simpl in Ht, T1. subst t1 r1.
  pose proof (generateAssistantReply_trace config transcript (historyOf req)) as T2.
  destruct (generateAssistantReply config transcript (historyOf req)) as [t2 r2].
  simpl in Hg, T2. subst t2 r2.
  pose proof (synthesize_trace config reply voice) as T3.
  destruct (synthesize config reply voice) as [t3 r3].
  simpl in Hs, T3. subst t3 r3. reflexivity.
Qed.

Lemma synthesis_failure_aborts_witness :
  exists name message,
    newError (str "TTS response missing audio_base64.") = ErrorObject name message
    /\ chatHandler (host := MoreSamples.ttsWithoutAudio) Samples.defaults
         Samples.voice Samples.submission
       = ([CalledWhisper (whisperUrl Samples.defaults)
             (whisperForm Samples.defaults Samples.recording);
           CalledCompletion
             (completionRequest Samples.defaults (str "hello")
                (historyOf (host := MoreSamples.ttsWithoutAudio) Samples.submission));
           CalledTts (cloneUrl Samples.defaults)
             (clonePayload (str "hi there") Samples.voice (synLangOf Samples.defaults));
           ConsoleError (newError (str "TTS response missing audio_base64."))],
          Ok {| code := 500; json := VObj [ (str "error", VStr message) ] |}).
Proof.
  exact (@synthesis_failure_aborts MoreSamples.ttsWithoutAudio Samples.defaults
           Samples.voice Samples.submission Samples.recording
           (str "hello") (str "hi there")
           (newError (str "TTS response missing audio_base64."))
           eq_refl eq_refl eq_refl eq_refl).
Defined.

Lemma body_missing (req : Request) (e : exn) :
  member (req_body req) (str "chatHistory") = Throw e ->
  req = NotMultipart
  /\ e = ErrorObject (str "TypeError")
           (str "Cannot read properties of undefined (reading 'chatHistory')").
Proof.
  destruct req as [|file fields]; cbn [req_body member]; intros H;
    [|discriminate H].
  injection H as <-. split; reflexivity.
Qed.

(** The handler answers every request that reaches it: it never throws.
    The status is 200, 400 or 500.  It is 400 exactly when the request is
    a multipart form without an audio file, and the body then is
    [{error: "Missing recorded audio."}]; a request that is not a
    multipart form is answered 500 with the message of the TypeError of
    reading [chatHistory] from its missing body; and every answer that is
    not 200 has the body [{error: message}]. *)
Theorem chatHandler_always_answers (host : Host) (config : Config)
    (voice : ReferenceVoice) (req : Request) :
  exists response,
    outcomeOf (chatHandler config voice req) = Ok response
    /\ (code response = 200 \/ code response = 400 \/ code response = 500)
    /\ (code response = 400 <-> exists fields, req = Multipart None fields)
    /\ (code response = 400 ->
        json response
        = VObj [ (str "error", VStr (str "Missing recorded audio.")) ])
    /\ (req = NotMultipart ->
        code response = 500
        /\ json response
           = VObj [ (str "error",
                     VStr (str "Cannot read properties of undefined (reading 'chatHistory')")) ])
    /\ (code response <> 200 ->
        exists message, json response = VObj [ (str "error", VStr message) ]).
Proof.
  destruct (chatHandler_ending config voice req) as [t [r [-> E]]].
  exists r. split; [reflexivity|].
  inversion E as [e Hb | fields Hr | f e Hf Ht | f tr e Hf Ht Hg
                  | f tr rp e Hf Ht Hg Hs | f tr rp a Hf Ht Hg Hs];
    subst; cbn [code json failure errorBody].
  - destruct (body_missing _ Hb) as [-> ->].
    split; [auto|]. split; [split; [discriminate | intros [fields H]; discriminate H]|].
    split; [discriminate|]. split; [intros _; split; reflexivity|].
    intros _. eexists. reflexivity.
  - split; [auto|]. split; [split; [intros _; now exists fields | reflexivity]|].
    split; [reflexivity|]. split; [discriminate|].
    intros _. eexists. reflexivity.
  - split; [auto|].
    split; [split; [discriminate | intros [fields ->]; discriminate Hf]|].
    split; [discriminate|]. split; [intros ->; discriminate Hf|].
    intros _. eexists. reflexivity.
  - split; [auto|].
    split; [split; [discriminate | intros [fields ->]; discriminate Hf]|].
    split; [discriminate|]. split; [intros ->; discriminate Hf|].
    intros _. eexists. reflexivity.
  - split; [auto|].
    split; [split; [discriminate | intros [fields ->]; discriminate Hf]|].
    split; [discriminate|]. split; [intros ->; discriminate Hf|].
    intros _. eexists. reflexivity.
  - split; [auto|].
    split; [split; [discriminate | intros [fields ->]; discriminate Hf]|].
    split; [discriminate|]. split; [intros ->; discriminate Hf|].
    intros Hne. now elim Hne.
Qed.


(** The route contacts the services in the order transcription,
    completion, synthesis, each at most once, and each only after the one
    ahead of it has succeeded: the transcription service exactly when an
    audio file is attached, the completion service exactly when the
    transcription of that file succeeded, the synthesis service exactly
    when the completion for that transcript succeeded as well; all three
    when the answer is 200. *)
Theorem services_in_order (host : Host) (config : Config)
    (voice : ReferenceVoice) (req : Request) :
  exists response,
    outcomeOf (chatHandler config voice req) = Ok response
    /\ (servicesCalled (trace (chatHandler config voice req)) = []
        \/ servicesCalled (trace (chatHandler config voice req)) = [Whisper]
        \/ servicesCalled (trace (chatHandler config voice req))
           = [Whisper; Completion]
        \/ servicesCalled (trace (chatHandler config voice req))
           = [Whisper; Completion; Tts])
    /\ (servicesCalled (trace (chatHandler config voice req)) = []
        <-> req_file req = None)
    /\ (In Completion (servicesCalled (trace (chatHandler config voice req)))
        <-> exists f transcript,
              req_file req = Some f
              /\ outcomeOf (transcribe config f) = Ok transcript)
    /\ (In Tts (servicesCalled (trace (chatHandler config voice req)))
        <-> exists f transcript reply,
              req_file req = Some f
              /\ outcomeOf (transcribe config f) = Ok transcript
              /\ outcomeOf (generateAssistantReply config transcript
                              (historyOf req)) = Ok reply)
    /\ (code response = 200 ->
        servicesCalled (trace (chatHandler config voice req))
        = [Whisper; Completion; Tts]).
Proof.
  destruct (chatHandler_ending config voice req) as [t [r [-> E]]].
  exists r. split; [reflexivity|]. cbn [trace fst].
  inversion E as [e Hb | fields Hr | f e Hf Ht | f tr e Hf Ht Hg
                  | f tr rp e Hf Ht Hg Hs | f tr rp a Hf Ht Hg Hs];
    subst; cbn [servicesCalled serviceOf code failure].
  - destruct (body_missing _ Hb) as [-> _].
    split; [auto|]. split; [split; reflexivity|].
    split; [split; [intros [] | intros [f [tr [Hf _]]]; discriminate Hf]|].
    split; [split; [intros [] | intros [f [tr [rp [Hf _]]]]; discriminate Hf]|].
    discriminate.
  - split; [auto|]. split; [split; reflexivity|].
    split; [split; [intros [] | intros [f [tr [Hf _]]]; discriminate Hf]|].
    split; [split; [intros [] | intros [f [tr [rp [Hf _]]]]; discriminate Hf]|].
    discriminate.
  - split; [auto|]. split; [split; intros; congruence|].
    split; [split; [intros [H|[]]; discriminate H
                   | intros [f' [tr [Hf' Ht']]]; congruence]|].
    split; [split; [intros [H|[]]; discriminate H
                   | intros [f' [tr [rp [Hf' [Ht' _]]]]]; congruence]|].
    discriminate.
  - split; [auto|]. split; [split; intros; congruence|].
    split; [split; [intros _; now exists f, tr | intros _; right; now left]|].
    split; [split; [intros [H|[H|[]]]; discriminate H|]|].
    { intros [f' [tr' [rp [Hf' [Ht' Hg']]]]].
      assert (f' = f) by congruence. subst f'.
      assert (tr' = tr) by congruence. subst tr'. congruence. }
    discriminate.
  - split; [auto 6|]. split; [split; intros; congruence|].
    split; [split; [intros _; now exists f, tr | intros _; right; now left]|].
    split; [split; [intros _; now exists f, tr, rp
                   | intros _; right; right; now left]|].
    discriminate.
  - split; [auto 6|]. split; [split; intros; congruence|].
    split; [split; [intros _; now exists f, tr | intros _; right; now left]|].
    split; [split; [intros _; now exists f, tr, rp
                   | intros _; right; right; now left]|].
    reflexivity.
Qed.

Lemma buildMessages_eq (config : Config) (transcript : jsstring)
    (history : list Message) :
  buildMessages config transcript history
  = [ {| role := str "system"; content := llmSystem config |};
      {| role := str "user"; content := llmPreprompt config |} ]
    ++ history
    ++ [ {| role := str "user"; content := transcript |} ]
    ++ (if isEmpty (llmPostprompt config) then []
        else [ {| role := str "user"; content := llmPostprompt config |} ]).
Proof.
  unfold buildMessages.
  destruct history as [|m history]; simpl;
    destruct (isEmpty (llmPostprompt config)); simpl;
    rewrite <- ?app_assoc; reflexivity.
Qed.

(** Whatever the submitted history holds, the message list sent to the
    completion service starts with the configured system instruction and
    has no other message of a role other than "user" or "assistant": a
    history entry cannot speak as the system. *)
Theorem history_cannot_add_system_message (host : Host) (config : Config)
    (voice : ReferenceVoice) (req : Request) (request : CompletionRequest) :
  In (CalledCompletion request) (trace (chatHandler config voice req)) ->
  exists rest,
    messages request
    = {| role := str "system"; content := llmSystem config |} :: rest
    /\ Forall (fun m => role m = str "user" \/ role m = str "assistant") rest.
Proof.
  destruct (chatHandler_ending config voice req) as [t [r [-> E]]].
  cbn [trace fst]. intros Hin.
  assert (G : forall transcript,
    exists rest,
      messages (completionRequest config transcript (historyOf req))
      = {| role := str "system"; content := llmSystem config |} :: rest
      /\ Forall (fun m => role m = str "user" \/ role m = str "assistant") rest).
  { intros transcript. cbn [messages completionRequest].
    rewrite buildMessages_eq. eexists. split; [reflexivity|].
    constructor; [now left|].
    apply Forall_app. split.
    - eapply Forall_impl; [|apply historyOf_wellFormed].
      intros m [Hr _]. exact Hr.
    - constructor; [now left|].
      destruct (isEmpty (llmPostprompt config)); repeat constructor. }
  inversion E; subst; simpl in Hin;
    repeat (destruct Hin as [Hin|Hin]; try discriminate Hin); try contradiction;
    injection Hin as <-; apply G.
Qed.

Lemma history_cannot_add_system_message_witness :
  exists rest,
    messages (completionRequest Samples.defaults (str "hello")
                (historyOf (host := Samples.stubbed) MoreSamples.injecting))
    = {| role := str "system"; content := llmSystem Samples.defaults |} :: rest
    /\ Forall (fun m => role m = str "user" \/ role m = str "assistant") rest.
Proof.
  refine (@history_cannot_add_system_message Samples.stubbed Samples.defaults
            Samples.voice MoreSamples.injecting
            (completionRequest Samples.defaults (str "hello")
               (historyOf (host := Samples.stubbed) MoreSamples.injecting)) _).
  vm_compute. right. left. reflexivity.
Defined.

(** ** History, again *)

Lemma entryOf_valid (m : Message) :
  wellFormedTurn m -> validEntry (entryOf m) = true /\ turnOf (entryOf m) = m.
Proof.
  destruct m as [r c]. unfold wellFormedTurn, entryOf, validEntry, turnOf.
  cbn [role content]. intros [Hr [Ht Hc]].
  change (lookup (str "role") [(str "role", VStr r); (str "content", VStr c)])
    with (VStr r).
  change (lookup (str "content") [(str "role", VStr r); (str "content", VStr c)])
    with (VStr c).
  cbv beta iota. rewrite Ht. apply isEmpty_false in Hc. rewrite Hc. split; [|reflexivity].
  destruct Hr as [-> | ->]; reflexivity.
Qed.

Lemma normalizedHistory_entryOf (turns : list Message) :
  Forall wellFormedTurn turns -> normalizedHistory (map entryOf turns) = turns.
Proof.
  unfold normalizedHistory.
  induction 1 as [|m turns Hm _ IH]; [reflexivity|].
  destruct (entryOf_valid Hm) as [Hv Ht].
  cbn [map filter]. rewrite Hv. cbn [map]. now rewrite Ht, IH.
Qed.

(** A history of well-formed turns, sent as the array of their
    [{role, content}] objects, is normalized to itself; hence normalizing
    what normalization returned changes nothing. *)
Theorem normalization_round_trip (host : Host) (turns : list Message) :
  Forall wellFormedTurn turns ->
  normalizeChatHistory (VArr (map entryOf turns)) = Ok turns
  /\ (forall raw history,
        normalizeChatHistory raw = Ok history ->
        normalizeChatHistory (VArr (map entryOf history)) = Ok history).
Proof.
  assert (R : forall l, Forall wellFormedTurn l ->
                        normalizeChatHistory (VArr (map entryOf l)) = Ok l).
  { intros l Hl.
    rewrite (HistoryFacts.normalize_arrayPayload (raw := VArr (map entryOf l))
               (items := map entryOf l)) by now left.
    now rewrite normalizedHistory_entryOf. }
  intros H. split; [now apply R|].
  intros raw history Hn. apply R.
  destruct (HistoryFacts.normalize_total raw) as [h [Hh Hw]]. congruence.
Qed.

Lemma normalization_round_trip_witness :
  Forall wellFormedTurn MoreSamples.twoTurns
  /\ normalizeChatHistory (host := Samples.stubbed)
       (VArr (map entryOf MoreSamples.twoTurns)) = Ok MoreSamples.twoTurns.
Proof.
  assert (H : Forall wellFormedTurn MoreSamples.twoTurns).
  { constructor; [split; [left; reflexivity | split; [reflexivity | discriminate]]|].
    constructor; [split; [right; reflexivity | split; [reflexivity | discriminate]]|].
    constructor. }
  split; [exact H|].
  exact (proj1 (@normalization_round_trip Samples.stubbed MoreSamples.twoTurns H)).
Defined.

(** ** The reference voice *)

(** A reference voice that was loaded holds the bytes of the audio file as
    read and the trimmed text of the transcript file, and that text is not
    empty. *)
Theorem reference_voice_loaded (host : Host) (env : jsstring -> option jsstring)
    (dirname : jsstring) (voice : ReferenceVoice) :
  loadReferenceVoice env dirname = Ok voice ->
  readFileSync (referenceAudioPath env dirname)
    = Fulfilled (referenceAudioBuffer voice)
  /\ (exists txt,
        readFileSync_utf8 (referenceTextPath env dirname) = Fulfilled txt
        /\ referenceText voice = trim txt)
  /\ referenceText voice <> []
  /\ trim (referenceText voice) = referenceText voice.
Proof.
  unfold loadReferenceVoice.
  destruct (readFileSync _) as [a|n m]; [|discriminate]. cbn [settle].
  destruct (readFileSync_utf8 _) as [t|n m]; [|discriminate]. cbn [settle].
  destruct (isEmpty (trim t)) eqn:E; [discriminate|].
  intros H. injection H as <-. cbn [referenceAudioBuffer referenceText].
  split; [reflexivity|]. split; [now exists t|]. split.
  - now apply isEmpty_false.
  - apply trim_idempotent.
Qed.

Lemma reference_voice_loaded_witness :
  loadReferenceVoice (host := Samples.stubbed) Samples.noEnv (str "/srv/nodejs")
  = Ok Samples.voice
  /\ referenceText Samples.voice <> [].
Proof.
  split; [reflexivity|].
  exact (proj1 (proj2 (proj2 (@reference_voice_loaded Samples.stubbed Samples.noEnv
                                (str "/srv/nodejs") Samples.voice eq_refl)))).
Defined.

(** Loading the reference voice fails when the audio file cannot be read
    (with the error of that read, whatever the transcript file), when the
    transcript file cannot be read, and when the transcript is empty or
    blank. *)
Theorem reference_voice_failures (host : Host) (env : jsstring -> option jsstring)
    (dirname : jsstring) :
  (forall name message,
     readFileSync (referenceAudioPath env dirname) = Rejected name message ->
     loadReferenceVoice env dirname = Throw (ErrorObject name message))
  /\ (forall audio name message,
        readFileSync (referenceAudioPath env dirname) = Fulfilled audio ->
        readFileSync_utf8 (referenceTextPath env dirname) = Rejected name message ->
        loadReferenceVoice env dirname = Throw (ErrorObject name message))
  /\ (forall audio txt,
        readFileSync (referenceAudioPath env dirname) = Fulfilled audio ->
        readFileSync_utf8 (referenceTextPath env dirname) = Fulfilled txt ->
        trim txt = [] ->
        loadReferenceVoice env dirname
        = Throw (newError (str "Reference text file is empty."))).
Proof.
  unfold loadReferenceVoice. split; [|split].
  - now intros name message ->.
  - now intros audio name message -> ->.
  - intros audio txt -> -> Ht. cbn [settle]. now rewrite Ht.
Qed.

Lemma reference_voice_failures_witness :
  loadReferenceVoice (host := MoreSamples.missingAudioFile) Samples.noEnv
    (str "/srv/nodejs")
  = Throw (ErrorObject (str "Error") (str "ENOENT: no such file or directory")).
Proof.
  exact (proj1 (@reference_voice_failures MoreSamples.missingAudioFile Samples.noEnv
                  (str "/srv/nodejs")) _ _ eq_refl).
Defined.

End ServerMoreFacts.

(* ================================================================== *)
(** * More about the page *)
(* ================================================================== *)

Module ClientMoreFacts.
Import Client ClientMore ClientFacts.

Ltac case_conditions :=
  repeat match goal with
         | |- context [if ?b then _ else _] => destruct b eqn:?
         | |- context [match member ?d ?k with _ => _ end] =>
             destruct (member d k) eqn:?
         end.

Lemma sameRecorder_refl (p : Page) : sameRecorder p p.
Proof. repeat split. Qed.

Lemma sameRecorder_trans (p q r : Page) :
  sameRecorder p q -> sameRecorder q r -> sameRecorder p r.
Proof.
  unfold sameRecorder. intros H1 H2.
  repeat match goal with H : _ /\ _ |- _ => destruct H end.
  repeat split; congruence.
Qed.

Lemma sameRecorder_append (r : jsstring) (c a : value) (p : Page) :
  sameRecorder p (appendChatMessage r c a p).
Proof. unfold appendChatMessage. destruct (truthy c); repeat split. Qed.

Section WithBrowser.

Context {browser : Browser}.
Variable script : Script.

Lemma sameRecorder_requestFailed (e : exn) (p : Page) :
  sameRecorder p (requestFailed e p).
Proof. repeat split. Qed.

Lemma sameRecorder_chatAnswered (ok : bool) (data : value) (p : Page) :
  sameRecorder p (chatAnswered ok data p).
Proof.
  unfold chatAnswered, requestFailed, appendChatMessage, sameRecorder.
  cbv zeta. case_conditions; repeat split.
Qed.

Lemma sameRecorder_answered (call : Inflight) (ok : bool) (body : outcome value)
    (p : Page) : sameRecorder p (answered call ok body p).
Proof.
  unfold answered. destruct body as [data|n m]; [|apply sameRecorder_requestFailed].
  destruct call; [apply sameRecorder_chatAnswered| | |];
    unfold transcribeAnswered, llmAnswered, ttsAnswered, requestFailed,
      appendChatMessage, sameRecorder;
    cbv zeta; case_conditions; repeat split.
Qed.

End WithBrowser.

Ltac case_matches :=
  repeat (cbv beta iota zeta;
          match goal with
          | |- context [match ?x with _ => _ end] =>
              lazymatch x with
              | context [match _ with _ => _ end] => fail
              | _ => destruct x eqn:?
              end
          end).

Ltac page_fields :=
  cbn [mediaRecorder recorders audioChunks isRecording chatHistory statusText
       buttonText buttonDisabled deviceRequests micPending streamsGranted
       liveStreams stopPending inflight playing consoleErrors
       setStatus setChatHistory setAudioChunks setIsRecording setRecorders
       setMic setStreams setStopPending setInflight setPlaying consoleError
       clearChat fst snd].





Section Invariants.

Context {browser : Browser}.
Variable script : Script.


Lemma label_step (e : PageEvent) (p : Page) :
  buttonText p = labelFor (isRecording p) ->
  buttonText (step script e p) = labelFor (isRecording (step script e p)).
Proof.
  intros H. destruct e as [ | | | error | data | recorder | n okFlag body | n name message | ]; cbn [step].
  - unfold stopRecording, actionCatch, startRecording. case_matches; page_fields; first [exact H | congruence | reflexivity].
  - exact H.
  - unfold actionCatch, startRecording_granted.
    case_matches; page_fields; first [exact H | congruence | reflexivity].
  - unfold actionCatch, startRecording_denied. case_matches; page_fields; first [exact H | congruence | reflexivity].
  - case_matches; page_fields; first [exact H | congruence | reflexivity].
  - unfold actionCatch, stopRecording_stopped, sendRecording.
    case_matches; page_fields; first [exact H | congruence | reflexivity].
  - destruct (nth_error (inflight p) n) as [call|]; [|exact H].
    destruct (sameRecorder_answered call okFlag body
                (setInflight (removeNth n (inflight p)) p))
      as [_ [_ [_ [Hr [Hb _]]]]].
    rewrite Hb, Hr. exact H.
  - destruct (nth_error (inflight p) n) as [call|]; exact H.
  - case_matches; page_fields; first [exact H | congruence | reflexivity].
Qed.

Lemma insecure_step (notice : jsstring) (e : PageEvent) (p : Page) :
  buttonDisabled p = true /\ micPending p = 0 /\ deviceRequests p = 0
  /\ isRecording p = false /\ recorders p = [] /\ inflight p = []
  /\ playing p = 0 /\ chatHistory p = [] /\ statusText p = notice ->
  let q := step script e p in
  buttonDisabled q = true /\ micPending q = 0 /\ deviceRequests q = 0
  /\ isRecording q = false /\ recorders q = [] /\ inflight q = []
  /\ playing q = 0 /\ chatHistory q = [] /\ statusText q = notice.
Proof.
  intros [H1 [H2 [H3 [H4 [H5 [H6 [H7 [H8 H9]]]]]]]].
  destruct e as [ | | | error | data | recorder | n okFlag body | n name message | ]; cbn [step]; cbv zeta.
  - rewrite H1. repeat split; assumption.
  - page_fields. repeat split; assumption.
  - rewrite H2. cbn [Nat.eqb]. repeat split; assumption.
  - rewrite H2. cbn [Nat.eqb]. repeat split; assumption.
  - case_matches; page_fields; repeat split; assumption.
  - rewrite H5. destruct recorder; cbn [nth_error]; repeat split; assumption.
  - rewrite H6. destruct n; cbn [nth_error]; repeat split; assumption.
  - rewrite H6. destruct n; cbn [nth_error]; repeat split; assumption.
  - rewrite H7. cbn [Nat.eqb]. repeat split; assumption.
Qed.

End Invariants.

Lemma find_first {A} (f : A -> bool) (l : list A) (x : A) :
  find f l = Some x ->
  exists before after,
    l = before ++ x :: after /\ f x = true
    /\ Forall (fun y => f y = false) before.
Proof.
  induction l as [|y l IH]; simpl; [discriminate|].
  destruct (f y) eqn:E.
  - intros H. injection H as <-. exists [], l. repeat split; auto.
  - intros H. destruct (IH H) as [b [a [-> [Hx Hb]]]].
    exists (y :: b), a. repeat split; auto.
Qed.

Lemma find_none_all {A} (f : A -> bool) (l : list A) :
  find f l = None -> Forall (fun y => f y = false) l.
Proof.
  induction l as [|y l IH]; simpl; [constructor|].
  destruct (f y) eqn:E; [discriminate|]. intros H. constructor; auto.
Qed.

(** ** Recording *)

(** [getSupportedMimeType] returns the first type of the preference list
    that the browser supports: every type ahead of it in the list is
    unsupported.  It returns the empty string only when there is no
    [MediaRecorder], no [isTypeSupported], or no supported type in the
    list. *)
Theorem supported_type_is_first_preferred (browser : Browser) :
  (getSupportedMimeType = []
   /\ (hasMediaRecorder = false \/ isTypeSupported = None
       \/ exists supported,
            isTypeSupported = Some supported
            /\ Forall (fun t => supported t = false) preferredMimeTypes))
  \/ (exists supported before after,
        hasMediaRecorder = true /\ isTypeSupported = Some supported
        /\ preferredMimeTypes = before ++ getSupportedMimeType :: after
        /\ supported getSupportedMimeType = true
        /\ Forall (fun t => supported t = false) before).
Proof.
  unfold getSupportedMimeType.
  destruct hasMediaRecorder; cbn [negb]; [|left; auto].
  destruct isTypeSupported as [supported|]; [|left; auto].
  destruct (find supported preferredMimeTypes) as [t|] eqn:E.
  - right. destruct (find_first _ _ E) as [b [a [Hl [Ht Hb]]]].
    exists supported, b, a. auto.
  - left. split; [reflexivity|]. right. right. exists supported.
    split; [reflexivity|]. now apply find_none_all.
Qed.

(** The label of the record button always tells the state of the flag:
    after any sequence of events it is "Stop chatting" when [isRecording]
    is set and "Start chatting" when it is not. *)
Theorem button_label_follows_flag (browser : Browser) (script : Script)
    (initialStatus : jsstring) (events : list PageEvent) :
  buttonText (run script events (initial initialStatus))
  = (if isRecording (run script events (initial initialStatus))
     then str "Stop chatting" else str "Start chatting").
Proof.
  assert (G : forall p, buttonText p = labelFor (isRecording p) ->
                        buttonText (run script events p)
                        = labelFor (isRecording (run script events p))).
  { induction events as [|e events IH]; intros p H; simpl; [exact H|].
    apply IH, label_step, H. }
  apply G. reflexivity.
Qed.

(** Outside a secure context the record button is disabled when the script
    loads, and then nothing ever happens: whatever the events, the page
    makes no device request, starts no recorder, uploads nothing, stores
    no turn, and keeps the notice "Microphone access requires HTTPS or
    localhost.". *)
Theorem insecure_origin_never_records (browser : Browser) (script : Script)
    (initialStatus : jsstring) (events : list PageEvent) :
  isSecureContext = false ->
  let p := run script events (initial initialStatus) in
  deviceRequests p = 0 /\ isRecording p = false /\ recorders p = []
  /\ inflight p = [] /\ chatHistory p = []
  /\ buttonDisabled p = true
  /\ statusText p = str "Microphone access requires HTTPS or localhost.".
Proof.
  intros Hs.
  assert (G : forall p,
    buttonDisabled p = true /\ micPending p = 0 /\ deviceRequests p = 0
    /\ isRecording p = false /\ recorders p = [] /\ inflight p = []
    /\ playing p = 0 /\ chatHistory p = []
    /\ statusText p = str "Microphone access requires HTTPS or localhost." ->
    let q := run script events p in
    buttonDisabled q = true /\ micPending q = 0 /\ deviceRequests q = 0
    /\ isRecording q = false /\ recorders q = [] /\ inflight q = []
    /\ playing q = 0 /\ chatHistory q = []
    /\ statusText q = str "Microphone access requires HTTPS or localhost.").
  { induction events as [|e events IH]; intros p H; simpl; [exact H|].
    apply IH. exact (@insecure_step browser script _ e p H). }
  destruct (G (initial initialStatus)) as [H1 [H2 [H3 [H4 [H5 [H6 [H7 [H8 H9]]]]]]]].
  { unfold initial. rewrite Hs. repeat split. }
  cbv zeta. auto 10.
Qed.

Lemma insecure_origin_never_records_witness :
  deviceRequests
    (run (browser := MoreSamples.insecure) SingleEndpoint
       [ClickRecord; MicGranted; ClickRecord]
       (initial (browser := MoreSamples.insecure) (str "Ready."))) = 0.
Proof.
  exact (proj1 (@insecure_origin_never_records MoreSamples.insecure SingleEndpoint
                  (str "Ready.") [ClickRecord; MicGranted; ClickRecord] eq_refl)).
Defined.


Lemma nth_error_inactivate (i : nat) (rs : list Recorder) (r : Recorder) :
  nth_error rs i = Some r ->
  nth_error (inactivate i rs) i
  = Some {| stream := stream r; state := Inactive; mimeType := mimeType r |}.
Proof.
  revert i. induction rs as [|x rs IH]; intros [|i]; simpl; try discriminate.
  - intros H. now injection H as ->.
  - apply IH.
Qed.

Lemma liveStreams_stopped (browser : Browser) (script : Script) (i : nat)
    (r : Recorder) (p : Page) :
  nth_error (recorders p) i = Some r ->
  liveStreams (step script (RecorderStopped i) p)
  = filter (fun s => negb (s =? stream r)%nat) (liveStreams p)
  /\ recorders (step script (RecorderStopped i) p) = inactivate i (recorders p).
Proof.
  intros H. cbn [step]. rewrite H.
  unfold actionCatch, stopRecording_stopped, sendRecording.
  case_matches; page_fields; split; reflexivity.
Qed.

(** When the stop event of a recorder arrives, the tracks of its stream
    are stopped: that stream is no longer live, the other streams are as
    before, and the recorder is inactive. *)
Theorem stop_event_releases_stream (browser : Browser) (script : Script)
    (i : nat) (r : Recorder) (p : Page) :
  nth_error (recorders p) i = Some r ->
  ~ In (stream r) (liveStreams (step script (RecorderStopped i) p))
  /\ (forall s, s <> stream r ->
        (In s (liveStreams (step script (RecorderStopped i) p))
         <-> In s (liveStreams p)))
  /\ nth_error (recorders (step script (RecorderStopped i) p)) i
     = Some {| stream := stream r; state := Inactive; mimeType := mimeType r |}.
Proof.
  intros H. destruct (liveStreams_stopped browser script i p H) as [-> ->].
  split; [|split].
  - intros Hin. apply filter_In in Hin as [_ Hin].
    now rewrite Nat.eqb_refl in Hin.
  - intros s Hs. rewrite filter_In. split; [tauto|]. intros Hin. split; [exact Hin|].
    apply negb_true_iff, Nat.eqb_neq, Hs.
  - now apply nth_error_inactivate.
Qed.

Lemma stop_event_releases_stream_witness :
  liveStreams Samples.finalizing = [0]
  /\ ~ In 0 (liveStreams (step (browser := Samples.chrome) SingleEndpoint
                            (RecorderStopped 0) Samples.finalizing)).
Proof.
  split; [reflexivity|].
  exact (proj1 (@stop_event_releases_stream Samples.chrome SingleEndpoint 0
                  {| stream := 0; state := Inactive;
                     mimeType := str "audio/webm;codecs=opus" |}
                  Samples.finalizing eq_refl)).
Defined.






(** ** Answers *)

(** An answer with a status outside 2xx and the body [{error: message}],
    to whichever request of [sendRecording], puts the message in the
    status line ("Request failed." if it is empty), stores no turn, and
    leaves the recorder as it is; the request is no longer pending.  In
    the staged script a failed synthesis therefore loses the reply: it was
    never stored. *)
Theorem error_answer_is_shown (browser : Browser) (script : Script) (n : nat)
    (call : Inflight) (r : Server.Response) (message : jsstring) (p : Page) :
  nth_error (inflight p) n = Some call ->
  ((200 <=? Server.code r) && (Server.code r <=? 299))%nat = false ->
  Server.json r = VObj [ (str "error", VStr message) ] ->
  let q := step script (Wire.answerOf n r) p in
  statusText q = (if isEmpty message then str "Request failed." else message)
  /\ chatHistory q = chatHistory p
  /\ inflight q = removeNth n (inflight p)
  /\ sameRecorder p q.
Proof.
  intros Hn Hc Hj. cbv zeta. unfold Wire.answerOf. cbn [step].
  rewrite Hn, Hc, Hj. unfold answered.
  destruct call;
    unfold chatAnswered, transcribeAnswered, llmAnswered, ttsAnswered,
      requestFailed, errorOf;
    cbn [negb member];
    change (lookup (str "error") [(str "error", VStr message)]) with (VStr message);
    destruct message; cbn [truthy isEmpty negb]; page_fields; repeat split.
Qed.

Lemma error_answer_is_shown_witness :
  statusText
    (step (browser := Samples.chrome) SingleEndpoint
       (Wire.answerOf 0
          {| Server.code := 500;
             Server.json := VObj [ (str "error", VStr (str "LLM response was empty.")) ] |})
       Samples.awaiting)
  = str "LLM response was empty.".
Proof.
  exact (proj1 (@error_answer_is_shown Samples.chrome SingleEndpoint 0
                  (AwaitChat {| audio := [Byte.x1a; Byte.x45; Byte.xdf; Byte.xa3];
                                audioType := str "audio/webm;codecs=opus";
                                filename := str "recording.webm";
                                chatHistoryPayload := [] |})
                  {| Server.code := 500;
                     Server.json :=
                       VObj [ (str "error", VStr (str "LLM response was empty.")) ] |}
                  (str "LLM response was empty.") Samples.awaiting
                  eq_refl eq_refl eq_refl)).
Defined.

(** The staged script refuses a transcription whose transcript is missing,
    not a string, or empty: the status line reads "Transcription was
    empty.", no turn is stored and no further request is made. *)
Theorem staged_blank_transcript_refused (browser : Browser) (script : Script)
    (n : nat) (form : Upload) (props : list (jsstring * value)) (p : Page) :
  nth_error (inflight p) n = Some (AwaitTranscribe form) ->
  stringOrEmpty (lookup (str "transcript") props) = [] ->
  let q := step script (Answered n true (Fulfilled (VObj props))) p in
  statusText q = str "Transcription was empty."
  /\ chatHistory q = chatHistory p
  /\ inflight q = removeNth n (inflight p).
Proof.
  intros Hn Ht. cbv zeta. cbn [step]. rewrite Hn.
  unfold answered, transcribeAnswered. cbn [negb member]. rewrite Ht.
  cbn [isEmpty]. unfold requestFailed. page_fields. repeat split.
Qed.

Lemma staged_blank_transcript_refused_witness :
  statusText
    (step (browser := Samples.chrome) Staged
       (Answered 0 true (Fulfilled (VObj [ (str "transcript", VStr []) ])))
       MoreSamples.stagedAwaiting)
  = str "Transcription was empty.".
Proof.
  exact (proj1 (@staged_blank_transcript_refused Samples.chrome Staged 0
                  {| audio := [Byte.x1a; Byte.x45; Byte.xdf; Byte.xa3];
                     audioType := str "audio/webm;codecs=opus";
                     filename := str "recording.webm";
                     chatHistoryPayload := [] |}
                  [ (str "transcript", VStr []) ] MoreSamples.stagedAwaiting
                  eq_refl eq_refl)).
Defined.

(** A staged turn, one upload in flight: the answer of [/api/transcribe]
    stores the user turn and asks [/api/llm] with the history as it was
    sent with the upload; the answer of [/api/llm] stores nothing and asks
    [/api/tts]; the answer of [/api/tts] stores the assistant turn, with
    the audio when it is a string and [null] otherwise.  The history ends
    with exactly those two turns. *)
Theorem staged_turn (browser : Browser) (script : Script) (form : Upload)
    (transcript reply : jsstring) (props1 props2 props3 : list (jsstring * value))
    (p : Page) :
  inflight p = [AwaitTranscribe form] ->
  lookup (str "transcript") props1 = VStr transcript -> transcript <> [] ->
  lookup (str "assistantReply") props2 = VStr reply -> reply <> [] ->
  let audio := match lookup (str "audioBase64") props3 with
               | VStr s => VStr s
               | _ => VNull
               end in
  let q1 := step script (Answered 0 true (Fulfilled (VObj props1))) p in
  let q2 := step script (Answered 0 true (Fulfilled (VObj props2))) q1 in
  let q3 := step script (Answered 0 true (Fulfilled (VObj props3))) q2 in
  (chatHistory q1 = chatHistory p ++ [userTurn transcript]
   /\ inflight q1 = [AwaitLlm transcript (chatHistoryPayload form)])
  /\ (chatHistory q2 = chatHistory q1 /\ inflight q2 = [AwaitTts reply])
  /\ (chatHistory q3
      = chatHistory p ++ [userTurn transcript; assistantTurn reply audio]
      /\ inflight q3 = []).
Proof.
  intros Hi H1 Ht H2 Hr. cbv zeta.
  apply isEmpty_false in Ht. apply isEmpty_false in Hr.
  assert (E1 : step script (Answered 0 true (Fulfilled (VObj props1))) p
               = setInflight [AwaitLlm transcript (chatHistoryPayload form)]
                   (setStatus (str "Thinking about it...")
                      (setChatHistory (chatHistory p ++ [userTurn transcript])
                         (setInflight [] p)))).
  { cbn [step]. rewrite Hi. cbn [nth_error removeNth].
    unfold answered, transcribeAnswered. cbn [negb member]. rewrite H1.
    cbn [stringOrEmpty]. rewrite Ht. unfold appendChatMessage.
    rewrite truthy_VStr, Ht. cbn [negb]. page_fields. reflexivity. }
  rewrite E1.
  assert (E2 : forall q, inflight q = [AwaitLlm transcript (chatHistoryPayload form)] ->
               step script (Answered 0 true (Fulfilled (VObj props2))) q
               = setInflight [AwaitTts reply]
                   (setStatus (str "Finding the words...") (setInflight [] q))).
  { intros q Hq. cbn [step]. rewrite Hq. cbn [nth_error removeNth].
    unfold answered, llmAnswered. cbn [negb member]. rewrite H2.
    cbn [stringOrEmpty]. rewrite Hr. page_fields. reflexivity. }
  rewrite E2 by reflexivity.
  split; [split; reflexivity|]. split; [split; reflexivity|].
  cbn [step]. page_fields. cbn [nth_error removeNth].
  unfold answered, ttsAnswered. cbn [negb member].
  unfold appendChatMessage. rewrite truthy_VStr, Hr. cbn [negb].
  destruct (lookup (str "audioBase64") props3) as [ | | b | m e | s | l | o ];
    try (page_fields; rewrite <- app_assoc; split; reflexivity).
  destruct s; page_fields; rewrite <- app_assoc; split; reflexivity.
Qed.

Lemma staged_turn_witness :
  chatHistory
    (run (browser := Samples.chrome) Staged
       [ Answered 0 true (Fulfilled (VObj [ (str "transcript", VStr (str "hello")) ]));
         Answered 0 true (Fulfilled (VObj [ (str "assistantReply", VStr (str "hi there")) ]));
         Answered 0 true (Fulfilled (VObj [ (str "audioBase64", VStr (str "QUJD")) ])) ]
       MoreSamples.stagedAwaiting)
  = [ userTurn (str "hello"); assistantTurn (str "hi there") (VStr (str "QUJD")) ].
Proof.
  refine (proj1 (proj2 (proj2
    (@staged_turn Samples.chrome Staged
       {| audio := [Byte.x1a; Byte.x45; Byte.xdf; Byte.xa3];
          audioType := str "audio/webm;codecs=opus";
          filename := str "recording.webm";
          chatHistoryPayload := [] |}
       (str "hello") (str "hi there")
       [ (str "transcript", VStr (str "hello")) ]
       [ (str "assistantReply", VStr (str "hi there")) ]
       [ (str "audioBase64", VStr (str "QUJD")) ]
       MoreSamples.stagedAwaiting eq_refl eq_refl _ eq_refl _)))); discriminate.
Defined.

(** ** The chat log, the microphone, the title *)

Lemma audioElements_app (a b : list LogNode) :
  audioElements (a ++ b) = audioElements a ++ audioElements b.
Proof.
  induction a as [|x a IH]; simpl; [reflexivity|].
  destruct x as [t | c l t [src|]]; simpl; now rewrite IH.
Qed.

Lemma latest_of_appended (browser : Browser) (history : list ChatEntry)
    (reply : jsstring) (audio : value) :
  truthy audio = true ->
  playLatestAssistantAudio (renderChat (history ++ [assistantTurn reply audio]))
  = Some (str "data:audio/wav;base64," ++ textOf audio).
Proof.
  intros Ha. unfold playLatestAssistantAudio.
  assert (E : renderChat (history ++ [assistantTurn reply audio])
              = map renderEntry history ++ [renderEntry (assistantTurn reply audio)]).
  { unfold renderChat. destruct history as [|c h]; [reflexivity|].
    rewrite <- app_comm_cons. cbv iota. rewrite app_comm_cons.
    now rewrite map_app. }
  rewrite E, audioElements_app. unfold renderEntry at 2.
  cbn [assistantTurn role audioBase64 content]. rewrite Ha.
  change (jsstring_eqb (str "assistant") (str "assistant")) with true.
  cbn [andb audioElements]. rewrite map_app. cbn [map]. apply last_last.
Qed.

(** After a successful answer of [/api/chat] that carries audio, the audio
    element the page plays, the last one of the rendered chat log, is the
    one of the assistant turn just appended: its source is the data URL of
    the audio received. *)
Theorem latest_audio_is_the_new_reply (browser : Browser)
    (transcript reply : jsstring) (audio : value) (n : nat) (form : Upload)
    (p : Page) :
  nth_error (inflight p) n = Some (AwaitChat form) ->
  reply <> [] -> truthy audio = true ->
  playLatestAssistantAudio
    (renderChat
       (chatHistory
          (step SingleEndpoint
             (Wire.answerOf n
                {| Server.code := 200;
                   Server.json := Stages.okBody transcript reply audio |}) p)))
  = Some (str "data:audio/wav;base64," ++ textOf audio).
Proof.
  intros Hn Hr Ha.
  rewrite (@TurnFacts.success_answer_history browser transcript reply audio n form p
             Hn Hr Ha).
  rewrite !app_assoc. now apply latest_of_appended.
Qed.

Lemma latest_audio_is_the_new_reply_witness :
  playLatestAssistantAudio
    (renderChat (browser := Samples.chrome)
       (chatHistory
          (step (browser := Samples.chrome) SingleEndpoint
             (Wire.answerOf 0
                {| Server.code := 200;
                   Server.json := Stages.okBody (str "hello") (str "hi there")
                                    (VStr (str "QUJD")) |})
             Samples.awaiting)))
  = Some (str "data:audio/wav;base64,QUJD").
Proof.
  refine (@latest_audio_is_the_new_reply Samples.chrome (str "hello") (str "hi there")
            (VStr (str "QUJD")) 0
            {| audio := [Byte.x1a; Byte.x45; Byte.xdf; Byte.xa3];
               audioType := str "audio/webm;codecs=opus";
               filename := str "recording.webm";
               chatHistoryPayload := [] |}
            Samples.awaiting eq_refl _ eq_refl).
  discriminate.
Defined.

Lemma formatMicError_known (error : value) : In (formatMicError error) micMessages.
Proof.
  unfold formatMicError, micMessages. case_conditions; cbn [In]; auto 10.
Qed.

(** A refused device request, whatever its reason, shows one of the five
    fixed messages in the status line; the request is no longer pending,
    and the flag, the recorders, the streams and the count of requests
    made are as before: no recorder is started. *)
Theorem refused_request_is_reported (browser : Browser) (script : Script)
    (error : value) (p : Page) :
  micPending p <> 0 ->
  let q := step script (MicDenied error) p in
  statusText q = formatMicError error
  /\ In (statusText q) micMessages
  /\ micPending q = pred (micPending p)
  /\ isRecording q = isRecording p /\ recorders q = recorders p
  /\ liveStreams q = liveStreams p /\ deviceRequests q = deviceRequests p
  /\ chatHistory q = chatHistory p.
Proof.
  intros Hm. cbv zeta. cbn [step].
  destruct (micPending p =? 0)%nat eqn:E; [apply Nat.eqb_eq in E; contradiction|].
  unfold startRecording_denied, actionCatch, messageOr, newError. page_fields.
  repeat split. apply formatMicError_known.
Qed.

Lemma refused_request_is_reported_witness :
  statusText
    (step (browser := Samples.chrome) SingleEndpoint
       (MicDenied (VObj [ (str "name", VStr (str "NotFoundError")) ]))
       Samples.requesting)
  = str "No microphone was found. Check your audio input.".
Proof.
  refine (proj1 (@refused_request_is_reported Samples.chrome SingleEndpoint
                   (VObj [ (str "name", VStr (str "NotFoundError")) ])
                   Samples.requesting _)).
  discriminate.
Defined.

(** The title the page shows is the configured one, trimmed: loading the
    answer of [GET /api/config] sets the title to the trimmed [appTitle]
    when that is not blank and leaves the title alone when it is, logging
    nothing.  Whatever the answer, a title that is set is trimmed and not
    empty, and an answer that is not 2xx sets none. *)
Theorem app_title_is_trimmed_config (config : Server.Config) :
  loadAppConfig (configAnswer (ServerMore.configHandler config))
  = (if isEmpty (trim (Server.appTitle config)) then None
     else Some (trim (Server.appTitle config)), [])
  /\ (forall answer title logged,
        loadAppConfig answer = (Some title, logged) ->
        title <> [] /\ trim title = title /\ logged = [])
  /\ (forall body, loadAppConfig (Fulfilled (false, body)) = (None, [])).
Proof.
  split; [|split].
  - unfold loadAppConfig, configAnswer, ServerMore.configHandler.
    cbn [Server.code Server.json Nat.leb andb negb truthy].
    change (prop (VObj [(str "appTitle", VStr (Server.appTitle config))]) "appTitle")
      with (VStr (Server.appTitle config)).
    cbv beta iota. destruct (isEmpty (trim (Server.appTitle config))); reflexivity.
  - intros answer title logged. unfold loadAppConfig.
    destruct answer as [[okFlag body]|n m]; [|discriminate].
    destruct okFlag; cbn [negb]; [|discriminate].
    destruct body as [data|n m]; [|discriminate].
    destruct (truthy data); [|discriminate].
    destruct (prop data "appTitle") as [ | | b | m e | t | l | o ]; try discriminate.
    destruct (isEmpty (trim t)) eqn:E; cbn [negb]; [discriminate|].
    intros H. injection H as <- <-. split; [|split].
    + now apply isEmpty_false.
    + apply trim_idempotent.
    + reflexivity.
  - reflexivity.
Qed.

Lemma app_title_is_trimmed_config_witness :
  loadAppConfig (configAnswer (ServerMore.configHandler Samples.defaults))
  = (Some (str "Voice Webchat"), [])
  /\ str "Voice Webchat" <> [].
Proof.
  split; [reflexivity|].
  exact (proj1 (proj1 (proj2 (app_title_is_trimmed_config Samples.defaults))
                  (configAnswer (ServerMore.configHandler Samples.defaults))
                  (str "Voice Webchat") [] eq_refl)).
Defined.

End ClientMoreFacts.

(* ================================================================== *)
(** * Single-flight recording *)
(* ================================================================== *)

Module SingleFlightFacts.
Import JS Platform Client ClientMore ClientMoreFacts.

Section WithBrowser.

Context {browser : Browser}.
Variable script : Script.

Lemma firstSessionOpen_same (p q : Page) :
  recorders q = recorders p -> liveStreams q = liveStreams p ->
  streamsGranted q = streamsGranted p -> mediaRecorder q = mediaRecorder p ->
  firstSessionOpen p -> firstSessionOpen q.
Proof. unfold firstSessionOpen. now intros -> -> -> ->. Qed.

Lemma Forall_inactivate (P : Recorder -> Prop) (i : nat) (rs : list Recorder) :
  (forall r, P r ->
     P {| stream := stream r; state := Inactive; mimeType := mimeType r |}) ->
  Forall P rs -> Forall P (inactivate i rs).
Proof.
  intros HP H. revert i.
  induction H as [|r rs Hr Hrs IH]; intros [|i]; simpl; constructor; auto.
Qed.

Lemma firstSessionOpen_stopRecording (p : Page) :
  firstSessionOpen p -> firstSessionOpen (stopRecording p).
Proof.
  intros H. pose proof H as [[r [rest [Hr [Hs [Ht Hl]]]]] [Hin [Hg [i Hm]]]].
  unfold stopRecording, currentRecorder. rewrite Hm, Hr. cbn [nth_error].
  destruct (nth_error rest i) as [ri|]; [|exact H].
  destruct (state ri); [exact H|].
  unfold firstSessionOpen. page_fields. rewrite Hr. cbn [inactivate].
  split; [|split; [exact Hin | split; [exact Hg | now exists i]]].
  exists r, (inactivate i rest). repeat split; auto.
  apply Forall_inactivate; [|exact Hl]. intros x Hx. exact Hx.
Qed.

Lemma firstSessionOpen_granted (p : Page) :
  firstSessionOpen p -> firstSessionOpen (actionCatch (startRecording_granted p)).
Proof.
  intros [[r [rest [Hr [Hs [Ht Hl]]]]] [Hin [Hg [i Hm]]]].
  unfold startRecording_granted. cbv zeta.
  destruct (negb hasMediaRecorder); unfold actionCatch, firstSessionOpen;
    page_fields.
  - split; [now exists r, rest|]. split; [apply in_or_app; now left|].
    split; [lia | now exists i].
  - rewrite Hr. cbn [app List.length].
    split; [|split; [apply in_or_app; now left | split; [lia | eauto]]].
    eexists r, _. repeat split; auto.
    apply Forall_app. split; [exact Hl|]. constructor; [|constructor].
    cbn [stream]. lia.
Qed.

Lemma firstSessionOpen_stopped (k : nat) (p : Page) :
  firstSessionOpen p -> firstSessionOpen (step script (RecorderStopped (S k)) p).
Proof.
  intros H. pose proof H as [[r [rest [Hr [Hs [Ht Hl]]]]] [Hin [Hg [i Hm]]]].
  cbn [step]. rewrite Hr. cbn [nth_error].
  destruct (nth_error rest k) as [rk|] eqn:Ek; [|exact H].
  assert (Hk : stream rk <> 0).
  { rewrite Forall_forall in Hl. apply Hl. eapply nth_error_In, Ek. }
  assert (Hin' : In 0 (filter (fun s => negb (s =? stream rk)%nat) (liveStreams p))).
  { apply filter_In. split; [exact Hin|].
    destruct (0 =? stream rk)%nat eqn:E; [|reflexivity].
    apply Nat.eqb_eq in E. congruence. }
  assert (Hl' : Forall (fun later => stream later <> 0) (inactivate k rest)).
  { apply Forall_inactivate; [|exact Hl]. intros x Hx. exact Hx. }
  unfold actionCatch, stopRecording_stopped, sendRecording, currentRecorder.
  case_matches; unfold firstSessionOpen; page_fields; cbn [inactivate];
    (split; [exists r, (inactivate k rest); repeat split; auto
            | split; [exact Hin' | split; [exact Hg | now exists i]]]).
Qed.

Lemma firstSessionOpen_step (e : PageEvent) (p : Page) :
  e <> RecorderStopped 0 ->
  firstSessionOpen p -> firstSessionOpen (step script e p).
Proof.
  intros He H.
  destruct e as [ | | | error | data | recorder | n okFlag body | n name message | ].
  - cbn [step]. destruct (buttonDisabled p); [exact H|].
    destruct (isRecording p); [now apply firstSessionOpen_stopRecording|].
    unfold startRecording, actionCatch. cbv zeta.
    case_matches; (apply (@firstSessionOpen_same p); [..|exact H]); reflexivity.
  - exact H.
  - cbn [step]. destruct (micPending p =? 0)%nat; [exact H|].
    now apply firstSessionOpen_granted.
  - cbn [step]. destruct (micPending p =? 0)%nat; [exact H|].
    unfold startRecording_denied, actionCatch. exact H.
  - cbn [step]. destruct (0 <? List.length data)%nat; exact H.
  - destruct recorder as [|k]; [now elim He|].
    now apply firstSessionOpen_stopped.
  - cbn [step]. destruct (nth_error (inflight p) n) as [call|]; [|exact H].
    destruct (sameRecorder_answered call okFlag body
                (setInflight (removeNth n (inflight p)) p))
      as [H1 [H2 [_ [_ [_ [_ [_ [_ [H3 [H4 _]]]]]]]]]].
    apply (@firstSessionOpen_same p); [exact H2 | exact H4 | exact H3 | exact H1|].
    exact H.
  - cbn [step]. destruct (nth_error (inflight p) n); exact H.
  - cbn [step]. destruct (playing p =? 0)%nat; exact H.
Qed.

Lemma firstSessionOpen_run (events : list PageEvent) (p : Page) :
  ~ In (RecorderStopped 0) events ->
  firstSessionOpen p -> firstSessionOpen (run script events p).
Proof.
  revert p. induction events as [|e events IH]; intros p Hn H; [exact H|].
  change (run script (e :: events) p) with (run script events (step script e p)).
  apply IH.
  - intros Hin. apply Hn. now right.
  - apply firstSessionOpen_step; [|exact H].
    intros ->. apply Hn. now left.
Qed.

End WithBrowser.

(** C7 fails of both scripts.  The guard of [startRecording] (line 162) is
    the [isRecording] flag, and the flag is set only when a granted device
    request has started its recorder (line 188, after the [await] of line
    168).  So on the page as loaded in a browser that grants the
    microphone:
    - after one click the device request is pending and the flag is clear;
    - a second click then is not a no-op: it changes the page and makes a
      second device request;
    - once both requests are granted two streams are live and two
      recorders are recording, the second one held in [mediaRecorder]; a
      fragment the first recorder delivered before the second grant is
      dropped from [audioChunks];
    - the click that stops the recording stops the second recorder only:
      after its stop event the flag is clear, one recording has been
      uploaded, and the first recorder is still recording on the first
      stream;
    - and from then on nothing the page does ends the first session:
      whatever the events (short of a stop event of the first recorder,
      which the page never asks for), the first stream stays live and the
      first recorder stays recording. *)
Theorem second_start_while_requesting (script : Script) :
  let requesting :=
    run (browser := Samples.chrome) script [ClickRecord] Samples.loaded in
  let again := step (browser := Samples.chrome) script ClickRecord requesting in
  let both :=
    run (browser := Samples.chrome) script [MicGranted; MicGranted] again in
  let stopped :=
    run (browser := Samples.chrome) script
      [DataAvailable [Byte.x1a]; ClickRecord; RecorderStopped 1] both in
  (isRecording requesting = false
   /\ deviceRequests requesting = 1 /\ micPending requesting = 1)
  /\ (again <> requesting
      /\ deviceRequests again = 2 /\ micPending again = 2)
  /\ (streamsGranted both = 2 /\ liveStreams both = [0; 1]
      /\ map stream (recorders both) = [0; 1]
      /\ map state (recorders both) = [Recording; Recording]
      /\ mediaRecorder both = Some 1
      /\ isRecording both = true)
  /\ (audioChunks
        (run (browser := Samples.chrome) script [MicGranted; DataAvailable [Byte.x1a]]
           again) = [[Byte.x1a]]
      /\ audioChunks
           (run (browser := Samples.chrome) script
              [MicGranted; DataAvailable [Byte.x1a]; MicGranted] again) = [])
  /\ (isRecording stopped = false
      /\ List.length (inflight stopped) = 1
      /\ liveStreams stopped = [0]
      /\ map state (recorders stopped) = [Recording; Inactive]
      /\ mediaRecorder stopped = Some 1)
  /\ (forall events, ~ In (RecorderStopped 0) events ->
        let later := run (browser := Samples.chrome) script events both in
        In 0 (liveStreams later)
        /\ (exists r, nth_error (recorders later) 0 = Some r
                      /\ stream r = 0 /\ state r = Recording)
        /\ mediaRecorder later <> Some 0).
Proof.
  cbv zeta. split; [|split; [|split; [|split; [|split]]]].
  - repeat match goal with |- _ /\ _ => split end; vm_compute; reflexivity.
  - split; [|split; vm_compute; reflexivity].
    intros H. apply (f_equal deviceRequests) in H. vm_compute in H. discriminate H.
  - repeat match goal with |- _ /\ _ => split end; vm_compute; reflexivity.
  - destruct script; split; vm_compute; reflexivity.
  - destruct script;
      repeat match goal with |- _ /\ _ => split end; vm_compute; reflexivity.
  - intros events Hn.
    remember (run (browser := Samples.chrome) script [MicGranted; MicGranted]
                (step (browser := Samples.chrome) script ClickRecord
                   (run (browser := Samples.chrome) script [ClickRecord]
                      Samples.loaded))) as both eqn:Eb.
    assert (H : firstSessionOpen both).
    { assert (Hr : recorders both
                   = [ {| stream := 0; state := Recording;
                          mimeType := str "audio/webm;codecs=opus" |};
                       {| stream := 1; state := Recording;
                          mimeType := str "audio/webm;codecs=opus" |} ])
        by (subst both; vm_compute; reflexivity).
      assert (Hl : liveStreams both = [0; 1])
        by (subst both; vm_compute; reflexivity).
      assert (Hg : streamsGranted both = 2)
        by (subst both; vm_compute; reflexivity).
      assert (Hm : mediaRecorder both = Some 1)
        by (subst both; vm_compute; reflexivity).
      unfold firstSessionOpen. rewrite Hr, Hl, Hg, Hm.
      split; [|split; [now left | split; [lia | now exists 0]]].
      eexists _, _. split; [reflexivity|].
      split; [reflexivity|]. split; [reflexivity|].
      constructor; [discriminate | constructor]. }
    clear Eb.
    destruct (@firstSessionOpen_run Samples.chrome script events both Hn H)
      as [[r [rest [Hr [Hs [Ht _]]]]] [Hin [_ [i Hm]]]].
    split; [exact Hin|]. split.
    + exists r. rewrite Hr. repeat split; assumption.
    + rewrite Hm. discriminate.
Qed.

End SingleFlightFacts.
